(** * Inventory manager: stock ledger, transaction recorder, notifications

    A shallow embedding of the class [InventoryManager] of
    [src/InventoryManager.js], of the request handling of [src/server.js]
    and of the trigger of [src/database.sql].

    Modelling choices.
    - JavaScript values that reach the manager are [value]s; numbers are
      integers or [NaN] (the [stock] and [quantity] columns of
      [src/database.sql] are [INT]; prices are taken in whole units).
    - Every statement is sent with [connection.execute] on one connection
      and no statement opens, commits or rolls back a database transaction,
      so each statement takes effect on its own.
    - The store is modelled twice.  First as the two tables the JavaScript
      statements read and write, [products] and [transactions], each keyed
      by its business key ([UNIQUE] in [src/database.sql]): a statement does
      what its text says and is never refused, but for an insert on an
      existing key, which raises the driver error [ER_DUP_ENTRY], the code
      [addProduct] tests for.  This is the class taken by itself: what
      [addProduct], [updateStock] and the reports compute, and what
      [createTransaction] does on a table of transactions without a trigger.
    - Second, in the module [Database], as the store [src/database.sql]
      creates.  There an insert into [transactions] runs the trigger
      [trg_transaction_after_insert] as part of the statement, and the server
      can refuse a statement: a [CHECK] clause, a foreign key (the customer
      of a transaction is a row of [customers]), the [ENUM] of [type], the
      length or the range of a column, a connection that is lost.  What is
      enforced depends on the engine (the script names MySQL 5.7, which
      reads a [CHECK] clause and ignores it, where MySQL 8.0.16 and MariaDB
      10.2.1 enforce it), so an [engine] is given by the statements it
      refuses and the properties of [Database] hold for every engine.  A
      refused statement changes nothing (the tables are InnoDB tables).  The
      three methods that write and their three handlers of [src/server.js]
      are taken there again, statement by statement.  The procedure
      [UpdateProductStock] and the views of the script, which the class never
      calls, are not modelled.
    - Methods are [async]; one call is run to completion before the next
      starts, each [await] being sequencing in the monad [M].  The
      connection is taken as open, the console is not modelled.
    - [EventEmitter.emit] calls the listeners of the event one after the
      other, in registration order, on the caller's stack: a listener that
      raises ends [emit] with that exception.  The [emitted] component of
      the world records every call of [emit]. *)

From Stdlib Require Import ZArith Ascii String.
From Stdlib Require OrderedTypeEx.
From stdpp Require Import gmap strings pretty sorting list.

Local Open Scope string_scope.
Local Open Scope Z_scope.

(** ** JavaScript values *)

Inductive number :=
| NaN
| Num (z : Z).

Inductive value :=
| VUndefined
| VNull
| VBool (b : bool)
| VNumber (n : number)
| VString (s : string)
| VObject.

(** [typeof v] *)
Definition typeof (v : value) : string :=
  match v with
  | VUndefined => "undefined"
  | VNull => "object"
  | VBool _ => "boolean"
  | VNumber _ => "number"
  | VString _ => "string"
  | VObject => "object"
  end.

(** [!v] *)
Definition falsy (v : value) : bool :=
  match v with
  | VUndefined | VNull => true
  | VBool b => negb b
  | VNumber NaN => true
  | VNumber (Num z) => z =? 0
  | VString s => String.eqb s ""
  | VObject => false
  end.

(** [`${v}`] *)
Definition show (v : value) : string :=
  match v with
  | VUndefined => "undefined"
  | VNull => "null"
  | VBool true => "true"
  | VBool false => "false"
  | VNumber NaN => "NaN"
  | VNumber (Num z) => pretty z
  | VString s => s
  | VObject => "[object Object]"
  end.

(** [v === s] for a string literal [s] *)
Definition strict_eq (v : value) (s : string) : bool :=
  match v with
  | VString s' => String.eqb s' s
  | _ => false
  end.

(** The string and the integer held by a value.  They are applied to
    arguments only after [validateInput] has checked [typeof] on them. *)
Definition str (v : value) : string :=
  match v with VString s => s | _ => "" end.

Definition num (v : value) : Z :=
  match v with VNumber (Num z) => z | _ => 0 end.

(** Conversion of a string to a number: plain decimal integer literals, the
    part of the conversion that has a value among the modelled numbers; any
    other string is taken as [NaN].  The methods of the class never convert
    a string: each rule with a [min] has the type ["number"], and the type
    check comes first. *)
Definition digit (c : ascii) : option Z :=
  let n := Z.of_N (Ascii.N_of_ascii c) in
  if (48 <=? n) && (n <=? 57) then Some (n - 48) else None.

Fixpoint digits (acc : Z) (s : string) : option Z :=
  match s with
  | EmptyString => Some acc
  | String c s' =>
      match digit c with
      | Some d => digits (10 * acc + d) s'
      | None => None
      end
  end.

Definition string_to_number (s : string) : number :=
  match s with
  | EmptyString => Num 0
  | String "-"%char (String _ _ as s') =>
      match digits 0 s' with Some z => Num (- z) | None => NaN end
  | _ => match digits 0 s with Some z => Num z | None => NaN end
  end.

Definition to_number (v : value) : number :=
  match v with
  | VUndefined => NaN
  | VNull => Num 0
  | VBool b => Num (if b then 1 else 0)
  | VNumber n => n
  | VString s => string_to_number s
  | VObject => NaN
  end.

(** [v < m] for a number [m] *)
Definition js_lt (v : value) (m : Z) : bool :=
  match to_number v with
  | NaN => false
  | Num z => z <? m
  end.

(** ** Exceptions *)

Inductive exn :=
| InventoryNotificationError (message : string) (type : string)
| DriverError (code : string)
| Thrown (what : string).

Inductive outcome (A : Type) :=
| Return (a : A)
| Throw (e : exn).
Arguments Return {A} a.
Arguments Throw {A} e.

(** ** Validation helper *)

Record rule := {
  rule_required : bool;
  rule_type : option string;
  rule_min : option Z
}.

(** [data[field]] for an object given by its own properties; the fields the
    methods and the handlers read are no names of [Object.prototype]. *)
Fixpoint get (data : list (string * value)) (field : string) : value :=
  match data with
  | [] => VUndefined
  | (k, v) :: data' => if String.eqb k field then v else get data' field
  end.

(** [rule.type && ...]: an absent or empty type name is falsy. *)
Definition type_given (r : rule) : option string :=
  match rule_type r with
  | Some t => if String.eqb t "" then None else Some t
  | None => None
  end.

(** [rule.min && ...]: an absent minimum and the minimum [0] are falsy. *)
Definition min_given (r : rule) : option Z :=
  match rule_min r with
  | Some m => if m =? 0 then None else Some m
  | None => None
  end.

Definition check_rule (data : list (string * value)) (field : string) (r : rule)
  : option exn :=
  if rule_required r && falsy (get data field) then
    Some (InventoryNotificationError (field +:+ " is required") "VALIDATION_ERROR")
  else if match type_given r with
          | Some t => negb (String.eqb (typeof (get data field)) t)
          | None => false
          end then
    Some (InventoryNotificationError
            (field +:+ " must be of type " +:+ default "" (rule_type r))
            "VALIDATION_ERROR")
  else if match min_given r with
          | Some m => js_lt (get data field) m
          | None => false
          end then
    Some (InventoryNotificationError
            (field +:+ " must be at least " +:+ pretty (default 0 (rule_min r)))
            "VALIDATION_ERROR")
  else None.

(** [validateInput(data, rules)]: [None] when it returns, [Some e] when it
    throws [e]. *)
Fixpoint validateInput (data : list (string * value)) (rules : list (string * rule))
  : option exn :=
  match rules with
  | [] => None
  | (field, r) :: rules' =>
      match check_rule data field r with
      | Some e => Some e
      | None => validateInput data rules'
      end
  end.

(** ** The store and the world *)

(** A row of [products].  [row_id] is the column [id] ([AUTO_INCREMENT]). *)
Record product := {
  row_id : Z;
  product_id : string;
  name : string;
  price : Z;
  stock : Z;
  category : string
}.

(** A row of [transactions], with the columns [createTransaction] writes. *)
Record transaction := {
  transaction_id : string;
  txn_product_id : string;
  quantity : Z;
  txn_type : string;
  customer_id : string;
  unit_price : Z;
  total_amount : Z
}.

(** The object passed to the listeners of [transactionComplete]. *)
Record transaction_event := {
  ev_transactionId : string;
  ev_productId : string;
  ev_quantity : Z;
  ev_type : string;
  ev_customerId : string;
  ev_totalAmount : Z
}.

Inductive event :=
| LowStock (snapshot : product)
| TransactionComplete (snapshot : transaction_event).

Record world := {
  db_products : gmap string product;
  db_transactions : gmap string transaction;
  auto_increment : Z;
  emitted : list event
}.

Definition set_products (f : gmap string product → gmap string product) (w : world)
  : world :=
  {| db_products := f (db_products w);
     db_transactions := db_transactions w;
     auto_increment := auto_increment w;
     emitted := emitted w |}.

Definition set_transactions
  (f : gmap string transaction → gmap string transaction) (w : world) : world :=
  {| db_products := db_products w;
     db_transactions := f (db_transactions w);
     auto_increment := auto_increment w;
     emitted := emitted w |}.

Definition set_auto_increment (n : Z) (w : world) : world :=
  {| db_products := db_products w;
     db_transactions := db_transactions w;
     auto_increment := n;
     emitted := emitted w |}.

Definition record_emit (e : event) (w : world) : world :=
  {| db_products := db_products w;
     db_transactions := db_transactions w;
     auto_increment := auto_increment w;
     emitted := emitted w ++ [e] |}.

(** [{...product, stock: newStock}] *)
Definition with_stock (p : product) (newStock : Z) : product :=
  {| row_id := row_id p;
     product_id := product_id p;
     name := name p;
     price := price p;
     stock := newStock;
     category := category p |}.

(** ** Computations: a world is threaded through, an exception ends the
    computation and keeps the world reached so far. *)

Definition M (A : Type) : Type := world → world * outcome A.

Definition ret {A} (a : A) : M A := λ w, (w, Return a).

Definition throw {A} (e : exn) : M A := λ w, (w, Throw e).

Definition bind {A B} (m : M A) (k : A → M B) : M B :=
  λ w, match m w with
       | (w', Return a) => k a w'
       | (w', Throw e) => (w', Throw e)
       end.

(** [try { body } catch (error) { handler }] *)
Definition try_catch {A} (body : M A) (handler : exn → M A) : M A :=
  λ w, match body w with
       | (w', Return a) => (w', Return a)
       | (w', Throw e) => handler e w'
       end.

Notation "'let*' x ':=' m 'in' k" := (bind m (λ x, k))
  (at level 10, x name, m at level 200, k at level 200).

(** A call of [this.validateInput(data, rules)] in a method body. *)
Definition validate (data : list (string * value)) (rules : list (string * rule))
  : M unit :=
  match validateInput data rules with
  | Some e => throw e
  | None => ret tt
  end.

(** ** Statements sent through [connection.execute] *)

(** [SELECT * FROM products WHERE product_id = ?] *)
Definition select_product (productId : value) : M (list product) :=
  λ w, (w, Return (option_list (db_products w !! str productId))).

(** [UPDATE products SET stock = ?, updated_at = NOW() WHERE product_id = ?] *)
Definition update_stock (newStock : Z) (productId : value) : M unit :=
  λ w, (set_products (alter (λ p, with_stock p newStock) (str productId)) w,
        Return tt).

(** [INSERT INTO transactions (...) VALUES (?, ?, ?, ?, ?, ?, ?, NOW())] *)
Definition insert_transaction (row : transaction) : M unit :=
  λ w, match db_transactions w !! transaction_id row with
       | Some _ => (w, Throw (DriverError "ER_DUP_ENTRY"))
       | None => (set_transactions (insert (transaction_id row) row) w, Return tt)
       end.

(** [INSERT INTO products (...) VALUES (?, ?, ?, ?, ?, NOW())]; the result
    is [insertId]. *)
Definition insert_product (productId name price stock category : value) : M Z :=
  λ w, match db_products w !! str productId with
       | Some _ => (w, Throw (DriverError "ER_DUP_ENTRY"))
       | None =>
           let row := {| row_id := auto_increment w;
                         product_id := str productId;
                         name := str name;
                         price := num price;
                         stock := num stock;
                         category := str category |} in
           (set_auto_increment (auto_increment w + 1)
              (set_products (insert (str productId) row) w),
            Return (auto_increment w))
       end.

(** [stock <= ?] with the bound parameter [v]; a parameter that is not a
    number selects no row in the model. *)
Definition sql_le (s : Z) (v : value) : bool :=
  match v with
  | VNumber (Num z) => s <=? z
  | _ => false
  end.

Definition by_stock (p q : product) : Prop := stock p ≤ stock q.

Global Instance by_stock_dec p q : Decision (by_stock p q).
Proof. unfold by_stock. apply _. Defined.

(** [SELECT * FROM products WHERE stock <= ? ORDER BY stock ASC] *)
Definition select_low_stock (stockThreshold : value) : M (list product) :=
  λ w, (w, Return (merge_sort by_stock
                     (filter (λ p, sql_le (stock p) stockThreshold = true)
                        (snd <$> map_to_list (db_products w))))).

(** ** The manager *)

Record InventoryManager := {
  lowStockThreshold : Z;
  lowStock : list (product → option exn);
  transactionComplete : list (transaction_event → option exn)
}.

(** The two listeners of the class only write to the console. *)
Definition handleLowStockNotification (p : product) : option exn := None.

Definition logTransaction (t : transaction_event) : option exn := None.

(** [new InventoryManager(dbConfig)], once [init] has run. *)
Definition new_InventoryManager : InventoryManager :=
  {| lowStockThreshold := 10;
     lowStock := [handleLowStockNotification];
     transactionComplete := [logTransaction] |}.



(** The listeners are called in order until one raises. *)
Fixpoint call_listeners {A} (listeners : list (A → option exn)) (x : A) : option exn :=
  match listeners with
  | [] => None
  | f :: rest =>
      match f x with
      | Some e => Some e
      | None => call_listeners rest x
      end
  end.

Definition emit {A} (listeners : list (A → option exn)) (tag : A → event) (x : A)
  : M unit :=
  λ w, (record_emit (tag x) w,
        match call_listeners listeners x with
        | Some e => Throw e
        | None => Return tt
        end).

(** [error.code]: only driver errors carry one. *)
Definition code (e : exn) : option string :=
  match e with
  | DriverError c => Some c
  | _ => None
  end.

(** ** Methods of [InventoryManager] *)

Record add_result := { add_success : bool; insertId : Z }.

Record stock_result := { success : bool; oldStock : Z; newStock : Z }.

Record transaction_result := { txn_success : bool; totalAmount : Z }.

Definition required_string : rule :=
  {| rule_required := true; rule_type := Some "string"; rule_min := None |}.

Definition required_number (min : Z) : rule :=
  {| rule_required := true; rule_type := Some "number"; rule_min := Some min |}.

Definition addProduct (this : InventoryManager)
  (productId name price stock category : value) : M add_result :=
  try_catch
    (let* _ := validate
         [("productId", productId); ("name", name); ("price", price);
          ("stock", stock); ("category", category)]
         [("productId", required_string);
          ("name", required_string);
          ("price", required_number 0);
          ("stock", required_number 0);
          ("category", required_string)] in
     let* result := insert_product productId name price stock category in
     ret {| add_success := true; insertId := result |})
    (λ error,
       if bool_decide (code error = Some "ER_DUP_ENTRY") then
         throw (InventoryNotificationError
                  ("Product with ID " +:+ show productId +:+ " already exists")
                  "DUPLICATE_PRODUCT")
       else throw error).

Definition updateStock (this : InventoryManager)
  (productId quantity transactionType : value) : M stock_result :=
  try_catch
    (let* _ := validate
         [("productId", productId); ("quantity", quantity);
          ("transactionType", transactionType)]
         [("productId", required_string);
          ("quantity", required_number 1);
          ("transactionType", required_string)] in
     let* products := select_product productId in
     match products with
     | [] =>
         throw (InventoryNotificationError
                  ("Product with ID " +:+ show productId +:+ " not found")
                  "PRODUCT_NOT_FOUND")
     | product :: _ =>
         let* newStock :=
           if strict_eq transactionType "purchase"
              || strict_eq transactionType "restock" then
             ret (stock product + num quantity)
           else if strict_eq transactionType "sale" then
             if stock product <? num quantity then
               throw (InventoryNotificationError
                        ("Insufficient stock. Available: " +:+ pretty (stock product)
                         +:+ ", Requested: " +:+ show quantity)
                        "INSUFFICIENT_STOCK")
             else ret (stock product - num quantity)
           else
             throw (InventoryNotificationError
                      ("Invalid transaction type: " +:+ show transactionType)
                      "INVALID_TRANSACTION_TYPE") in
         let* _ := update_stock newStock productId in
         let* _ :=
           if newStock <=? lowStockThreshold this then
             emit (lowStock this) LowStock (with_stock product newStock)
           else ret tt in
         ret {| success := true; oldStock := stock product; newStock := newStock |}
     end)
    (λ error, throw error).

Definition createTransaction (this : InventoryManager)
  (transactionId productId quantity type customerId : value) : M transaction_result :=
  try_catch
    (let* _ := validate
         [("transactionId", transactionId); ("productId", productId);
          ("quantity", quantity); ("type", type); ("customerId", customerId)]
         [("transactionId", required_string);
          ("productId", required_string);
          ("quantity", required_number 1);
          ("type", required_string);
          ("customerId", required_string)] in
     let* products := select_product productId in
     match products with
     | [] =>
         throw (InventoryNotificationError
                  ("Product with ID " +:+ show productId +:+ " not found")
                  "PRODUCT_NOT_FOUND")
     | product :: _ =>
         let totalAmount := price product * num quantity in
         let* _ := insert_transaction
                     {| transaction_id := str transactionId;
                        txn_product_id := str productId;
                        quantity := num quantity;
                        txn_type := str type;
                        customer_id := str customerId;
                        unit_price := price product;
                        total_amount := totalAmount |} in
         let* _ := updateStock this productId quantity type in
         let* _ := emit (transactionComplete this) TransactionComplete
                     {| ev_transactionId := str transactionId;
                        ev_productId := str productId;
                        ev_quantity := num quantity;
                        ev_type := str type;
                        ev_customerId := str customerId;
                        ev_totalAmount := totalAmount |} in
         ret {| txn_success := true; totalAmount := totalAmount |}
     end)
    (λ error, throw error).

(** [getLowStockProducts(threshold = null)] *)
Definition getLowStockProducts (this : InventoryManager) (threshold : value)
  : M (list product) :=
  let threshold := match threshold with VUndefined => VNull | v => v end in
  try_catch
    (let stockThreshold :=
       if falsy threshold then VNumber (Num (lowStockThreshold this)) else threshold in
     let* products := select_low_stock stockThreshold in
     ret products)
    (λ error, throw error).

(** [handleLowStockReport] of [src/server.js], from the result [threshold]
    of [parseInt(query.threshold)] on: the [data] of the response. *)
Record low_stock_report := { lowStockProducts : list product; count : nat }.

Definition handleLowStockReport (inventoryManager : InventoryManager)
  (threshold : number) : M low_stock_report :=
  let* result := getLowStockProducts inventoryManager (VNumber threshold) in
  ret {| lowStockProducts := result; count := length result |}.

(** ** Reports

    Strings are compared as they are written (as the keys of the tables
    are): [WHERE category = ?] selects the rows with that very category and
    [ORDER BY name] orders the names byte by byte. *)

(** [SUM(e)] over the rows: [NULL] when there is no row. *)
Definition sql_sum (l : list Z) : value :=
  match l with
  | [] => VNull
  | _ => VNumber (Num (foldr Z.add 0 l))
  end.

(** [v || 0] *)
Definition or_0 (v : value) : value :=
  if falsy v then VNumber (Num 0) else v.

Record inventory_value := {
  totalValue : value;
  totalProducts : value;
  totalStock : value
}.

(** [SELECT SUM(price * stock) as totalValue, COUNT( * ) as totalProducts,
    SUM(stock) as totalStock FROM products]: the row [result[0]]. *)
Definition select_inventory : M inventory_value :=
  λ w, let rows := snd <$> map_to_list (db_products w) in
       (w, Return {| totalValue := sql_sum ((λ p, price p * stock p) <$> rows);
                     totalProducts := VNumber (Num (Z.of_nat (length rows)));
                     totalStock := sql_sum (stock <$> rows) |}).

Definition getInventoryValue (this : InventoryManager) : M inventory_value :=
  try_catch
    (let* result := select_inventory in
     ret {| totalValue := or_0 (totalValue result);
            totalProducts := or_0 (totalProducts result);
            totalStock := or_0 (totalStock result) |})
    (λ error, throw error).

(** The quotient of [Math.ceil(total / limit)]. *)
Inductive quotient :=
| QNaN
| QInfinity
| QNum (z : Z).

(** [Math.ceil(total / limit)] for a count [total] and an integer [limit]. *)
Definition ceil_div (total : nat) (limit : Z) : quotient :=
  if limit =? 0 then
    match total with O => QNaN | S _ => QInfinity end
  else QNum (- ((- Z.of_nat total) `div` limit)).

Record pagination_info := {
  currentPage : Z;
  totalPages : quotient;
  totalItems : nat;
  itemsPerPage : Z
}.

Record product_page := {
  products : list product;
  pagination : pagination_info
}.

Definition by_name (p q : product) : Prop := String.leb (name p) (name q) = true.

Global Instance by_name_dec p q : Decision (by_name p q).
Proof. unfold by_name. apply _. Defined.

(** [if (category)]: the [WHERE category = ?] clause is added for a
    category that is neither undefined nor empty. *)
Definition where_category (category : option string) : option string :=
  match category with
  | Some c => if String.eqb c "" then None else Some c
  | None => None
  end.

(** The rows of [products] a query with that clause ranges over. *)
Definition rows_where (clause : option string) (w : world) : list product :=
  match clause with
  | Some c => filter (λ p, String.eqb (category p) c = true)
                (snd <$> map_to_list (db_products w))
  | None => snd <$> map_to_list (db_products w)
  end.

(** [SELECT * FROM products [WHERE category = ?] ORDER BY name LIMIT ?
    OFFSET ?]; a negative [LIMIT] or [OFFSET] is refused by the server. *)
Definition select_page (clause : option string) (limit offset : Z)
  : M (list product) :=
  λ w, if (limit <? 0) || (offset <? 0) then
         (w, Throw (DriverError "ER_WRONG_ARGUMENTS"))
       else
         (w, Return (take (Z.to_nat limit)
                       (drop (Z.to_nat offset)
                          (merge_sort by_name (rows_where clause w))))).

(** [SELECT COUNT( * ) as total FROM products [WHERE category = ?]]: the
    [total] of the row [countResult[0]]. *)
Definition count_products (clause : option string) : M nat :=
  λ w, (w, Return (length (rows_where clause w))).

(** [getProductsByCategory(category, page = 1, limit = 10)]; [category] is
    a string or undefined, [page] and [limit] are integers. *)
Definition getProductsByCategory (this : InventoryManager)
  (category : option string) (page limit : Z) : M product_page :=
  try_catch
    (let offset := (page - 1) * limit in
     let* products := select_page (where_category category) limit offset in
     let* total := count_products (where_category category) in
     let totalPages := ceil_div total limit in
     ret {| products := products;
            pagination := {| currentPage := page;
                             totalPages := totalPages;
                             totalItems := total;
                             itemsPerPage := limit |} |})
    (λ error, throw error).

(** [n || d] for the result [n] of [parseInt]. *)
Definition or_default (n : number) (d : Z) : Z :=
  match n with
  | NaN => d
  | Num z => if z =? 0 then d else z
  end.

(** [handleGetProducts] of [src/server.js], from [query.category] and the
    results of [parseInt(query.page)] and [parseInt(query.limit)] on: the
    [data] of the response. *)
Definition handleGetProducts (inventoryManager : InventoryManager)
  (category : option string) (page limit : number) : M product_page :=
  getProductsByCategory inventoryManager category
    (or_default page 1) (or_default limit 10).

(** ** The server, [src/server.js]

    A request is taken as Node hands it over: the method, the path
    [parsedUrl.pathname] (it holds no line terminator), the object [query]
    and what [parseBody] makes of the body.  The time stamp of an error
    response is not modelled.  [parseInt] and the three handlers whose
    queries range over dates ([handleSalesReport], [handleTopProductsReport],
    [handleProductHistory]) are parameters. *)

Inductive route :=
| AddProductRoute
| GetProductsRoute
| UpdateProductRoute (productId : string)
| CreateTransactionRoute
| InventoryReportRoute
| LowStockReportRoute
| SalesReportRoute
| TopProductsReportRoute
| ProductHistoryRoute (productId : string)
| NotFoundRoute.

(** [s] without the prefix [pre], when it starts with it. *)
Fixpoint strip_prefix (pre s : string) : option string :=
  match pre with
  | EmptyString => Some s
  | String c pre' =>
      match s with
      | EmptyString => None
      | String d s' => if Ascii.eqb c d then strip_prefix pre' s' else None
      end
  end.

(** [s] without the suffix [suf], when it ends with it. *)
Definition strip_suffix (suf s : string) : option string :=
  String.rev <$> strip_prefix (String.rev suf) (String.rev s).

(** A non-empty string, what [(.+)] captures. *)
Definition captured (s : option string) : option string :=
  match s with
  | Some (String _ _ as id) => Some id
  | _ => None
  end.

(** [path.match(/^\/products\/(.+)$/)]: the group 1 of the match. *)
Definition match_product (path : string) : option string :=
  captured (strip_prefix "/products/" path).

(** [path.match(/^\/products\/(.+)\/history$/)]: the group 1 of the match. *)
Definition match_history (path : string) : option string :=
  captured (strip_prefix "/products/" path ≫= strip_suffix "/history").

(** The chain of tests on [path] and [method] in [handleRequest]. *)
Definition dispatch (path method : string) : route :=
  if String.eqb path "/products" && String.eqb method "POST" then AddProductRoute
  else if String.eqb path "/products" && String.eqb method "GET" then
    GetProductsRoute
  else if bool_decide (is_Some (match_product path)) && String.eqb method "PUT" then
    UpdateProductRoute (default "" (match_product path))
  else if String.eqb path "/transactions" && String.eqb method "POST" then
    CreateTransactionRoute
  else if String.eqb path "/reports/inventory" && String.eqb method "GET" then
    InventoryReportRoute
  else if String.eqb path "/reports/low-stock" && String.eqb method "GET" then
    LowStockReportRoute
  else if String.eqb path "/reports/sales" && String.eqb method "GET" then
    SalesReportRoute
  else if String.eqb path "/reports/top-products" && String.eqb method "GET" then
    TopProductsReportRoute
  else if bool_decide (is_Some (match_history path)) && String.eqb method "GET" then
    ProductHistoryRoute (default "" (match_history path))
  else NotFoundRoute.

(** The [data] of a response. *)
Inductive payload :=
| AddData (result : add_result)
| StockData (result : stock_result)
| TransactionData (result : transaction_result)
| PageData (result : product_page)
| InventoryData (result : inventory_value)
| LowStockData (result : low_stock_report)
| OtherData (what : string).

(** What is sent: nothing ([res.end()]), [{success: false, error,
    timestamp}], or [{success: true, message, data}]. *)
Inductive sent :=
| Nothing
| Failure (error : string)
| Success (message : option string) (data : payload).

Record response := { statusCode : Z; body : sent }.

Record http_request := {
  method : string;
  path : string;
  query : list (string * string);
  parsed_body : option (list (string * value))
}.

(** [query[key]] *)
Fixpoint query_get (query : list (string * string)) (key : string) : option string :=
  match query with
  | [] => None
  | (k, v) :: query' => if String.eqb k key then Some v else query_get query' key
  end.

(** [await this.parseBody(req)]: a body that [JSON.parse] refuses rejects
    with [Error("Invalid JSON")]; destructuring [null] throws as well. *)
Definition parseBody (req : http_request) : M (list (string * value)) :=
  match parsed_body req with
  | Some fields => ret fields
  | None => throw (Thrown "Invalid JSON")
  end.

Section server.
Variable parseInt : option string → number.
Variable date_report : route → list (string * string) → M payload.
Variable inventoryManager : InventoryManager.

Definition handleAddProduct (req : http_request) : M response :=
  let* body := parseBody req in
  let* result := addProduct inventoryManager (get body "productId")
                   (get body "name") (get body "price") (get body "stock")
                   (get body "category") in
  ret {| statusCode := 201;
         body := Success (Some "Product added successfully") (AddData result) |}.

Definition handleUpdateProduct (req : http_request) (productId : string)
  : M response :=
  let* body := parseBody req in
  let* result := updateStock inventoryManager (VString productId)
                   (get body "quantity") (get body "transactionType") in
  ret {| statusCode := 200;
         body := Success (Some "Stock updated successfully") (StockData result) |}.

Definition handleCreateTransaction (req : http_request) : M response :=
  let* body := parseBody req in
  let* result := createTransaction inventoryManager (get body "transactionId")
                   (get body "productId") (get body "quantity") (get body "type")
                   (get body "customerId") in
  ret {| statusCode := 201;
         body := Success (Some "Transaction created successfully")
                   (TransactionData result) |}.

(** The branch of [handleRequest] for a route. *)
Definition serve (req : http_request) (r : route) : M response :=
  match r with
  | AddProductRoute => handleAddProduct req
  | GetProductsRoute =>
      let* result := handleGetProducts inventoryManager
                       (query_get (query req) "category")
                       (parseInt (query_get (query req) "page"))
                       (parseInt (query_get (query req) "limit")) in
      ret {| statusCode := 200; body := Success None (PageData result) |}
  | UpdateProductRoute productId => handleUpdateProduct req productId
  | CreateTransactionRoute => handleCreateTransaction req
  | InventoryReportRoute =>
      let* result := getInventoryValue inventoryManager in
      ret {| statusCode := 200; body := Success None (InventoryData result) |}
  | LowStockReportRoute =>
      let* result := handleLowStockReport inventoryManager
                       (parseInt (query_get (query req) "threshold")) in
      ret {| statusCode := 200; body := Success None (LowStockData result) |}
  | SalesReportRoute | TopProductsReportRoute | ProductHistoryRoute _ =>
      let* result := date_report r (query req) in
      ret {| statusCode := 200; body := Success None result |}
  | NotFoundRoute =>
      ret {| statusCode := 404; body := Failure "Not Found" |}
  end.

(** [handleRequest(req, res)]: the world it leaves and the response. *)
Definition handleRequest (req : http_request) (w : world) : world * response :=
  if String.eqb (method req) "OPTIONS" then
    (w, {| statusCode := 200; body := Nothing |})
  else
    match serve req (dispatch (path req) (method req)) w with
    | (w', Return res) => (w', res)
    | (w', Throw (InventoryNotificationError message _)) =>
        (w', {| statusCode := 400; body := Failure message |})
    | (w', Throw _) =>
        (w', {| statusCode := 500; body := Failure "Internal Server Error" |})
    end.
End server.

(** ** The trigger of [src/database.sql]

    [trg_transaction_after_insert], [AFTER INSERT ON transactions FOR EACH
    ROW], as a statement on the store: [NEW.type] is a value of the [ENUM] of
    the column, spelled as the column declares it.  The store of the methods
    above does not run it; the store of [Database] below does. *)
Definition trg_transaction_after_insert (NEW : transaction) : M unit :=
  λ w, if String.eqb (txn_type NEW) "sale" then
         (set_products
            (alter (λ p, with_stock p (stock p - quantity NEW))
               (txn_product_id NEW)) w,
          Return tt)
       else if String.eqb (txn_type NEW) "purchase"
               || String.eqb (txn_type NEW) "restock" then
         (set_products
            (alter (λ p, with_stock p (stock p + quantity NEW))
               (txn_product_id NEW)) w,
          Return tt)
       else (w, Return tt).

(** ** The store that [src/database.sql] creates

    The statements of the three methods that write, as the database server
    receives them from [connection.execute]. *)
Inductive statement :=
| SELECT_product (product_id : string)
| INSERT_product (product_id name : string) (price stock : Z) (category : string)
| UPDATE_stock (stock : Z) (product_id : string)
| INSERT_transaction (row : transaction).

(** What the server refuses: [db s w] is the [code] of the error with which
    the statement [s] is refused in the state [w], [None] when the statement
    is carried out.  An existing key is not among the reasons: the tables
    themselves tell. *)
Definition engine : Type := statement → world → option string.

Module Database.
Section connection.
Variable db : engine.

(** [await this.connection.execute(sql, params)]: a refused statement
    rejects with the driver's error and leaves the store as it was. *)
Definition execute {A} (s : statement) (effect : M A) : M A :=
  λ w, match db s w with
       | Some c => (w, Throw (DriverError c))
       | None => effect w
       end.

(** [SELECT * FROM products WHERE product_id = ?] *)
Definition select_product (productId : value) : M (list product) :=
  execute (SELECT_product (str productId)) (select_product productId).

(** [UPDATE products SET stock = ?, updated_at = NOW() WHERE product_id = ?] *)
Definition update_stock (newStock : Z) (productId : value) : M unit :=
  execute (UPDATE_stock newStock (str productId)) (update_stock newStock productId).

(** [INSERT INTO transactions (...) VALUES (?, ?, ?, ?, ?, ?, ?, NOW())]:
    the row is inserted and the trigger runs for it, as one statement. *)
Definition insert_transaction (row : transaction) : M unit :=
  execute (INSERT_transaction row)
    (let* _ := insert_transaction row in
     trg_transaction_after_insert row).

(** [INSERT INTO products (...) VALUES (?, ?, ?, ?, ?, NOW())] *)
Definition insert_product (productId name price stock category : value) : M Z :=
  execute (INSERT_product (str productId) (str name) (num price) (num stock)
             (str category))
    (insert_product productId name price stock category).

(** The three methods that write, word for word as above, on this store. *)
Definition addProduct (this : InventoryManager)
  (productId name price stock category : value) : M add_result :=
  try_catch
    (let* _ := validate
         [("productId", productId); ("name", name); ("price", price);
          ("stock", stock); ("category", category)]
         [("productId", required_string);
          ("name", required_string);
          ("price", required_number 0);
          ("stock", required_number 0);
          ("category", required_string)] in
     let* result := insert_product productId name price stock category in
     ret {| add_success := true; insertId := result |})
    (λ error,
       if bool_decide (code error = Some "ER_DUP_ENTRY") then
         throw (InventoryNotificationError
                  ("Product with ID " +:+ show productId +:+ " already exists")
                  "DUPLICATE_PRODUCT")
       else throw error).

Definition updateStock (this : InventoryManager)
  (productId quantity transactionType : value) : M stock_result :=
  try_catch
    (let* _ := validate
         [("productId", productId); ("quantity", quantity);
          ("transactionType", transactionType)]
         [("productId", required_string);
          ("quantity", required_number 1);
          ("transactionType", required_string)] in
     let* products := select_product productId in
     match products with
     | [] =>
         throw (InventoryNotificationError
                  ("Product with ID " +:+ show productId +:+ " not found")
                  "PRODUCT_NOT_FOUND")
     | product :: _ =>
         let* newStock :=
           if strict_eq transactionType "purchase"
              || strict_eq transactionType "restock" then
             ret (stock product + num quantity)
           else if strict_eq transactionType "sale" then
             if stock product <? num quantity then
               throw (InventoryNotificationError
                        ("Insufficient stock. Available: " +:+ pretty (stock product)
                         +:+ ", Requested: " +:+ show quantity)
                        "INSUFFICIENT_STOCK")
             else ret (stock product - num quantity)
           else
             throw (InventoryNotificationError
                      ("Invalid transaction type: " +:+ show transactionType)
                      "INVALID_TRANSACTION_TYPE") in
         let* _ := update_stock newStock productId in
         let* _ :=
           if newStock <=? lowStockThreshold this then
             emit (lowStock this) LowStock (with_stock product newStock)
           else ret tt in
         ret {| success := true; oldStock := stock product; newStock := newStock |}
     end)
    (λ error, throw error).

Definition createTransaction (this : InventoryManager)
  (transactionId productId quantity type customerId : value) : M transaction_result :=
  try_catch
    (let* _ := validate
         [("transactionId", transactionId); ("productId", productId);
          ("quantity", quantity); ("type", type); ("customerId", customerId)]
         [("transactionId", required_string);
          ("productId", required_string);
          ("quantity", required_number 1);
          ("type", required_string);
          ("customerId", required_string)] in
     let* products := select_product productId in
     match products with
     | [] =>
         throw (InventoryNotificationError
                  ("Product with ID " +:+ show productId +:+ " not found")
                  "PRODUCT_NOT_FOUND")
     | product :: _ =>
         let totalAmount := price product * num quantity in
         let* _ := insert_transaction
                     {| transaction_id := str transactionId;
                        txn_product_id := str productId;
                        quantity := num quantity;
                        txn_type := str type;
                        customer_id := str customerId;
                        unit_price := price product;
                        total_amount := totalAmount |} in
         let* _ := updateStock this productId quantity type in
         let* _ := emit (transactionComplete this) TransactionComplete
                     {| ev_transactionId := str transactionId;
                        ev_productId := str productId;
                        ev_quantity := num quantity;
                        ev_type := str type;
                        ev_customerId := str customerId;
                        ev_totalAmount := totalAmount |} in
         ret {| txn_success := true; totalAmount := totalAmount |}
     end)
    (λ error, throw error).
End connection.

(** The three handlers of [src/server.js] that call them and
    [handleRequest], word for word as above, on this store.  The other
    routes only read: they are served as above. *)
Section server.
Variable db : engine.
Variable parseInt : option string → number.
Variable date_report : route → list (string * string) → M payload.
Variable inventoryManager : InventoryManager.

Definition handleAddProduct (req : http_request) : M response :=
  let* body := parseBody req in
  let* result := addProduct db inventoryManager (get body "productId")
                   (get body "name") (get body "price") (get body "stock")
                   (get body "category") in
  ret {| statusCode := 201;
         body := Success (Some "Product added successfully") (AddData result) |}.

Definition handleUpdateProduct (req : http_request) (productId : string)
  : M response :=
  let* body := parseBody req in
  let* result := updateStock db inventoryManager (VString productId)
                   (get body "quantity") (get body "transactionType") in
  ret {| statusCode := 200;
         body := Success (Some "Stock updated successfully") (StockData result) |}.

Definition handleCreateTransaction (req : http_request) : M response :=
  let* body := parseBody req in
  let* result := createTransaction db inventoryManager (get body "transactionId")
                   (get body "productId") (get body "quantity") (get body "type")
                   (get body "customerId") in
  ret {| statusCode := 201;
         body := Success (Some "Transaction created successfully")
                   (TransactionData result) |}.

(** The branch of [handleRequest] for a route. *)
Definition serve (req : http_request) (r : route) : M response :=
  match r with
  | AddProductRoute => handleAddProduct req
  | UpdateProductRoute productId => handleUpdateProduct req productId
  | CreateTransactionRoute => handleCreateTransaction req
  | _ => serve parseInt date_report inventoryManager req r
  end.

(** [handleRequest(req, res)]: the world it leaves and the response. *)
Definition handleRequest (req : http_request) (w : world) : world * response :=
  if String.eqb (method req) "OPTIONS" then
    (w, {| statusCode := 200; body := Nothing |})
  else
    match serve req (dispatch (path req) (method req)) w with
    | (w', Return res) => (w', res)
    | (w', Throw (InventoryNotificationError message _)) =>
        (w', {| statusCode := 400; body := Failure message |})
    | (w', Throw _) =>
        (w', {| statusCode := 500; body := Failure "Internal Server Error" |})
    end.
End server.
End Database.

(** * Vocabulary of the properties *)

(** ** Arguments that pass validation *)

Definition valid_string (v : value) : Prop := ∃ s, v = VString s ∧ s ≠ "".

Definition valid_quantity (v : value) : Prop := ∃ z, v = VNumber (Num z) ∧ 1 ≤ z.

(** ** The tails of the two mutations *)

(** What [updateStock] does once [newStock] is known: the [UPDATE], the
    notification and the result. *)
Definition write_stock (this : InventoryManager) (pid : string) (p : product)
  (new : Z) : M stock_result :=
  let* _ := update_stock new (VString pid) in
  let* _ :=
    if new <=? lowStockThreshold this then
      emit (lowStock this) LowStock (with_stock p new)
    else ret tt in
  ret {| success := true; oldStock := stock p; newStock := new |}.

(** The row [createTransaction] inserts and the object it emits. *)
Definition row_of (tid pid : string) (q : Z) (ty cid : string) (p : product)
  : transaction :=
  {| transaction_id := tid;
     txn_product_id := pid;
     quantity := q;
     txn_type := ty;
     customer_id := cid;
     unit_price := price p;
     total_amount := price p * q |}.

Definition event_of (tid pid : string) (q : Z) (ty cid : string) (p : product)
  : transaction_event :=
  {| ev_transactionId := tid;
     ev_productId := pid;
     ev_quantity := q;
     ev_type := ty;
     ev_customerId := cid;
     ev_totalAmount := price p * q |}.

(** What [createTransaction] does once the row is inserted. *)
Definition after_insert (this : InventoryManager) (tid pid : string) (q : Z)
  (ty cid : string) (p : product) : M transaction_result :=
  let* _ := updateStock this (VString pid) (VNumber (Num q)) (VString ty) in
  let* _ := emit (transactionComplete this) TransactionComplete
              (event_of tid pid q ty cid p) in
  ret {| txn_success := true; totalAmount := price p * q |}.

(** ** The store of [Database] *)

(** An engine that refuses no statement: the connection is up and every row
    is within what the script declares. *)
Definition permissive : engine := λ _ _, None.

(** The state an insert of [row] into [transactions] leaves when it is
    carried out: the row is inserted and the trigger has run for it. *)
Definition inserted (row : transaction) (w : world) : world :=
  (trg_transaction_after_insert row
     (set_transactions (insert (transaction_id row) row) w)).1.

(** What [Database.updateStock] does once [newStock] is known. *)
Definition db_write_stock (db : engine) (this : InventoryManager) (pid : string)
  (p : product) (new : Z) : M stock_result :=
  Database.execute db (UPDATE_stock new pid) (write_stock this pid p new).

(** What [Database.createTransaction] does once the row is inserted. *)
Definition db_after_insert (db : engine) (this : InventoryManager)
  (tid pid : string) (q : Z) (ty cid : string) (p : product) : M transaction_result :=
  let* _ := Database.updateStock db this (VString pid) (VNumber (Num q))
              (VString ty) in
  let* _ := emit (transactionComplete this) TransactionComplete
              (event_of tid pid q ty cid p) in
  ret {| txn_success := true; totalAmount := price p * q |}.

(** [p'] is the row [p] but for its stock. *)
Definition same_but_stock (p p' : product) : Prop :=
  row_id p' = row_id p ∧ product_id p' = product_id p ∧ name p' = name p
  ∧ price p' = price p ∧ category p' = category p.

(** ** Listeners *)

(** No listener of the manager raises. *)
Definition quiet (this : InventoryManager) : Prop :=
  (∀ p, call_listeners (lowStock this) p = None)
  ∧ (∀ t, call_listeners (transactionComplete this) t = None).

(** ** Kinds of failure *)

(** [e] is an [InventoryNotificationError] whose [type] is [t]. *)
Definition has_type (e : exn) (t : string) : Prop :=
  ∃ message, e = InventoryNotificationError message t.

(** ** Sequences of mutations *)

Inductive operation :=
| UpdateStock (productId quantity transactionType : value)
| CreateTransaction (transactionId productId quantity type customerId : value).

Definition returned {A} (r : outcome A) : bool :=
  match r with Return _ => true | Throw _ => false end.

(** One call: the world it leaves and whether it returned. *)
Definition perform (this : InventoryManager) (o : operation) (w : world)
  : world * bool :=
  match o with
  | UpdateStock productId quantity transactionType =>
      let r := updateStock this productId quantity transactionType w in
      (r.1, returned r.2)
  | CreateTransaction transactionId productId quantity type customerId =>
      let r := createTransaction this transactionId productId quantity type
                 customerId w in
      (r.1, returned r.2)
  end.

(** The calls of [ops] in order; [Some w'] when every one of them returned. *)
Fixpoint all_succeed (this : InventoryManager) (ops : list operation) (w : world)
  : option world :=
  match ops with
  | [] => Some w
  | o :: ops' =>
      match perform this o w with
      | (w', true) => all_succeed this ops' w'
      | (_, false) => None
      end
  end.

(** The stock of the product [k], when there is such a product, is not
    negative. *)
Definition stock_nonneg (k : string) (w : world) : Prop :=
  match db_products w !! k with
  | Some p => 0 ≤ stock p
  | None => True
  end.

(** ** The scenario of the specification: product [P1], price 100, stock 5,
    and the calls made on it *)

Definition P1 : product :=
  {| row_id := 1; product_id := "P1"; name := "Widget"; price := 100;
     stock := 5; category := "X" |}.

Definition scenario : world :=
  {| db_products := {[ "P1" := P1 ]};
     db_transactions := ∅;
     auto_increment := 2;
     emitted := [] |}.

(** The world after [T1], the sale of 3 of [P1]: stock 2. *)
Definition after_T1 : world :=
  {| db_products := {[ "P1" := with_stock P1 2 ]};
     db_transactions := {[ "T1" := row_of "T1" "P1" 3 "sale" "C1" P1 ]};
     auto_increment := 2;
     emitted := [LowStock (with_stock P1 2);
                 TransactionComplete (event_of "T1" "P1" 3 "sale" "C1" P1)] |}.




(** [createTransaction("T1", "P1", 1, "sale", "C1")] once [T1] exists. *)
Definition second_T1_call : world * outcome transaction_result :=
  createTransaction new_InventoryManager (VString "T1") (VString "P1")
    (VNumber (Num 1)) (VString "sale") (VString "C1") after_T1.

(** [addProduct("P1", "Widget", 100, 5, "X")] once [P1] exists. *)
Definition second_P1_call : world * outcome add_result :=
  addProduct new_InventoryManager (VString "P1") (VString "Widget")
    (VNumber (Num 100)) (VNumber (Num 5)) (VString "X") scenario.

(** ** Any sequence of calls, whatever their outcomes *)

Inductive request :=
| AddProduct (productId name price stock category : value)
| Mutation (o : operation).

(** The world one call leaves, whether it returns or throws. *)
Definition step (this : InventoryManager) (r : request) (w : world) : world :=
  match r with
  | AddProduct productId name price stock category =>
      (addProduct this productId name price stock category w).1
  | Mutation o => (perform this o w).1
  end.

(** The world after the calls of [rs], one after the other. *)
Definition run (this : InventoryManager) (rs : list request) (w : world) : world :=
  foldl (λ w r, step this r w) w rs.

(** ** The ledger *)

(** A row as [createTransaction] writes it: a quantity of at least 1, the
    total being the unit price times the quantity, for a product of the
    store. *)
Definition well_formed_row (w : world) (t : transaction) : Prop :=
  1 ≤ quantity t
  ∧ total_amount t = unit_price t * quantity t
  ∧ is_Some (db_products w !! txn_product_id t).

(** The change of stock a row stands for. *)
Definition signed_quantity (t : transaction) : Z :=
  if String.eqb (txn_type t) "sale" then - quantity t
  else if String.eqb (txn_type t) "purchase" || String.eqb (txn_type t) "restock"
       then quantity t
       else 0.

(** The net change of the stock of [k] the rows of [transactions] stand
    for. *)
Definition net_of (k : string) (w : world) : Z :=
  foldr Z.add 0
    ((λ t, if String.eqb (txn_product_id t) k then signed_quantity t else 0)
       <$> (snd <$> map_to_list (db_transactions w))).

(** The stock of [k], 0 when there is no such product. *)
Definition stock_of (k : string) (w : world) : Z :=
  match db_products w !! k with
  | Some p => stock p
  | None => 0
  end.

(** ** Pages *)

(** The products of page [i] of [getProductsByCategory], nothing when the
    call throws. *)
Definition page_of (this : InventoryManager) (category : option string)
  (limit : Z) (w : world) (i : nat) : list product :=
  match (getProductsByCategory this category (Z.of_nat i) limit w).2 with
  | Return r => products r
  | Throw _ => []
  end.

(** What a server may answer to the query of a page, [ORDER BY name LIMIT ?
    OFFSET ?]: the rows the query ranges over in an order that is ascending
    in [name], cut to the page.  The order of rows of the same name is
    open, and each query has its own. *)
Definition page_answer (clause : option string) (limit offset : Z) (w : world)
  (answer : list product) : Prop :=
  ∃ l, l ≡ₚ rows_where clause w
       ∧ Sorted by_name l
       ∧ answer = take (Z.to_nat limit) (drop (Z.to_nat offset) l).

(** A second product of the category of [P1]. *)
Definition P2 : product :=
  {| row_id := 2; product_id := "P2"; name := "Gadget"; price := 40;
     stock := 7; category := "X" |}.

Definition catalogue : world :=
  {| db_products := {[ "P1" := P1; "P2" := P2 ]};
     db_transactions := ∅;
     auto_increment := 3;
     emitted := [] |}.

(** A product with the name and the category of [P1]. *)
Definition P3 : product :=
  {| row_id := 3; product_id := "P3"; name := "Widget"; price := 60;
     stock := 1; category := "X" |}.

Definition namesakes : world :=
  {| db_products := {[ "P1" := P1; "P3" := P3 ]};
     db_transactions := ∅;
     auto_increment := 4;
     emitted := [] |}.

(** Answers to the page queries on [namesakes], one row a page: page 1 with
    [P1] ordered first, page 2 with [P1] ordered second. *)
Definition repeated_answers (i : nat) : list product :=
  match i with
  | 1%nat | 2%nat => [P1]
  | _ => []
  end.

(** ** Sequences of mutations on the store of [Database] *)

Definition db_perform (db : engine) (this : InventoryManager) (o : operation)
  (w : world) : world * bool :=
  match o with
  | UpdateStock productId quantity transactionType =>
      let r := Database.updateStock db this productId quantity transactionType w in
      (r.1, returned r.2)
  | CreateTransaction transactionId productId quantity type customerId =>
      let r := Database.createTransaction db this transactionId productId quantity
                 type customerId w in
      (r.1, returned r.2)
  end.

(** The calls of [ops] in order; [Some w'] when every one of them returned. *)
Fixpoint db_all_succeed (db : engine) (this : InventoryManager)
  (ops : list operation) (w : world) : option world :=
  match ops with
  | [] => Some w
  | o :: ops' =>
      match db_perform db this o w with
      | (w', true) => db_all_succeed db this ops' w'
      | (_, false) => None
      end
  end.

(** ** The scenario on the store of [Database] *)

(** An engine that enforces the [CHECK] clauses of the script, on
    [products] ([price >= 0] and [stock >= 0], also when the trigger updates
    the stock) and on [transactions] ([quantity > 0]), and refuses nothing
    else; the code is the one MySQL 8.0.16 gives.  [permissive] ignores the
    clauses, as MySQL 5.7 does. *)
Definition checking : engine :=
  λ s w,
    let refuse (violated : bool) :=
      if violated then Some "ER_CHECK_CONSTRAINT_VIOLATED" else None in
    match s with
    | SELECT_product _ => None
    | INSERT_product _ _ price stock _ => refuse ((price <? 0) || (stock <? 0))
    | UPDATE_stock stock _ => refuse (stock <? 0)
    | INSERT_transaction row =>
        refuse ((quantity row <=? 0)
                || match db_products w !! txn_product_id row with
                   | Some p => stock p + signed_quantity row <? 0
                   | None => false
                   end)
    end.

(** [createTransaction("T1", "P1", 3, "sale", "C1")], the customer [C1]
    being a row of [customers]. *)
Definition db_T1_call (db : engine) : world * outcome transaction_result :=
  Database.createTransaction db new_InventoryManager (VString "T1") (VString "P1")
    (VNumber (Num 3)) (VString "sale") (VString "C1") scenario.




(** * Properties *)

(** ** Validation *)

Lemma validateInput_cons data field r rules :
  validateInput data ((field, r) :: rules) = None ↔
  check_rule data field r = None ∧ validateInput data rules = None.
Proof.
  simpl. destruct (check_rule data field r); split; intros H.
  - discriminate.
  - destruct H; discriminate.
  - done.
  - tauto.
Qed.

Lemma validateInput_skip data field r rules :
  check_rule data field r = None →
  validateInput data ((field, r) :: rules) = validateInput data rules.
Proof. simpl. by intros ->. Qed.

Lemma check_required_string data field :
  check_rule data field required_string = None ↔ valid_string (get data field).
Proof.
  unfold check_rule, valid_string. simpl.
  destruct (get data field) as [| |b|[|z]|s|]; simpl.
  all: try (split; [discriminate | intros (s' & ? & ?); discriminate]).
  - destruct b; simpl; split; try discriminate; intros (s' & ? & ?); discriminate.
  - destruct (z =? 0); simpl; split; try discriminate; intros (s' & ? & ?); discriminate.
  - destruct (String.eqb_spec s ""); simpl.
    + split; [discriminate | intros (s' & [= ->] & ?); congruence].
    + split; [eauto | done].
Qed.

Lemma check_required_number data field m :
  m ≠ 0 →
  check_rule data field (required_number m) = None ↔
  ∃ z, get data field = VNumber (Num z) ∧ z ≠ 0 ∧ m ≤ z.
Proof.
  intros Hm. unfold check_rule, min_given. simpl.
  destruct (Z.eqb_spec m 0); [done|].
  destruct (get data field) as [| |b|[|z]|s|]; simpl.
  all: try (split; [discriminate | intros (s' & ? & ?); discriminate]).
  - destruct b; simpl; split; try discriminate; intros (s' & ? & ?); discriminate.
  - unfold js_lt; simpl. destruct (Z.eqb_spec z 0); simpl.
    + split; [discriminate | intros (z' & [= ->] & ? & ?); congruence].
    + destruct (Z.ltb_spec z m).
      * split; [discriminate | intros (z' & [= ->] & ? & ?); lia].
      * split; [eauto | done].
  - destruct (String.eqb s ""); simpl; split; try discriminate;
      intros (s' & ? & ?); discriminate.
Qed.

(** With the minimum [0] the rule only asks for a number that is not falsy:
    [0] is refused and negative numbers pass. *)
Lemma check_required_number_0 data field :
  check_rule data field (required_number 0) = None ↔
  ∃ z, get data field = VNumber (Num z) ∧ z ≠ 0.
Proof.
  unfold check_rule, min_given. simpl.
  destruct (get data field) as [| |b|[|z]|s|]; simpl.
  all: try (split; [discriminate | intros (s' & ? & ?); discriminate]).
  - destruct b; simpl; split; try discriminate; intros (s' & ? & ?); discriminate.
  - destruct (Z.eqb_spec z 0); simpl.
    + split; [discriminate | intros (z' & [= ->] & ?); congruence].
    + split; [eauto | done].
  - destruct (String.eqb s ""); simpl; split; try discriminate;
      intros (s' & ? & ?); discriminate.
Qed.

Lemma check_quantity data field :
  check_rule data field (required_number 1) = None ↔ valid_quantity (get data field).
Proof.
  rewrite check_required_number by done. unfold valid_quantity.
  split; intros (z & ? & ?); exists z; intuition lia.
Qed.

Lemma validate_updateStock productId quantity transactionType :
  validateInput
    [("productId", productId); ("quantity", quantity);
     ("transactionType", transactionType)]
    [("productId", required_string);
     ("quantity", required_number 1);
     ("transactionType", required_string)] = None ↔
  valid_string productId ∧ valid_quantity quantity ∧ valid_string transactionType.
Proof.
  rewrite !validateInput_cons, !check_required_string, check_quantity. simpl.
  tauto.
Qed.

Lemma validate_createTransaction transactionId productId quantity type customerId :
  validateInput
    [("transactionId", transactionId); ("productId", productId);
     ("quantity", quantity); ("type", type); ("customerId", customerId)]
    [("transactionId", required_string);
     ("productId", required_string);
     ("quantity", required_number 1);
     ("type", required_string);
     ("customerId", required_string)] = None ↔
  valid_string transactionId ∧ valid_string productId ∧ valid_quantity quantity
  ∧ valid_string type ∧ valid_string customerId.
Proof.
  rewrite !validateInput_cons, !check_required_string, check_quantity. simpl.
  tauto.
Qed.

(** Every exception of [validateInput] is a [VALIDATION_ERROR]. *)
Lemma validateInput_error data rules e :
  validateInput data rules = Some e →
  ∃ message, e = InventoryNotificationError message "VALIDATION_ERROR".
Proof.
  induction rules as [|[field r] rules IH]; simpl; [discriminate|].
  destruct (check_rule data field r) as [e'|] eqn:Hc; [|exact IH].
  intros [= <-]. unfold check_rule in Hc.
  repeat match type of Hc with
         | (if ?b then _ else _) = _ => destruct b
         end; simplify_eq; eauto.
Qed.

(** ** The monad *)

Lemma try_rethrow {A} (m : M A) w : try_catch m (λ error, throw error) w = m w.
Proof. unfold try_catch, throw. by destruct (m w) as [w' [a|e]]. Qed.

Lemma bind_return {A B} (m : M A) (k : A → M B) w w' a :
  m w = (w', Return a) → bind m k w = k a w'.
Proof. unfold bind. by intros ->. Qed.

Lemma bind_throw {A B} (m : M A) (k : A → M B) w w' e :
  m w = (w', Throw e) → bind m k w = (w', Throw e).
Proof. unfold bind. by intros ->. Qed.

Lemma validate_ok data rules w :
  validateInput data rules = None → validate data rules w = (w, Return tt).
Proof. unfold validate. by intros ->. Qed.

Lemma validate_fails data rules e w :
  validateInput data rules = Some e → validate data rules w = (w, Throw e).
Proof. unfold validate. by intros ->. Qed.

(** ** Stock ledger *)

Lemma alter_stock (m : gmap string product) k p new :
  m !! k = Some p →
  alter (λ p, with_stock p new) k m = <[k := with_stock p new]> m.
Proof.
  intros Hk. apply map_eq. intros j.
  destruct (decide (k = j)) as [<-|Hne].
  - by rewrite lookup_alter_eq, lookup_insert_eq, Hk.
  - by rewrite lookup_alter_ne, lookup_insert_ne.
Qed.

Section write_stock.
Context (this : InventoryManager) (pid : string) (p : product) (new : Z) (w : world).
Hypothesis Hp : db_products w !! pid = Some p.

Lemma write_stock_products :
  db_products (write_stock this pid p new w).1
  = <[pid := with_stock p new]> (db_products w).
Proof.
  unfold write_stock, bind, update_stock, emit, ret. simpl.
  destruct (new <=? lowStockThreshold this); simpl;
    try destruct (call_listeners _ _); simpl; by apply alter_stock.
Qed.

Lemma write_stock_transactions :
  db_transactions (write_stock this pid p new w).1 = db_transactions w.
Proof.
  unfold write_stock, bind, update_stock, emit, ret. simpl.
  destruct (new <=? lowStockThreshold this); simpl;
    try destruct (call_listeners _ _); done.
Qed.

Lemma write_stock_emitted :
  emitted (write_stock this pid p new w).1
  = (emitted w ++ (if new <=? lowStockThreshold this
                   then [LowStock (with_stock p new)] else []))%list.
Proof.
  unfold write_stock, bind, update_stock, emit, ret. simpl.
  destruct (new <=? lowStockThreshold this); simpl;
    try destruct (call_listeners _ _); simpl; by rewrite ?app_nil_r.
Qed.

Lemma write_stock_outcome :
  (write_stock this pid p new w).2
  = match (if new <=? lowStockThreshold this
           then call_listeners (lowStock this) (with_stock p new) else None) with
    | Some e => Throw e
    | None => Return {| success := true; oldStock := stock p; newStock := new |}
    end.
Proof.
  unfold write_stock, bind, update_stock, emit, ret. simpl.
  destruct (new <=? lowStockThreshold this); simpl;
    try destruct (call_listeners _ _); done.
Qed.

Lemma write_stock_returns r :
  (write_stock this pid p new w).2 = Return r →
  r = {| success := true; oldStock := stock p; newStock := new |}.
Proof.
  rewrite write_stock_outcome.
  destruct (if new <=? lowStockThreshold this then _ else _); congruence.
Qed.
End write_stock.

Lemma select_found {A} pid w p (none : M A) (k : product → M A) :
  db_products w !! pid = Some p →
  bind (select_product (VString pid))
    (λ products, match products with
                 | [] => none
                 | product :: _ => k product
                 end) w = k p w.
Proof. intros Hp. unfold bind, select_product. simpl. by rewrite Hp. Qed.

Lemma select_not_found {A} pid w (none : M A) (k : product → M A) :
  db_products w !! pid = None →
  bind (select_product (VString pid))
    (λ products, match products with
                 | [] => none
                 | product :: _ => k product
                 end) w = none w.
Proof. intros Hp. unfold bind, select_product. simpl. by rewrite Hp. Qed.

Lemma updateStock_invalid this productId quantity transactionType w e :
  validateInput
    [("productId", productId); ("quantity", quantity);
     ("transactionType", transactionType)]
    [("productId", required_string);
     ("quantity", required_number 1);
     ("transactionType", required_string)] = Some e →
  updateStock this productId quantity transactionType w = (w, Throw e).
Proof.
  intros Hv. unfold updateStock. rewrite try_rethrow.
  by rewrite (bind_throw _ _ _ _ _ (validate_fails _ _ _ _ Hv)).
Qed.

Section updateStock.
Context (this : InventoryManager) (pid ty : string) (q : Z) (w : world).
Hypothesis Hpid : pid ≠ "".
Hypothesis Hq : 1 ≤ q.
Hypothesis Hty : ty ≠ "".

Local Abbreviation call :=
  (updateStock this (VString pid) (VNumber (Num q)) (VString ty) w).

Lemma updateStock_valid :
  validateInput
    [("productId", VString pid); ("quantity", VNumber (Num q));
     ("transactionType", VString ty)]
    [("productId", required_string);
     ("quantity", required_number 1);
     ("transactionType", required_string)] = None.
Proof.
  apply validate_updateStock. unfold valid_string, valid_quantity. eauto 10.
Qed.

Lemma updateStock_not_found :
  db_products w !! pid = None →
  call = (w, Throw (InventoryNotificationError
                      ("Product with ID " +:+ pid +:+ " not found")
                      "PRODUCT_NOT_FOUND")).
Proof.
  intros Hp. unfold updateStock. rewrite try_rethrow.
  rewrite (bind_return _ _ _ _ _ (validate_ok _ _ _ updateStock_valid)).
  unfold bind, select_product. simpl. by rewrite Hp.
Qed.

Context (p : product).
Hypothesis Hp : db_products w !! pid = Some p.

Lemma updateStock_increase :
  ty = "purchase" ∨ ty = "restock" →
  call = write_stock this pid p (stock p + q) w.
Proof.
  intros Hcase. unfold updateStock. rewrite try_rethrow.
  rewrite (bind_return _ _ _ _ _ (validate_ok _ _ _ updateStock_valid)).
  simpl show. rewrite (select_found _ _ _ _ _ Hp).
  by destruct Hcase as [Hs | Hs]; rewrite Hs.
Qed.

Lemma updateStock_sale :
  ty = "sale" → q ≤ stock p →
  call = write_stock this pid p (stock p - q) w.
Proof.
  intros Hs Hle. unfold updateStock. rewrite try_rethrow.
  rewrite (bind_return _ _ _ _ _ (validate_ok _ _ _ updateStock_valid)).
  simpl show. rewrite (select_found _ _ _ _ _ Hp), Hs. simpl.
  destruct (Z.ltb_spec (stock p) q); [lia | done].
Qed.

Lemma updateStock_insufficient :
  ty = "sale" → stock p < q →
  call = (w, Throw (InventoryNotificationError
                      ("Insufficient stock. Available: " +:+ pretty (stock p)
                       +:+ ", Requested: " +:+ pretty q)
                      "INSUFFICIENT_STOCK")).
Proof.
  intros Hs Hlt. unfold updateStock. rewrite try_rethrow.
  rewrite (bind_return _ _ _ _ _ (validate_ok _ _ _ updateStock_valid)).
  simpl show. rewrite (select_found _ _ _ _ _ Hp), Hs. simpl.
  destruct (Z.ltb_spec (stock p) q); [done | lia].
Qed.

Lemma updateStock_other_type :
  ty ≠ "purchase" → ty ≠ "restock" → ty ≠ "sale" →
  call = (w, Throw (InventoryNotificationError
                      ("Invalid transaction type: " +:+ ty)
                      "INVALID_TRANSACTION_TYPE")).
Proof.
  intros H1 H2 H3. unfold updateStock. rewrite try_rethrow.
  rewrite (bind_return _ _ _ _ _ (validate_ok _ _ _ updateStock_valid)).
  simpl show. rewrite (select_found _ _ _ _ _ Hp). simpl.
  apply String.eqb_neq in H1, H2, H3. by rewrite H1, H2, H3.
Qed.
End updateStock.

(** Every call of [updateStock] either throws before any write, or computes
    a new stock and goes on to write it. *)
Lemma updateStock_cases this productId quantity transactionType w :
  (∃ e, updateStock this productId quantity transactionType w = (w, Throw e))
  ∨ (∃ pid q ty p new,
        productId = VString pid ∧ quantity = VNumber (Num q)
        ∧ transactionType = VString ty ∧ 1 ≤ q
        ∧ db_products w !! pid = Some p
        ∧ ((ty = "purchase" ∨ ty = "restock") ∧ new = stock p + q
           ∨ ty = "sale" ∧ q ≤ stock p ∧ new = stock p - q)
        ∧ updateStock this productId quantity transactionType w
          = write_stock this pid p new w).
Proof.
  destruct (validateInput
              [("productId", productId); ("quantity", quantity);
               ("transactionType", transactionType)]
              [("productId", required_string);
               ("quantity", required_number 1);
               ("transactionType", required_string)]) as [e|] eqn:Hv.
  { left. exists e. by apply updateStock_invalid. }
  apply validate_updateStock in Hv
    as ((pid & -> & Hpid) & (q & -> & Hq) & (ty & -> & Hty)).
  destruct (db_products w !! pid) as [p|] eqn:Hp.
  2: { left. eexists. by apply updateStock_not_found. }
  destruct (decide (ty = "purchase" ∨ ty = "restock")) as [Hin|Hout].
  { right. exists pid, q, ty, p, (stock p + q).
    repeat split; auto using updateStock_increase. }
  destruct (decide (ty = "sale")) as [Hs|Hs].
  - destruct (Z_lt_le_dec (stock p) q).
    + left. eexists. by apply updateStock_insufficient.
    + right. exists pid, q, ty, p, (stock p - q).
      repeat split; auto using updateStock_sale.
  - left. eexists. eapply updateStock_other_type; eauto; intros Heq; tauto.
Qed.

(** ** Transaction recorder *)

Lemma after_insert_throw this tid pid q ty cid p w w' e :
  updateStock this (VString pid) (VNumber (Num q)) (VString ty) w = (w', Throw e) →
  after_insert this tid pid q ty cid p w = (w', Throw e).
Proof. intros H. unfold after_insert. by rewrite (bind_throw _ _ _ _ _ H). Qed.

Lemma after_insert_return this tid pid q ty cid p w w' r :
  updateStock this (VString pid) (VNumber (Num q)) (VString ty) w = (w', Return r) →
  after_insert this tid pid q ty cid p w
  = (record_emit (TransactionComplete (event_of tid pid q ty cid p)) w',
     match call_listeners (transactionComplete this) (event_of tid pid q ty cid p) with
     | Some e => Throw e
     | None => Return {| txn_success := true; totalAmount := price p * q |}
     end).
Proof.
  intros H. unfold after_insert. rewrite (bind_return _ _ _ _ _ H).
  unfold bind, emit, ret. by destruct (call_listeners _ _).
Qed.

Lemma createTransaction_invalid this transactionId productId quantity type customerId
  w e :
  validateInput
    [("transactionId", transactionId); ("productId", productId);
     ("quantity", quantity); ("type", type); ("customerId", customerId)]
    [("transactionId", required_string);
     ("productId", required_string);
     ("quantity", required_number 1);
     ("type", required_string);
     ("customerId", required_string)] = Some e →
  createTransaction this transactionId productId quantity type customerId w
  = (w, Throw e).
Proof.
  intros Hv. unfold createTransaction. rewrite try_rethrow.
  by rewrite (bind_throw _ _ _ _ _ (validate_fails _ _ _ _ Hv)).
Qed.

Section createTransaction.
Context (this : InventoryManager) (tid pid : string) (q : Z) (ty cid : string)
  (w : world).
Hypothesis Htid : tid ≠ "".
Hypothesis Hpid : pid ≠ "".
Hypothesis Hq : 1 ≤ q.
Hypothesis Hty : ty ≠ "".
Hypothesis Hcid : cid ≠ "".

Local Abbreviation call :=
  (createTransaction this (VString tid) (VString pid) (VNumber (Num q))
     (VString ty) (VString cid) w).

Lemma createTransaction_valid :
  validateInput
    [("transactionId", VString tid); ("productId", VString pid);
     ("quantity", VNumber (Num q)); ("type", VString ty);
     ("customerId", VString cid)]
    [("transactionId", required_string);
     ("productId", required_string);
     ("quantity", required_number 1);
     ("type", required_string);
     ("customerId", required_string)] = None.
Proof.
  apply validate_createTransaction. unfold valid_string, valid_quantity.
  eauto 15.
Qed.

Lemma createTransaction_not_found :
  db_products w !! pid = None →
  call = (w, Throw (InventoryNotificationError
                      ("Product with ID " +:+ pid +:+ " not found")
                      "PRODUCT_NOT_FOUND")).
Proof.
  intros Hp. unfold createTransaction. rewrite try_rethrow.
  rewrite (bind_return _ _ _ _ _ (validate_ok _ _ _ createTransaction_valid)).
  simpl show. by rewrite (select_not_found _ _ _ _ Hp).
Qed.

Context (p : product).
Hypothesis Hp : db_products w !! pid = Some p.

Lemma createTransaction_duplicate :
  is_Some (db_transactions w !! tid) →
  call = (w, Throw (DriverError "ER_DUP_ENTRY")).
Proof.
  intros [t Ht]. unfold createTransaction. rewrite try_rethrow.
  rewrite (bind_return _ _ _ _ _ (validate_ok _ _ _ createTransaction_valid)).
  simpl show. rewrite (select_found _ _ _ _ _ Hp).
  unfold bind at 1. unfold insert_transaction. simpl. by rewrite Ht.
Qed.

Lemma createTransaction_fresh :
  db_transactions w !! tid = None →
  call = after_insert this tid pid q ty cid p
           (set_transactions (insert tid (row_of tid pid q ty cid p)) w).
Proof.
  intros Ht. unfold createTransaction. rewrite try_rethrow.
  rewrite (bind_return _ _ _ _ _ (validate_ok _ _ _ createTransaction_valid)).
  simpl show. rewrite (select_found _ _ _ _ _ Hp).
  unfold bind at 1. unfold insert_transaction. simpl. by rewrite Ht.
Qed.
End createTransaction.

(** Every call of [createTransaction] either throws before any write, or
    inserts its row and goes on to the stock update. *)
Lemma createTransaction_cases this transactionId productId quantity type customerId w :
  (∃ e, createTransaction this transactionId productId quantity type customerId w
        = (w, Throw e)
        ∧ (has_type e "VALIDATION_ERROR" ∨ has_type e "PRODUCT_NOT_FOUND"
           ∨ e = DriverError "ER_DUP_ENTRY"))
  ∨ (∃ tid pid q ty cid p,
        transactionId = VString tid ∧ productId = VString pid
        ∧ quantity = VNumber (Num q) ∧ type = VString ty
        ∧ customerId = VString cid
        ∧ pid ≠ "" ∧ 1 ≤ q ∧ ty ≠ ""
        ∧ db_products w !! pid = Some p
        ∧ db_transactions w !! tid = None
        ∧ createTransaction this transactionId productId quantity type customerId w
          = after_insert this tid pid q ty cid p
              (set_transactions (insert tid (row_of tid pid q ty cid p)) w)).
Proof.
  destruct (validateInput
              [("transactionId", transactionId); ("productId", productId);
               ("quantity", quantity); ("type", type); ("customerId", customerId)]
              [("transactionId", required_string);
               ("productId", required_string);
               ("quantity", required_number 1);
               ("type", required_string);
               ("customerId", required_string)]) as [e|] eqn:Hv.
  { left. exists e. split; [by apply createTransaction_invalid|].
    left. by eapply validateInput_error. }
  apply validate_createTransaction in Hv
    as ((tid & -> & Htid) & (pid & -> & Hpid) & (q & -> & Hq)
        & (ty & -> & Hty) & (cid & -> & Hcid)).
  destruct (db_products w !! pid) as [p|] eqn:Hp.
  2: { left. eexists. split; [by apply createTransaction_not_found|].
       right; left. by eexists. }
  destruct (db_transactions w !! tid) as [t|] eqn:Ht.
  { left. eexists. split; [by eapply createTransaction_duplicate|]. auto. }
  right. exists tid, pid, q, ty, cid, p.
  repeat split; auto using createTransaction_fresh.
Qed.

(** ** Sequences of mutations *)

Lemma write_stock_nonneg this k pid p new w :
  db_products w !! pid = Some p → (0 ≤ stock p → 0 ≤ new) →
  stock_nonneg k w → stock_nonneg k (write_stock this pid p new w).1.
Proof.
  intros Hp Hnew. unfold stock_nonneg.
  rewrite (write_stock_products _ _ _ _ _ Hp).
  destruct (decide (pid = k)) as [<-|Hne].
  - rewrite lookup_insert_eq, Hp. simpl. exact Hnew.
  - by rewrite lookup_insert_ne.
Qed.

(** [updateStock] keeps a non-negative stock non-negative, whether it
    returns or throws. *)
Lemma updateStock_nonneg this k productId quantity transactionType w :
  stock_nonneg k w →
  stock_nonneg k (updateStock this productId quantity transactionType w).1.
Proof.
  intros Hw.
  destruct (updateStock_cases this productId quantity transactionType w)
    as [[e ->] | (pid & q & ty & p & new & _ & _ & _ & Hq & Hp & Hnew & ->)];
    [done|].
  apply write_stock_nonneg; [done | | done].
  destruct Hnew as [[_ ->] | (_ & Hle & ->)]; lia.
Qed.

Lemma createTransaction_nonneg this k transactionId productId quantity type
  customerId w :
  stock_nonneg k w →
  stock_nonneg k
    (createTransaction this transactionId productId quantity type customerId w).1.
Proof.
  intros Hw.
  destruct (createTransaction_cases this transactionId productId quantity type
              customerId w)
    as [(e & -> & _) | (tid & pid & q & ty & cid & p & _ & _ & _ & _ & _ & _ & _ & _
                        & _ & _ & ->)];
    [done|].
  set (w1 := set_transactions _ w).
  assert (stock_nonneg k w1) as Hw1 by done.
  pose proof (updateStock_nonneg this k (VString pid) (VNumber (Num q)) (VString ty)
                w1 Hw1) as Hu.
  destruct (updateStock this (VString pid) (VNumber (Num q)) (VString ty) w1)
    as [w2 [r|e]] eqn:Hcall.
  - by rewrite (after_insert_return _ _ _ _ _ _ _ _ _ _ Hcall).
  - by rewrite (after_insert_throw _ _ _ _ _ _ _ _ _ _ Hcall).
Qed.

Lemma perform_nonneg this k o w :
  stock_nonneg k w → stock_nonneg k (perform this o w).1.
Proof.
  destruct o; simpl; auto using updateStock_nonneg, createTransaction_nonneg.
Qed.

(** C2. A product whose stock is not negative still has a stock that is not
    negative after any sequence of [updateStock] and [createTransaction]
    calls that each return. *)
Theorem stock_never_negative this ops k w w' :
  stock_nonneg k w → all_succeed this ops w = Some w' → stock_nonneg k w'.
Proof.
  revert w. induction ops as [|o ops IH]; simpl; intros w Hw Hrun.
  - by injection Hrun as <-.
  - pose proof (perform_nonneg this k o w Hw) as Ho.
    destruct (perform this o w) as [w1 [|]]; [|discriminate].
    by apply (IH w1).
Qed.

(** ** Sign rule and boundary of the stock ledger *)

(** C3. For an existing product and a valid quantity, [updateStock] with
    [purchase] or [restock] stores stock + quantity, with [sale] (the stock
    covering the quantity) stores stock - quantity, and with any other type
    throws [INVALID_TRANSACTION_TYPE] and writes nothing; the stock of a sale
    that the stock does not cover is left alone ([INSUFFICIENT_STOCK]).
    Stored means: the row of the product now in the table has that stock,
    and is the row it was in every other column.  A call that returns,
    returns [{success: true, oldStock, newStock}], and it does return when
    no [lowStock] listener raises. *)
Theorem updateStock_sign_rule this pid q ty w p :
  pid ≠ "" → 1 ≤ q → ty ≠ "" → db_products w !! pid = Some p →
  let call := updateStock this (VString pid) (VNumber (Num q)) (VString ty) w in
  let stored new :=
    db_products call.1 = <[pid := with_stock p new]> (db_products w)
    ∧ (∃ p', db_products call.1 !! pid = Some p' ∧ stock p' = new
             ∧ same_but_stock p p')
    ∧ (∀ r, call.2 = Return r →
            r = {| success := true; oldStock := stock p; newStock := new |})
    ∧ (call_listeners (lowStock this) (with_stock p new) = None →
       call.2 = Return {| success := true; oldStock := stock p; newStock := new |}) in
  (ty = "purchase" ∨ ty = "restock" → stored (stock p + q))
  ∧ (ty = "sale" → q ≤ stock p → stored (stock p - q))
  ∧ (ty = "sale" → stock p < q →
     ∃ message, call = (w, Throw (InventoryNotificationError message
                                    "INSUFFICIENT_STOCK")))
  ∧ (ty ≠ "purchase" → ty ≠ "restock" → ty ≠ "sale" →
     call = (w, Throw (InventoryNotificationError
                         ("Invalid transaction type: " +:+ ty)
                         "INVALID_TRANSACTION_TYPE"))).
Proof.
  intros Hpid Hq Hty Hp call stored.
  assert (∀ new, call = write_stock this pid p new w → stored new) as Hstored.
  { intros new Hcall. unfold stored. rewrite Hcall. split; [|split; [|split]].
    - by apply write_stock_products.
    - exists (with_stock p new).
      by rewrite (write_stock_products _ _ _ _ _ Hp), lookup_insert_eq.
    - apply write_stock_returns.
    - intros Hquiet. rewrite write_stock_outcome, Hquiet.
      by destruct (new <=? lowStockThreshold this). }
  split; [|split; [|split]].
  - intros Hcase. apply Hstored. by apply updateStock_increase.
  - intros Hs Hle. apply Hstored. by apply updateStock_sale.
  - intros Hs Hlt. eexists. by apply updateStock_insufficient.
  - intros H1 H2 H3. by eapply updateStock_other_type.
Qed.

Lemma updateStock_sign_rule_witness :
  "P1" ≠ "" ∧ 1 ≤ 3 ∧ "sale" ≠ "" ∧ "return" ≠ ""
  ∧ db_products scenario !! "P1" = Some P1
  ∧ (∃ p', db_products
             (updateStock new_InventoryManager (VString "P1") (VNumber (Num 3))
                (VString "sale") scenario).1 !! "P1" = Some p'
           ∧ stock p' = 2 ∧ same_but_stock P1 p')
  ∧ (updateStock new_InventoryManager (VString "P1") (VNumber (Num 3))
       (VString "sale") scenario).2
    = Return {| success := true; oldStock := 5; newStock := 2 |}
  ∧ updateStock new_InventoryManager (VString "P1") (VNumber (Num 3))
      (VString "return") scenario
    = (scenario,
       Throw (InventoryNotificationError "Invalid transaction type: return"
                "INVALID_TRANSACTION_TYPE")).
Proof.
  assert ("P1" ≠ "") as H1 by discriminate.
  assert (1 ≤ 3) as H2 by lia.
  assert ("sale" ≠ "") as H3 by discriminate.
  assert ("return" ≠ "") as H3' by discriminate.
  assert (db_products scenario !! "P1" = Some P1) as H4 by reflexivity.
  split; [exact H1 | split; [exact H2 | split; [exact H3 | split; [exact H3' |]]]].
  split; [exact H4 | split; [|split]].
  - destruct (updateStock_sign_rule new_InventoryManager "P1" 3 "sale" scenario P1
                H1 H2 H3 H4) as (_ & Hsale & _).
    exact (proj1 (proj2 (Hsale eq_refl ltac:(simpl; lia)))).
  - destruct (updateStock_sign_rule new_InventoryManager "P1" 3 "sale" scenario P1
                H1 H2 H3 H4) as (_ & Hsale & _).
    apply Hsale; [reflexivity | simpl; lia | reflexivity].
  - destruct (updateStock_sign_rule new_InventoryManager "P1" 3 "return" scenario
                P1 H1 H2 H3' H4) as (_ & _ & _ & Hother).
    apply Hother; discriminate.
Defined.

(** C4. For an existing product with stock [S >= 1], a sale of exactly [S]
    stores stock 0 (the row of the product now in the table has stock 0 and
    is the row it was in every other column) and returns
    [{oldStock: S, newStock: 0}] (no listener raising), and a sale of
    [S + 1] throws [INSUFFICIENT_STOCK] with the message "Insufficient
    stock. Available: S, Requested: S+1" and leaves the world as it was. *)
Theorem sale_boundary this pid w p :
  pid ≠ "" → db_products w !! pid = Some p → 1 ≤ stock p →
  (let call := updateStock this (VString pid) (VNumber (Num (stock p)))
                 (VString "sale") w in
   db_products call.1 = <[pid := with_stock p 0]> (db_products w)
   ∧ (∃ p', db_products call.1 !! pid = Some p' ∧ stock p' = 0
            ∧ same_but_stock p p')
   ∧ (call_listeners (lowStock this) (with_stock p 0) = None →
      call.2 = Return {| success := true; oldStock := stock p; newStock := 0 |}))
  ∧ updateStock this (VString pid) (VNumber (Num (stock p + 1))) (VString "sale") w
    = (w, Throw (InventoryNotificationError
                   ("Insufficient stock. Available: " +:+ pretty (stock p)
                    +:+ ", Requested: " +:+ pretty (stock p + 1))
                   "INSUFFICIENT_STOCK")).
Proof.
  intros Hpid Hp Hs. split.
  - rewrite (updateStock_sale this pid "sale" (stock p) w Hpid Hs
               ltac:(done) p Hp) by (done || lia).
    replace (stock p - stock p) with 0 by lia. split; [|split].
    + by apply write_stock_products.
    + exists (with_stock p 0).
      by rewrite (write_stock_products _ _ _ _ _ Hp), lookup_insert_eq.
    + intros Hquiet. rewrite write_stock_outcome, Hquiet.
      by destruct (0 <=? lowStockThreshold this).
  - apply updateStock_insufficient; (done || lia).
Qed.

Lemma sale_boundary_witness :
  "P1" ≠ "" ∧ db_products scenario !! "P1" = Some P1 ∧ 1 ≤ stock P1
  ∧ (∃ p', db_products
             (updateStock new_InventoryManager (VString "P1") (VNumber (Num 5))
                (VString "sale") scenario).1 !! "P1" = Some p'
           ∧ stock p' = 0 ∧ same_but_stock P1 p')
  ∧ (updateStock new_InventoryManager (VString "P1") (VNumber (Num 5))
       (VString "sale") scenario).2
    = Return {| success := true; oldStock := 5; newStock := 0 |}
  ∧ updateStock new_InventoryManager (VString "P1") (VNumber (Num 6))
      (VString "sale") scenario
    = (scenario,
       Throw (InventoryNotificationError
                "Insufficient stock. Available: 5, Requested: 6"
                "INSUFFICIENT_STOCK")).
Proof.
  assert ("P1" ≠ "") as H1 by discriminate.
  assert (db_products scenario !! "P1" = Some P1) as H2 by reflexivity.
  assert (1 ≤ stock P1) as H3 by (simpl; lia).
  split; [exact H1 | split; [exact H2 | split; [exact H3 |]]].
  destruct (sale_boundary new_InventoryManager "P1" scenario P1 H1 H2 H3)
    as ((_ & Hstored & Hexact) & Hover).
  split; [exact Hstored | split; [exact (Hexact eq_refl) | exact Hover]].
Defined.

Lemma stock_never_negative_witness :
  stock_nonneg "P1" scenario
  ∧ all_succeed new_InventoryManager
      [CreateTransaction (VString "T1") (VString "P1") (VNumber (Num 3))
         (VString "sale") (VString "C1");
       UpdateStock (VString "P1") (VNumber (Num 2)) (VString "sale")] scenario
    = Some {| db_products := {[ "P1" := with_stock P1 0 ]};
              db_transactions := db_transactions after_T1;
              auto_increment := 2;
              emitted := (emitted after_T1 ++ [LowStock (with_stock P1 0)])%list |}
  ∧ stock_nonneg "P1"
      {| db_products := {[ "P1" := with_stock P1 0 ]};
         db_transactions := db_transactions after_T1;
         auto_increment := 2;
         emitted := (emitted after_T1 ++ [LowStock (with_stock P1 0)])%list |}.
Proof.
  assert (stock_nonneg "P1" scenario) as H1 by (vm_compute; discriminate).
  assert (all_succeed new_InventoryManager
      [CreateTransaction (VString "T1") (VString "P1") (VNumber (Num 3))
         (VString "sale") (VString "C1");
       UpdateStock (VString "P1") (VNumber (Num 2)) (VString "sale")] scenario
    = Some {| db_products := {[ "P1" := with_stock P1 0 ]};
              db_transactions := db_transactions after_T1;
              auto_increment := 2;
              emitted := (emitted after_T1 ++ [LowStock (with_stock P1 0)])%list |})
    as H2 by (vm_compute; reflexivity).
  split; [exact H1 | split; [exact H2 |]].
  exact (stock_never_negative new_InventoryManager _ "P1" scenario _ H1 H2).
Defined.

(** ** Notifications *)

Lemma new_InventoryManager_quiet : quiet new_InventoryManager.
Proof. split; intros; reflexivity. Qed.

Lemma updateStock_transactions this productId quantity transactionType w :
  db_transactions (updateStock this productId quantity transactionType w).1
  = db_transactions w.
Proof.
  destruct (updateStock_cases this productId quantity transactionType w)
    as [[e ->] | (pid & q & ty & p & new & _ & _ & _ & _ & Hp & _ & ->)]; [done|].
  by apply write_stock_transactions.
Qed.

(** C6. With [lowStockThreshold = 10], a call of [updateStock] that returns
    has emitted [lowStock] exactly when [newStock <= 10], and the row it
    carries is the row of the product now stored, whose stock is
    [newStock]; a purchase from 9 to 15 emits nothing (15 is stored) and a
    sale from 12 to 8 emits the stored row, whose stock is 8. *)
Theorem lowStock_notification this :
  lowStockThreshold this = 10 →
  (∀ productId quantity transactionType w w' r,
      updateStock this productId quantity transactionType w = (w', Return r) →
      ∃ p p', db_products w !! str productId = Some p
              ∧ db_products w' !! str productId = Some p'
              ∧ p' = with_stock p (newStock r)
              ∧ stock p' = newStock r
              ∧ same_but_stock p p'
              ∧ emitted w'
                = (emitted w ++ (if newStock r <=? 10 then [LowStock p']
                                 else []))%list)
  ∧ (∀ pid w p,
        pid ≠ "" → db_products w !! pid = Some p → stock p = 9 →
        let call := updateStock this (VString pid) (VNumber (Num 6))
                      (VString "purchase") w in
        call.2 = Return {| success := true; oldStock := 9; newStock := 15 |}
        ∧ emitted call.1 = emitted w
        ∧ ∃ p', db_products call.1 !! pid = Some p' ∧ stock p' = 15)
  ∧ (∀ pid w p,
        pid ≠ "" → db_products w !! pid = Some p → stock p = 12 →
        let call := updateStock this (VString pid) (VNumber (Num 4))
                      (VString "sale") w in
        emitted call.1 = (emitted w ++ [LowStock (with_stock p 8)])%list
        ∧ (∃ p', db_products call.1 !! pid = Some p' ∧ stock p' = 8
                 ∧ same_but_stock p p'
                 ∧ emitted call.1 = (emitted w ++ [LowStock p'])%list)
        ∧ (call_listeners (lowStock this) (with_stock p 8) = None →
           call.2 = Return {| success := true; oldStock := 12; newStock := 8 |})).
Proof.
  intros Hthr. split; [|split].
  - intros productId quantity transactionType w w' r Hcall.
    destruct (updateStock_cases this productId quantity transactionType w)
      as [[e He] | (pid & q & ty & p & new & -> & _ & _ & _ & Hp & _ & Hw)];
      [congruence|].
    rewrite Hcall in Hw.
    assert (w' = (write_stock this pid p new w).1) as -> by by rewrite <- Hw.
    assert (r = {| success := true; oldStock := stock p; newStock := new |}) as ->.
    { apply (write_stock_returns this pid p new w). by rewrite <- Hw. }
    exists p, (with_stock p new). simpl. split; [done|]. split.
    + by rewrite (write_stock_products _ _ _ _ _ Hp), lookup_insert_eq.
    + by rewrite write_stock_emitted, Hthr.
  - intros pid w p Hpid Hp Hs call. unfold call.
    rewrite (updateStock_increase this pid "purchase" 6 w Hpid ltac:(lia)
               ltac:(done) p Hp) by auto.
    rewrite write_stock_outcome, write_stock_emitted,
      (write_stock_products _ _ _ _ _ Hp), lookup_insert_eq, Hthr, Hs. simpl.
    rewrite app_nil_r. eauto.
  - intros pid w p Hpid Hp Hs call. unfold call.
    rewrite (updateStock_sale this pid "sale" 4 w Hpid ltac:(lia)
               ltac:(done) p Hp) by (done || lia).
    rewrite write_stock_outcome, write_stock_emitted,
      (write_stock_products _ _ _ _ _ Hp), lookup_insert_eq, Hthr, Hs.
    change (12 - 4) with 8. change (8 <=? 10) with true. cbv iota.
    split; [done|]. split; [by exists (with_stock p 8)|]. by intros ->.
Qed.

Lemma lowStock_notification_witness :
  lowStockThreshold new_InventoryManager = 10
  ∧ ∃ p', db_products
            (updateStock new_InventoryManager (VString "P1") (VNumber (Num 4))
               (VString "sale")
               {| db_products := {[ "P1" := with_stock P1 12 ]};
                  db_transactions := ∅;
                  auto_increment := 2;
                  emitted := [] |}).1 !! "P1" = Some p'
          ∧ stock p' = 8
          ∧ same_but_stock (with_stock P1 12) p'
          ∧ emitted
              (updateStock new_InventoryManager (VString "P1") (VNumber (Num 4))
                 (VString "sale")
                 {| db_products := {[ "P1" := with_stock P1 12 ]};
                    db_transactions := ∅;
                    auto_increment := 2;
                    emitted := [] |}).1
            = [LowStock p'].
Proof.
  assert (lowStockThreshold new_InventoryManager = 10) as H1 by reflexivity.
  split; [exact H1|].
  destruct (lowStock_notification new_InventoryManager H1) as (_ & _ & Hsale).
  assert ("P1" ≠ "") as H2 by discriminate.
  pose (w := {| db_products := {[ "P1" := with_stock P1 12 ]};
                db_transactions := ∅;
                auto_increment := 2;
                emitted := [] |}).
  assert (db_products w !! "P1" = Some (with_stock P1 12)) as H3 by reflexivity.
  exact (proj1 (proj2 (Hsale "P1" w (with_stock P1 12) H2 H3 eq_refl))).
Defined.

(** ** Low-stock report *)

Lemma select_low_stock_elem v w p :
  p ∈ (match (select_low_stock v w).2 with Return l => l | Throw _ => [] end)
  ↔ (∃ k, db_products w !! k = Some p) ∧ sql_le (stock p) v = true.
Proof.
  unfold select_low_stock. simpl.
  rewrite merge_sort_Permutation, list_elem_of_filter, list_elem_of_fmap.
  split.
  - intros (Hle & [k p'] & -> & Hin). apply elem_of_map_to_list in Hin. eauto.
  - intros ((k & Hk) & Hle). split; [done|].
    exists (k, p). split; [done|]. by apply elem_of_map_to_list.
Qed.

Lemma getLowStockProducts_default this threshold w :
  falsy threshold = true →
  getLowStockProducts this threshold w
  = (let* products := select_low_stock (VNumber (Num (lowStockThreshold this))) in
     ret products) w.
Proof.
  intros Hf. unfold getLowStockProducts. rewrite try_rethrow.
  by destruct threshold as [| |[]|[|z]|s|]; simpl in *; try discriminate;
    rewrite ?Hf.
Qed.

(** C10. A falsy [threshold] (0, [null], [undefined], [NaN], ...) is replaced
    by the default: with [lowStockThreshold = 10] the call is the call with
    threshold 10, and it returns exactly the products with [stock <= 10]. *)
Theorem getLowStockProducts_falsy_threshold this threshold w :
  falsy threshold = true →
  lowStockThreshold this = 10 →
  getLowStockProducts this threshold w
  = getLowStockProducts this (VNumber (Num 10)) w
  ∧ ∃ products,
      getLowStockProducts this threshold w = (w, Return products)
      ∧ ∀ p, p ∈ products ↔ (∃ k, db_products w !! k = Some p) ∧ stock p ≤ 10.
Proof.
  intros Hf Hthr. rewrite (getLowStockProducts_default _ _ _ Hf), Hthr. split.
  - unfold getLowStockProducts. by rewrite try_rethrow.
  - eexists. split; [reflexivity|]. intros p.
    rewrite (select_low_stock_elem (VNumber (Num 10)) w p). simpl.
    by rewrite Z.leb_le.
Qed.

Lemma getLowStockProducts_falsy_threshold_witness :
  falsy (VNumber (Num 0)) = true
  ∧ lowStockThreshold new_InventoryManager = 10
  ∧ getLowStockProducts new_InventoryManager (VNumber (Num 0)) scenario
    = getLowStockProducts new_InventoryManager (VNumber (Num 10)) scenario.
Proof.
  assert (falsy (VNumber (Num 0)) = true) as H1 by reflexivity.
  assert (lowStockThreshold new_InventoryManager = 10) as H2 by reflexivity.
  split; [exact H1 | split; [exact H2 |]].
  exact (proj1 (getLowStockProducts_falsy_threshold new_InventoryManager
                  (VNumber (Num 0)) scenario H1 H2)).
Defined.

(** The product of the scenario, stock 5, is reported for the threshold 0. *)
Example getLowStockProducts_zero :
  getLowStockProducts new_InventoryManager (VNumber (Num 0)) scenario
  = (scenario, Return [P1]).
Proof. vm_compute. reflexivity. Qed.

(** [GET /reports/low-stock] with [threshold=0], or without a threshold
    ([parseInt] gives [NaN]), answers as with [threshold=10]. *)
Lemma handleLowStockReport_default this w :
  lowStockThreshold this = 10 →
  handleLowStockReport this (Num 0) w = handleLowStockReport this (Num 10) w
  ∧ handleLowStockReport this NaN w = handleLowStockReport this (Num 10) w.
Proof.
  intros Hthr. unfold handleLowStockReport, bind.
  rewrite (getLowStockProducts_default this (VNumber (Num 0)) w eq_refl).
  rewrite (getLowStockProducts_default this (VNumber NaN) w eq_refl).
  unfold getLowStockProducts. rewrite try_rethrow, Hthr. done.
Qed.

(** ** Listeners that do not raise *)

Lemma write_stock_quiet this pid p new w :
  (∀ p', call_listeners (lowStock this) p' = None) →
  (write_stock this pid p new w).2
  = Return {| success := true; oldStock := stock p; newStock := new |}.
Proof.
  intros Hq. rewrite write_stock_outcome, Hq.
  by destruct (new <=? lowStockThreshold this).
Qed.

(** ** Listeners that raise *)




(** ** Duplicate transaction id *)

(** C5.  A second [createTransaction] with the id [T1] throws and leaves the
    world as it was; what it throws is the driver's [ER_DUP_ENTRY] as it
    came, where [addProduct] turns the same driver error into an
    [InventoryNotificationError] of type [DUPLICATE_PRODUCT]. *)
Theorem duplicate_transaction_error_untyped :
  second_T1_call = (after_T1, Throw (DriverError "ER_DUP_ENTRY"))
  ∧ second_P1_call
    = (scenario,
       Throw (InventoryNotificationError "Product with ID P1 already exists"
                "DUPLICATE_PRODUCT")).
Proof. split; vm_compute; reflexivity. Qed.

(** ** Minimum values *)

Lemma validate_addProduct productId name price stock category :
  validateInput
    [("productId", productId); ("name", name); ("price", price);
     ("stock", stock); ("category", category)]
    [("productId", required_string);
     ("name", required_string);
     ("price", required_number 0);
     ("stock", required_number 0);
     ("category", required_string)] = None ↔
  valid_string productId ∧ valid_string name
  ∧ (∃ z, price = VNumber (Num z) ∧ z ≠ 0)
  ∧ (∃ z, stock = VNumber (Num z) ∧ z ≠ 0)
  ∧ valid_string category.
Proof.
  rewrite !validateInput_cons, !check_required_string, !check_required_number_0.
  simpl. tauto.
Qed.

(** A price of 0 is refused whatever the other arguments are, provided the
    two fields checked before it pass. *)
Lemma addProduct_price_0 this productId name stock category w :
  valid_string productId → valid_string name →
  addProduct this productId name (VNumber (Num 0)) stock category w
  = (w, Throw (InventoryNotificationError "price is required" "VALIDATION_ERROR")).
Proof.
  intros Hpid Hnm.
  assert (validateInput
            [("productId", productId); ("name", name); ("price", VNumber (Num 0));
             ("stock", stock); ("category", category)]
            [("productId", required_string);
             ("name", required_string);
             ("price", required_number 0);
             ("stock", required_number 0);
             ("category", required_string)]
          = Some (InventoryNotificationError "price is required" "VALIDATION_ERROR"))
    as Hv.
  { rewrite validateInput_skip by by apply check_required_string.
    rewrite validateInput_skip by by apply check_required_string.
    reflexivity. }
  unfold addProduct, try_catch.
  by rewrite (bind_throw _ _ _ _ _ (validate_fails _ _ _ _ Hv)).
Qed.

(** A quantity below 1 is refused with a [VALIDATION_ERROR] before anything
    is read or written. *)
Lemma quantity_below_1 this z :
  z < 1 →
  (∀ productId transactionType w,
      ∃ e, updateStock this productId (VNumber (Num z)) transactionType w
           = (w, Throw e) ∧ has_type e "VALIDATION_ERROR")
  ∧ (∀ transactionId productId type customerId w,
        ∃ e, createTransaction this transactionId productId (VNumber (Num z)) type
               customerId w = (w, Throw e) ∧ has_type e "VALIDATION_ERROR").
Proof.
  intros Hz. split.
  - intros productId transactionType w.
    destruct (validateInput
                [("productId", productId); ("quantity", VNumber (Num z));
                 ("transactionType", transactionType)]
                [("productId", required_string);
                 ("quantity", required_number 1);
                 ("transactionType", required_string)]) as [e|] eqn:Hv.
    + exists e. split; [by apply updateStock_invalid | by eapply validateInput_error].
    + apply validate_updateStock in Hv as (_ & (z' & [= <-] & ?) & _). lia.
  - intros transactionId productId type customerId w.
    destruct (validateInput
                [("transactionId", transactionId); ("productId", productId);
                 ("quantity", VNumber (Num z)); ("type", type);
                 ("customerId", customerId)]
                [("transactionId", required_string);
                 ("productId", required_string);
                 ("quantity", required_number 1);
                 ("type", required_string);
                 ("customerId", required_string)]) as [e|] eqn:Hv.
    + exists e. split; [by apply createTransaction_invalid
                       | by eapply validateInput_error].
    + apply validate_createTransaction in Hv as (_ & _ & (z' & [= <-] & ?) & _). lia.
Qed.

(** C8.  [addProduct("P2", "Gadget", 0, 5, "X")] and
    [addProduct("P2", "Gadget", 100, 0, "X")] throw a [VALIDATION_ERROR]
    ("price is required", "stock is required") and write nothing, and the
    validation of [addProduct("P2", "Gadget", -5, -3, "X")] passes: the
    call goes on to the [INSERT] and returns. *)
Theorem addProduct_minimum_0_not_enforced :
  addProduct new_InventoryManager (VString "P2") (VString "Gadget")
    (VNumber (Num 0)) (VNumber (Num 5)) (VString "X") scenario
  = (scenario,
     Throw (InventoryNotificationError "price is required" "VALIDATION_ERROR"))
  ∧ addProduct new_InventoryManager (VString "P2") (VString "Gadget")
      (VNumber (Num 100)) (VNumber (Num 0)) (VString "X") scenario
    = (scenario,
       Throw (InventoryNotificationError "stock is required" "VALIDATION_ERROR"))
  ∧ validateInput
      [("productId", VString "P2"); ("name", VString "Gadget");
       ("price", VNumber (Num (-5))); ("stock", VNumber (Num (-3)));
       ("category", VString "X")]
      [("productId", required_string);
       ("name", required_string);
       ("price", required_number 0);
       ("stock", required_number 0);
       ("category", required_string)] = None
  ∧ returned
      (addProduct new_InventoryManager (VString "P2") (VString "Gadget")
         (VNumber (Num (-5))) (VNumber (Num (-3))) (VString "X") scenario).2
    = true.
Proof. repeat split; vm_compute; reflexivity. Qed.

(** * Further properties of the code *)

(** ** [addProduct] *)

Lemma addProduct_invalid this productId name price stock category w e :
  validateInput
    [("productId", productId); ("name", name); ("price", price);
     ("stock", stock); ("category", category)]
    [("productId", required_string);
     ("name", required_string);
     ("price", required_number 0);
     ("stock", required_number 0);
     ("category", required_string)] = Some e →
  addProduct this productId name price stock category w = (w, Throw e).
Proof.
  intros Hv. destruct (validateInput_error _ _ _ Hv) as [message ->].
  unfold addProduct, try_catch.
  by rewrite (bind_throw _ _ _ _ _ (validate_fails _ _ _ _ Hv)).
Qed.

Lemma addProduct_valid this productId name price stock category w :
  validateInput
    [("productId", productId); ("name", name); ("price", price);
     ("stock", stock); ("category", category)]
    [("productId", required_string);
     ("name", required_string);
     ("price", required_number 0);
     ("stock", required_number 0);
     ("category", required_string)] = None →
  addProduct this productId name price stock category w
  = match db_products w !! str productId with
    | Some _ =>
        (w, Throw (InventoryNotificationError
                     ("Product with ID " +:+ show productId +:+ " already exists")
                     "DUPLICATE_PRODUCT"))
    | None =>
        (set_auto_increment (auto_increment w + 1)
           (set_products
              (insert (str productId)
                 {| row_id := auto_increment w;
                    product_id := str productId;
                    name := str name;
                    price := num price;
                    stock := num stock;
                    category := str category |}) w),
         Return {| add_success := true; insertId := auto_increment w |})
    end.
Proof.
  intros Hv. unfold addProduct, try_catch.
  rewrite (bind_return _ _ _ _ _ (validate_ok _ _ _ Hv)).
  unfold bind, insert_product, ret.
  by destruct (db_products w !! str productId).
Qed.

Lemma addProduct_throw_unchanged this productId name price stock category w w' e :
  addProduct this productId name price stock category w = (w', Throw e) →
  w' = w
  ∧ (has_type e "VALIDATION_ERROR"
     ∨ e = InventoryNotificationError
             ("Product with ID " +:+ str productId +:+ " already exists")
             "DUPLICATE_PRODUCT"
       ∧ valid_string productId
       ∧ is_Some (db_products w !! str productId)).
Proof.
  intros Hcall.
  destruct (validateInput
              [("productId", productId); ("name", name); ("price", price);
               ("stock", stock); ("category", category)]
              [("productId", required_string);
               ("name", required_string);
               ("price", required_number 0);
               ("stock", required_number 0);
               ("category", required_string)]) as [e0|] eqn:Hv.
  - rewrite (addProduct_invalid _ _ _ _ _ _ _ _ Hv) in Hcall.
    injection Hcall as <- <-. split; [done|]. left. by eapply validateInput_error.
  - rewrite (addProduct_valid _ _ _ _ _ _ _ Hv) in Hcall.
    apply validate_addProduct in Hv as (Hpid & _).
    destruct (db_products w !! str productId) as [p|] eqn:Hp; [|discriminate].
    injection Hcall as <- <-. split; [done|]. right.
    destruct Hpid as (pid & -> & Hne). simpl in *.
    split; [done|]. split; [by exists pid | by exists p].
Qed.

(** X2. A call of [addProduct] that returns has inserted the row of its
    arguments under the product id, with [insertId] as its [id]; no other
    product, no transaction and no event is touched; and any later
    [addProduct] with that id and valid fields throws [DUPLICATE_PRODUCT]
    and writes nothing. *)
Theorem addProduct_round_trip this productId name price stock category w w' r :
  addProduct this productId name price stock category w = (w', Return r) →
  db_products w !! str productId = None
  ∧ db_products w' !! str productId
    = Some {| row_id := insertId r;
              product_id := str productId;
              name := str name;
              price := num price;
              stock := num stock;
              category := str category |}
  ∧ (∀ k, k ≠ str productId → db_products w' !! k = db_products w !! k)
  ∧ db_transactions w' = db_transactions w
  ∧ emitted w' = emitted w
  ∧ ∀ name' price' stock' category',
      valid_string name' → valid_string category' →
      (∃ z, price' = VNumber (Num z) ∧ z ≠ 0) →
      (∃ z, stock' = VNumber (Num z) ∧ z ≠ 0) →
      addProduct this productId name' price' stock' category' w'
      = (w', Throw (InventoryNotificationError
                      ("Product with ID " +:+ str productId +:+ " already exists")
                      "DUPLICATE_PRODUCT")).
Proof.
  intros Hcall.
  destruct (validateInput
              [("productId", productId); ("name", name); ("price", price);
               ("stock", stock); ("category", category)]
              [("productId", required_string);
               ("name", required_string);
               ("price", required_number 0);
               ("stock", required_number 0);
               ("category", required_string)]) as [e0|] eqn:Hv.
  { rewrite (addProduct_invalid _ _ _ _ _ _ _ _ Hv) in Hcall. discriminate. }
  rewrite (addProduct_valid _ _ _ _ _ _ _ Hv) in Hcall.
  apply validate_addProduct in Hv as (Hpid & _).
  destruct (db_products w !! str productId) as [p|] eqn:Hp; [discriminate|].
  injection Hcall as <- <-. simpl.
  split; [done|]. split; [by rewrite lookup_insert_eq|].
  split; [by intros k Hk; rewrite lookup_insert_ne|].
  split; [done|]. split; [done|].
  intros name' price' stock' category' Hn Hc Hpr Hst.
  assert (validateInput
            [("productId", productId); ("name", name'); ("price", price');
             ("stock", stock'); ("category", category')]
            [("productId", required_string);
             ("name", required_string);
             ("price", required_number 0);
             ("stock", required_number 0);
             ("category", required_string)] = None) as Hv'.
  { by apply validate_addProduct. }
  rewrite (addProduct_valid _ _ _ _ _ _ _ Hv'). simpl.
  rewrite lookup_insert_eq. destruct Hpid as (pid & -> & _). done.
Qed.

Lemma addProduct_round_trip_witness :
  addProduct new_InventoryManager (VString "P2") (VString "Gadget")
    (VNumber (Num 40)) (VNumber (Num 7)) (VString "Y") scenario
  = ({| db_products :=
          <["P2" := {| row_id := 2; product_id := "P2"; name := "Gadget";
                       price := 40; stock := 7; category := "Y" |}]>
            (db_products scenario);
        db_transactions := ∅;
        auto_increment := 3;
        emitted := [] |},
     Return {| add_success := true; insertId := 2 |})
  ∧ db_products scenario !! "P2" = None.
Proof.
  assert (addProduct new_InventoryManager (VString "P2") (VString "Gadget")
            (VNumber (Num 40)) (VNumber (Num 7)) (VString "Y") scenario
          = ({| db_products :=
                  <["P2" := {| row_id := 2; product_id := "P2"; name := "Gadget";
                               price := 40; stock := 7; category := "Y" |}]>
                    (db_products scenario);
                db_transactions := ∅;
                auto_increment := 3;
                emitted := [] |},
             Return {| add_success := true; insertId := 2 |})) as H
    by (vm_compute; reflexivity).
  split; [exact H|].
  exact (proj1 (addProduct_round_trip new_InventoryManager _ _ _ _ _ _ _ _ H)).
Defined.

(** ** [updateStock] *)

Lemma write_stock_auto_increment this pid p new w :
  auto_increment (write_stock this pid p new w).1 = auto_increment w.
Proof.
  unfold write_stock, bind, update_stock, emit, ret. simpl.
  destruct (new <=? lowStockThreshold this); simpl;
    try destruct (call_listeners _ _); done.
Qed.

(** X3. Whatever its arguments and whether it returns or throws,
    [updateStock] leaves the transactions and every other product as they
    were, and of the row of its product it changes the stock only. *)
Theorem updateStock_frame this productId quantity transactionType w :
  db_transactions (updateStock this productId quantity transactionType w).1
  = db_transactions w
  ∧ auto_increment (updateStock this productId quantity transactionType w).1
    = auto_increment w
  ∧ (∀ k, k ≠ str productId →
          db_products (updateStock this productId quantity transactionType w).1 !! k
          = db_products w !! k)
  ∧ match db_products w !! str productId with
    | Some p =>
        ∃ s, db_products (updateStock this productId quantity transactionType w).1
             !! str productId = Some (with_stock p s)
    | None =>
        db_products (updateStock this productId quantity transactionType w).1
        !! str productId = None
    end.
Proof.
  destruct (updateStock_cases this productId quantity transactionType w)
    as [[e ->] | (pid & q & ty & p & new & -> & _ & _ & _ & Hp & _ & ->)]; simpl.
  - repeat split; try done.
    destruct (db_products w !! str productId) as [p|] eqn:Hp; [|done].
    exists (stock p). by destruct p.
  - rewrite write_stock_transactions, write_stock_auto_increment,
      (write_stock_products _ _ _ _ _ Hp), Hp.
    repeat split; try done.
    + intros k Hk. by rewrite lookup_insert_ne.
    + exists new. by rewrite lookup_insert_eq.
Qed.

(** X4. With valid arguments and a product id that is no product,
    [updateStock] and [createTransaction] throw [PRODUCT_NOT_FOUND] naming
    the id and write nothing (no transaction row), whatever the type and the
    quantity are. *)
Theorem product_not_found this pid q ty w :
  pid ≠ "" → 1 ≤ q → ty ≠ "" → db_products w !! pid = None →
  updateStock this (VString pid) (VNumber (Num q)) (VString ty) w
  = (w, Throw (InventoryNotificationError
                 ("Product with ID " +:+ pid +:+ " not found") "PRODUCT_NOT_FOUND"))
  ∧ ∀ tid cid,
      tid ≠ "" → cid ≠ "" →
      createTransaction this (VString tid) (VString pid) (VNumber (Num q))
        (VString ty) (VString cid) w
      = (w, Throw (InventoryNotificationError
                     ("Product with ID " +:+ pid +:+ " not found")
                     "PRODUCT_NOT_FOUND")).
Proof.
  intros Hpid Hq Hty Hp. split.
  - by apply updateStock_not_found.
  - intros tid cid Htid Hcid. by apply createTransaction_not_found.
Qed.

Lemma product_not_found_witness :
  "P9" ≠ "" ∧ 1 ≤ 4 ∧ "refund" ≠ "" ∧ db_products scenario !! "P9" = None
  ∧ updateStock new_InventoryManager (VString "P9") (VNumber (Num 4))
      (VString "refund") scenario
    = (scenario,
       Throw (InventoryNotificationError "Product with ID P9 not found"
                "PRODUCT_NOT_FOUND")).
Proof.
  assert ("P9" ≠ "") as H1 by discriminate.
  assert (1 ≤ 4) as H2 by lia.
  assert ("refund" ≠ "") as H3 by discriminate.
  assert (db_products scenario !! "P9" = None) as H4 by reflexivity.
  split; [exact H1 | split; [exact H2 | split; [exact H3 | split; [exact H4 |]]]].
  exact (proj1 (product_not_found new_InventoryManager "P9" 4 "refund" scenario
                  H1 H2 H3 H4)).
Defined.

Lemma updateStock_throw_unchanged this productId quantity transactionType w w' e :
  (∀ p, call_listeners (lowStock this) p = None) →
  updateStock this productId quantity transactionType w = (w', Throw e) →
  w' = w
  ∧ (has_type e "VALIDATION_ERROR" ∨ has_type e "PRODUCT_NOT_FOUND"
     ∨ has_type e "INSUFFICIENT_STOCK" ∨ has_type e "INVALID_TRANSACTION_TYPE").
Proof.
  intros Hquiet Hcall.
  destruct (validateInput
              [("productId", productId); ("quantity", quantity);
               ("transactionType", transactionType)]
              [("productId", required_string);
               ("quantity", required_number 1);
               ("transactionType", required_string)]) as [e0|] eqn:Hv.
  { rewrite (updateStock_invalid _ _ _ _ _ _ Hv) in Hcall.
    injection Hcall as <- <-. split; [done|]. left. by eapply validateInput_error. }
  apply validate_updateStock in Hv
    as ((pid & -> & Hpid) & (q & -> & Hq) & (ty & -> & Hty)).
  destruct (db_products w !! pid) as [p|] eqn:Hp.
  2: { rewrite (updateStock_not_found _ _ _ _ _ Hpid Hq Hty Hp) in Hcall.
       injection Hcall as <- <-. split; [done|]. right; left. by eexists. }
  assert (∀ new, updateStock this (VString pid) (VNumber (Num q)) (VString ty) w
                 = write_stock this pid p new w → False) as Hreturns.
  { intros new Hupd. rewrite Hupd in Hcall.
    pose proof (write_stock_quiet this pid p new w Hquiet) as Hr.
    rewrite Hcall in Hr. discriminate. }
  destruct (decide (ty = "purchase" ∨ ty = "restock")) as [Hin|Hout].
  { destruct (Hreturns (stock p + q)). by apply updateStock_increase. }
  destruct (decide (ty = "sale")) as [Hs|Hs].
  - destruct (Z_lt_le_dec (stock p) q) as [Hlt|Hle].
    + rewrite (updateStock_insufficient _ _ _ _ _ Hpid Hq Hty p Hp Hs Hlt) in Hcall.
      injection Hcall as <- <-. split; [done|]. right; right; left. by eexists.
    + destruct (Hreturns (stock p - q)). by apply updateStock_sale.
  - assert (ty ≠ "purchase" ∧ ty ≠ "restock") as [H1 H2] by tauto.
    rewrite (updateStock_other_type _ _ _ _ _ Hpid Hq Hty p Hp H1 H2 Hs) in Hcall.
    injection Hcall as <- <-. split; [done|]. right; right; right. by eexists.
Qed.

Lemma with_stock_same p : with_stock p (stock p) = p.
Proof. by destruct p. Qed.

Lemma with_stock_twice p s s' : with_stock (with_stock p s) s' = with_stock p s'.
Proof. done. Qed.

(** X6. A restock of [q] followed by a sale of [q] of the same product (its
    stock not negative), and a sale of [q] (covered by the stock) followed by
    a purchase of [q], leave the table of products as it was before the two
    calls; when no [lowStock] listener raises the second call returns the two
    stocks. *)
Theorem restock_and_sale_cancel this pid q w p :
  pid ≠ "" → 1 ≤ q → db_products w !! pid = Some p →
  (0 ≤ stock p →
   let w1 := (updateStock this (VString pid) (VNumber (Num q))
                (VString "restock") w).1 in
   let second := updateStock this (VString pid) (VNumber (Num q))
                   (VString "sale") w1 in
   db_products second.1 = db_products w
   ∧ ((∀ p', call_listeners (lowStock this) p' = None) →
      second.2 = Return {| success := true; oldStock := stock p + q;
                           newStock := stock p |}))
  ∧ (q ≤ stock p →
     let w1 := (updateStock this (VString pid) (VNumber (Num q))
                  (VString "sale") w).1 in
     let second := updateStock this (VString pid) (VNumber (Num q))
                     (VString "purchase") w1 in
     db_products second.1 = db_products w
     ∧ ((∀ p', call_listeners (lowStock this) p' = None) →
        second.2 = Return {| success := true; oldStock := stock p - q;
                             newStock := stock p |})).
Proof.
  intros Hpid Hq Hp.
  assert (∀ new new' w1,
            db_products w1 = <[pid := with_stock p new]> (db_products w) →
            new' = stock p →
            db_products (write_stock this pid (with_stock p new) new' w1).1
            = db_products w) as Hback.
  { intros new new' w1 Hw1 ->.
    rewrite write_stock_products by by rewrite Hw1, lookup_insert_eq.
    rewrite Hw1, insert_insert_eq, with_stock_twice, with_stock_same.
    by apply insert_id. }
  split.
  - intros Hs. simpl.
    rewrite (updateStock_increase this pid "restock" q w Hpid Hq ltac:(done) p Hp)
      by auto.
    pose proof (write_stock_products this pid p (stock p + q) w Hp) as Hw1.
    set (w1 := (write_stock this pid p (stock p + q) w).1) in *.
    assert (db_products w1 !! pid = Some (with_stock p (stock p + q))) as Hp1
      by by rewrite Hw1, lookup_insert_eq.
    rewrite (updateStock_sale this pid "sale" q w1 Hpid Hq ltac:(done) _ Hp1)
      by (done || (simpl; lia)).
    simpl. replace (stock p + q - q) with (stock p) by lia. split.
    + by apply Hback.
    + intros Hquiet. by rewrite write_stock_quiet.
  - intros Hle. simpl.
    rewrite (updateStock_sale this pid "sale" q w Hpid Hq ltac:(done) p Hp)
      by done.
    pose proof (write_stock_products this pid p (stock p - q) w Hp) as Hw1.
    set (w1 := (write_stock this pid p (stock p - q) w).1) in *.
    assert (db_products w1 !! pid = Some (with_stock p (stock p - q))) as Hp1
      by by rewrite Hw1, lookup_insert_eq.
    rewrite (updateStock_increase this pid "purchase" q w1 Hpid Hq ltac:(done)
               _ Hp1) by auto.
    simpl. replace (stock p - q + q) with (stock p) by lia. split.
    + by apply Hback.
    + intros Hquiet. by rewrite write_stock_quiet.
Qed.

Lemma restock_and_sale_cancel_witness :
  "P1" ≠ "" ∧ 1 ≤ 7 ∧ db_products scenario !! "P1" = Some P1
  ∧ db_products
      (updateStock new_InventoryManager (VString "P1") (VNumber (Num 7))
         (VString "sale")
         (updateStock new_InventoryManager (VString "P1") (VNumber (Num 7))
            (VString "restock") scenario).1).1
    = db_products scenario.
Proof.
  assert ("P1" ≠ "") as H1 by discriminate.
  assert (1 ≤ 7) as H2 by lia.
  assert (db_products scenario !! "P1" = Some P1) as H3 by reflexivity.
  split; [exact H1 | split; [exact H2 | split; [exact H3 |]]].
  assert (0 ≤ stock P1) as H4 by (simpl; lia).
  exact (proj1 (proj1 (restock_and_sale_cancel new_InventoryManager "P1" 7
                         scenario P1 H1 H2 H3) H4)).
Defined.

(** ** [createTransaction] *)

(** A call of [createTransaction] that returns: what it was given, what it
    found and what it has written. *)
Lemma createTransaction_returns this transactionId productId quantity type
  customerId w w' r :
  createTransaction this transactionId productId quantity type customerId w
  = (w', Return r) →
  ∃ tid pid q ty cid p new,
    transactionId = VString tid ∧ productId = VString pid
    ∧ quantity = VNumber (Num q) ∧ type = VString ty ∧ customerId = VString cid
    ∧ 1 ≤ q
    ∧ db_products w !! pid = Some p
    ∧ db_transactions w !! tid = None
    ∧ ((ty = "purchase" ∨ ty = "restock") ∧ new = stock p + q
       ∨ ty = "sale" ∧ q ≤ stock p ∧ new = stock p - q)
    ∧ db_products w' = <[pid := with_stock p new]> (db_products w)
    ∧ db_transactions w' = <[tid := row_of tid pid q ty cid p]> (db_transactions w)
    ∧ emitted w'
      = (emitted w
         ++ (if new <=? lowStockThreshold this
             then [LowStock (with_stock p new)] else [])
         ++ [TransactionComplete (event_of tid pid q ty cid p)])%list
    ∧ r = {| txn_success := true; totalAmount := price p * q |}.
Proof.
  intros Hcall.
  destruct (createTransaction_cases this transactionId productId quantity type
              customerId w)
    as [(e & He & _) | (tid & pid & q & ty & cid & p & -> & -> & -> & -> & ->
                        & Hpid & Hq & Hty & Hp & Ht & Hw)];
    [congruence|].
  rewrite Hcall in Hw.
  set (w1 := set_transactions _ w) in Hw.
  assert (db_products w1 !! pid = Some p) as Hp1 by done.
  destruct (updateStock_cases this (VString pid) (VNumber (Num q)) (VString ty) w1)
    as [[e He] | (pid' & q' & ty' & p' & new & [= <-] & [= <-] & [= <-] & _ & Hp'
                  & Hnew & Hupd)].
  { rewrite (after_insert_throw _ _ _ _ _ _ _ _ _ _ He) in Hw. discriminate. }
  rewrite Hp1 in Hp'. injection Hp' as <-.
  pose proof (write_stock_products this pid p new w1 Hp1) as Hprod.
  pose proof (write_stock_transactions this pid p new w1) as Htx.
  pose proof (write_stock_emitted this pid p new w1) as Hem.
  destruct (write_stock this pid p new w1) as [w2 [r2|e]].
  2: { rewrite (after_insert_throw _ _ _ _ _ _ _ _ _ _ Hupd) in Hw. discriminate. }
  rewrite (after_insert_return _ _ _ _ _ _ _ _ _ _ Hupd) in Hw.
  destruct (call_listeners _ _); [discriminate|].
  injection Hw as -> ->. simpl in *.
  exists tid, pid, q, ty, cid, p, new.
  rewrite Hprod, Htx, Hem, <- app_assoc. by repeat split.
Qed.

(** X7. A call of [createTransaction] that returns has emitted, after the
    [lowStock] of the stock update if there is one, exactly one
    [transactionComplete] carrying its arguments and the total, as the last
    event; the [lowStock] row is the row of the product now stored.  When no
    listener raises, a call that throws has emitted nothing. *)
Theorem createTransaction_events this transactionId productId quantity type
  customerId w :
  (∀ w' r,
      createTransaction this transactionId productId quantity type customerId w
      = (w', Return r) →
      ∃ p',
        db_products w' !! str productId = Some p'
        ∧ emitted w'
          = (emitted w
             ++ (if stock p' <=? lowStockThreshold this then [LowStock p'] else [])
             ++ [TransactionComplete
                   {| ev_transactionId := str transactionId;
                      ev_productId := str productId;
                      ev_quantity := num quantity;
                      ev_type := str type;
                      ev_customerId := str customerId;
                      ev_totalAmount := totalAmount r |}])%list)
  ∧ (quiet this →
     ∀ w' e,
       createTransaction this transactionId productId quantity type customerId w
       = (w', Throw e) →
       emitted w' = emitted w).
Proof.
  split.
  - intros w' r Hcall.
    destruct (createTransaction_returns _ _ _ _ _ _ _ _ _ Hcall)
      as (tid & pid & q & ty & cid & p & new & -> & -> & -> & -> & -> & _ & Hp & _
          & _ & Hprod & _ & Hem & ->).
    exists (with_stock p new). simpl.
    split; [by rewrite Hprod, lookup_insert_eq | exact Hem].
  - intros Hquiet w' e Hcall.
    destruct (createTransaction_cases this transactionId productId quantity type
                customerId w)
      as [(e0 & He0 & _) | (tid & pid & q & ty & cid & p & -> & -> & -> & -> & ->
                            & Hpid & Hq & Hty & Hp & Ht & Hw)].
    { rewrite Hcall in He0. by injection He0 as -> _. }
    rewrite Hcall in Hw.
    set (w1 := set_transactions _ w) in Hw.
    destruct (updateStock this (VString pid) (VNumber (Num q)) (VString ty) w1)
      as [w2 [r2|e2]] eqn:Hupd.
    + rewrite (after_insert_return _ _ _ _ _ _ _ _ _ _ Hupd) in Hw.
      destruct Hquiet as [_ Hdone]. rewrite Hdone in Hw. discriminate.
    + rewrite (after_insert_throw _ _ _ _ _ _ _ _ _ _ Hupd) in Hw.
      injection Hw as -> _.
      destruct Hquiet as [Hlow _].
      by destruct (updateStock_throw_unchanged this (VString pid)
                     (VNumber (Num q)) (VString ty) w1 w2 e2 Hlow Hupd) as [-> _].
Qed.

(** ** Any sequence of calls *)

Lemma addProduct_effect this productId name price stock category w :
  db_transactions (addProduct this productId name price stock category w).1
  = db_transactions w
  ∧ (db_products (addProduct this productId name price stock category w).1
     = db_products w
     ∨ ∃ pid row,
         db_products w !! pid = None
         ∧ db_products (addProduct this productId name price stock category w).1
           = <[pid := row]> (db_products w)).
Proof.
  destruct (validateInput
              [("productId", productId); ("name", name); ("price", price);
               ("stock", stock); ("category", category)]
              [("productId", required_string);
               ("name", required_string);
               ("price", required_number 0);
               ("stock", required_number 0);
               ("category", required_string)]) as [e0|] eqn:Hv.
  - rewrite (addProduct_invalid _ _ _ _ _ _ _ _ Hv). auto.
  - rewrite (addProduct_valid _ _ _ _ _ _ _ Hv).
    destruct (db_products w !! str productId) eqn:Hp; simpl; [auto|].
    split; [done|]. right. eauto.
Qed.

Lemma updateStock_effect this productId quantity transactionType w :
  db_products (updateStock this productId quantity transactionType w).1
  = db_products w
  ∨ ∃ pid p s,
      db_products w !! pid = Some p
      ∧ (0 ≤ stock p → 0 ≤ s)
      ∧ db_products (updateStock this productId quantity transactionType w).1
        = <[pid := with_stock p s]> (db_products w).
Proof.
  destruct (updateStock_cases this productId quantity transactionType w)
    as [[e ->] | (pid & q & ty & p & new & _ & _ & _ & Hq & Hp & Hnew & ->)];
    [by left|].
  right. exists pid, p, new. split; [done|]. split.
  - destruct Hnew as [[_ ->] | (_ & Hle & ->)]; lia.
  - by apply write_stock_products.
Qed.

Lemma createTransaction_effect this transactionId productId quantity type
  customerId w :
  (db_transactions
     (createTransaction this transactionId productId quantity type customerId w).1
   = db_transactions w
   ∨ ∃ tid t,
       db_transactions w !! tid = None
       ∧ well_formed_row w t
       ∧ db_transactions
           (createTransaction this transactionId productId quantity type
              customerId w).1
         = <[tid := t]> (db_transactions w))
  ∧ (db_products
       (createTransaction this transactionId productId quantity type customerId w).1
     = db_products w
     ∨ ∃ pid p s,
         db_products w !! pid = Some p
         ∧ (0 ≤ stock p → 0 ≤ s)
         ∧ db_products
             (createTransaction this transactionId productId quantity type
                customerId w).1
           = <[pid := with_stock p s]> (db_products w)).
Proof.
  destruct (createTransaction_cases this transactionId productId quantity type
              customerId w)
    as [(e & -> & _) | (tid & pid & q & ty & cid & p & _ & _ & _ & _ & _ & _ & Hq
                        & _ & Hp & Ht & ->)];
    [auto|].
  set (w1 := set_transactions _ w).
  pose proof (updateStock_transactions this (VString pid) (VNumber (Num q))
                (VString ty) w1) as Htx.
  pose proof (updateStock_effect this (VString pid) (VNumber (Num q))
                (VString ty) w1) as Hprod.
  assert (db_transactions
            (after_insert this tid pid q ty cid p w1).1 = db_transactions w1
          ∧ db_products (after_insert this tid pid q ty cid p w1).1
            = db_products
                (updateStock this (VString pid) (VNumber (Num q)) (VString ty) w1).1)
    as [-> ->].
  { destruct (updateStock this (VString pid) (VNumber (Num q)) (VString ty) w1)
      as [w2 [r|e]] eqn:Hcall.
    - by rewrite (after_insert_return _ _ _ _ _ _ _ _ _ _ Hcall).
    - by rewrite (after_insert_throw _ _ _ _ _ _ _ _ _ _ Hcall). }
  split; [|exact Hprod].
  right. exists tid, (row_of tid pid q ty cid p).
  split; [done|]. split; [|done].
  unfold well_formed_row. simpl. by rewrite Hp.
Qed.

Lemma step_effect this r w :
  (db_transactions (step this r w) = db_transactions w
   ∨ ∃ tid t,
       db_transactions w !! tid = None
       ∧ well_formed_row w t
       ∧ db_transactions (step this r w) = <[tid := t]> (db_transactions w))
  ∧ (db_products (step this r w) = db_products w
     ∨ (∃ pid p s,
           db_products w !! pid = Some p
           ∧ (0 ≤ stock p → 0 ≤ s)
           ∧ db_products (step this r w) = <[pid := with_stock p s]> (db_products w))
     ∨ ∃ pid row,
         db_products w !! pid = None
         ∧ db_products (step this r w) = <[pid := row]> (db_products w)).
Proof.
  destruct r as [productId name price stock category | [a b c | a b c d e]]; simpl.
  - destruct (addProduct_effect this productId name price stock category w)
      as [-> [-> | H]]; auto.
  - rewrite updateStock_transactions.
    destruct (updateStock_effect this a b c w) as [-> | H]; auto.
  - destruct (createTransaction_effect this a b c d e w) as [Ht [Hp | Hp]]; auto.
Qed.

Lemma run_cons this r rs w : run this (r :: rs) w = run this rs (step this r w).
Proof. done. Qed.

(** A product keeps its row, but for the stock, through one call. *)
Lemma step_product this r w k p :
  db_products w !! k = Some p →
  ∃ s, db_products (step this r w) !! k = Some (with_stock p s)
       ∧ (0 ≤ stock p → 0 ≤ s).
Proof.
  intros Hk.
  destruct (step_effect this r w)
    as [_ [-> | [(pid & p' & s & Hp' & Hs & ->) | (pid & row & Hnone & ->)]]].
  - exists (stock p). by rewrite with_stock_same.
  - destruct (decide (pid = k)) as [->|Hne].
    + rewrite Hk in Hp'. injection Hp' as <-.
      exists s. by rewrite lookup_insert_eq.
    + exists (stock p). by rewrite lookup_insert_ne, with_stock_same.
  - exists (stock p). rewrite lookup_insert_ne, with_stock_same; [done|].
    intros ->. congruence.
Qed.

Lemma run_product this rs w k p :
  db_products w !! k = Some p →
  ∃ s, db_products (run this rs w) !! k = Some (with_stock p s).
Proof.
  revert w p. induction rs as [|r rs IH]; intros w p Hk.
  - exists (stock p). by rewrite with_stock_same.
  - rewrite run_cons.
    destruct (step_product this r w k p Hk) as (s & Hs & _).
    destruct (IH _ _ Hs) as (s' & Hs'). by exists s'.
Qed.

(** X8. Through any sequence of [addProduct], [updateStock] and
    [createTransaction] calls, whatever their outcomes, a product is never
    removed and its row keeps its id, product id, name, price and category:
    of an existing product the calls change the stock only. *)
Theorem product_row_kept this rs w k p :
  db_products w !! k = Some p →
  ∃ p', db_products (run this rs w) !! k = Some p' ∧ same_but_stock p p'.
Proof.
  intros Hk. destruct (run_product this rs w k p Hk) as (s & Hs).
  by exists (with_stock p s).
Qed.

Lemma product_row_kept_witness :
  db_products scenario !! "P1" = Some P1
  ∧ ∃ p', db_products
            (run new_InventoryManager
               [Mutation (CreateTransaction (VString "T2") (VString "P1")
                            (VNumber (Num 10)) (VString "sale") (VString "C1"));
                AddProduct (VString "P1") (VString "Other") (VNumber (Num 1))
                  (VNumber (Num 1)) (VString "Z");
                Mutation (UpdateStock (VString "P1") (VNumber (Num 4))
                            (VString "sale"))] scenario) !! "P1"
          = Some p'
          ∧ same_but_stock P1 p'.
Proof.
  assert (db_products scenario !! "P1" = Some P1) as H by reflexivity.
  split; [exact H|].
  exact (product_row_kept new_InventoryManager _ scenario "P1" P1 H).
Defined.

(** X9. Through any sequence of calls, whatever their outcomes, a row of
    [transactions] is never changed or removed. *)
Theorem transaction_row_kept this rs w tid t :
  db_transactions w !! tid = Some t →
  db_transactions (run this rs w) !! tid = Some t.
Proof.
  revert w. induction rs as [|r rs IH]; intros w Ht; [done|].
  rewrite run_cons. apply IH.
  destruct (step_effect this r w) as [[-> | (tid' & t' & Hnone & _ & ->)] _];
    [done|].
  rewrite lookup_insert_ne; [done|]. intros ->. congruence.
Qed.

Lemma transaction_row_kept_witness :
  db_transactions after_T1 !! "T1" = Some (row_of "T1" "P1" 3 "sale" "C1" P1)
  ∧ db_transactions
      (run new_InventoryManager
         [Mutation (CreateTransaction (VString "T1") (VString "P1")
                      (VNumber (Num 1)) (VString "purchase") (VString "C2"));
          Mutation (CreateTransaction (VString "T2") (VString "P1")
                      (VNumber (Num 1)) (VString "purchase") (VString "C2"))]
         after_T1) !! "T1"
    = Some (row_of "T1" "P1" 3 "sale" "C1" P1).
Proof.
  assert (db_transactions after_T1 !! "T1"
          = Some (row_of "T1" "P1" 3 "sale" "C1" P1)) as H by reflexivity.
  split; [exact H|].
  exact (transaction_row_kept new_InventoryManager _ after_T1 "T1" _ H).
Defined.

Lemma well_formed_row_step this r w t :
  well_formed_row w t → well_formed_row (step this r w) t.
Proof.
  intros (Hq & Htot & [p Hp]). split; [done|]. split; [done|].
  destruct (step_product this r w _ p Hp) as (s & -> & _). by eexists.
Qed.

(** X10. If every row of [transactions] has a quantity of at least 1, a
    total equal to its unit price times its quantity, and a product that
    exists, then this still holds after any sequence of calls, whatever their
    outcomes. *)
Theorem ledger_rows_well_formed this rs w :
  map_Forall (λ _ t, well_formed_row w t) (db_transactions w) →
  map_Forall (λ _ t, well_formed_row (run this rs w) t)
    (db_transactions (run this rs w)).
Proof.
  revert w. induction rs as [|r rs IH]; intros w Hw; [done|].
  rewrite run_cons. apply IH.
  destruct (step_effect this r w) as [[Heq | (tid' & t' & Hnone & Hwf & Heq)] _];
    rewrite Heq.
  - intros tid t Ht. apply well_formed_row_step. by apply (Hw tid).
  - apply map_Forall_insert_2.
    + by apply well_formed_row_step.
    + intros tid t Ht. apply well_formed_row_step. by apply (Hw tid).
Qed.

Lemma ledger_rows_well_formed_witness :
  map_Forall (λ _ t, well_formed_row scenario t) (db_transactions scenario)
  ∧ map_Forall
      (λ _ t,
         well_formed_row
           (run new_InventoryManager
              [Mutation (CreateTransaction (VString "T2") (VString "P1")
                           (VNumber (Num 10)) (VString "sale") (VString "C1"))]
              scenario) t)
      (db_transactions
         (run new_InventoryManager
            [Mutation (CreateTransaction (VString "T2") (VString "P1")
                         (VNumber (Num 10)) (VString "sale") (VString "C1"))]
            scenario)).
Proof.
  assert (map_Forall (λ _ t, well_formed_row scenario t)
            (db_transactions scenario)) as H by apply map_Forall_empty.
  split; [exact H|].
  exact (ledger_rows_well_formed new_InventoryManager _ scenario H).
Defined.

(** ** The ledger and the stock *)

Lemma sum_permutation (l l' : list Z) :
  l ≡ₚ l' → foldr Z.add 0 l = foldr Z.add 0 l'.
Proof. induction 1; simpl; lia. Qed.

Lemma net_of_insert k w w' tid t :
  db_transactions w !! tid = None →
  db_transactions w' = <[tid := t]> (db_transactions w) →
  net_of k w'
  = (if String.eqb (txn_product_id t) k then signed_quantity t else 0) + net_of k w.
Proof.
  intros Hnone Heq. unfold net_of. rewrite Heq.
  rewrite (sum_permutation _ _
             (fmap_Permutation _ _ _
                (fmap_Permutation snd _ _ (map_to_list_insert _ _ _ Hnone)))).
  done.
Qed.

Lemma stock_of_insert k w w' pid p :
  db_products w' = <[pid := p]> (db_products w) →
  stock_of k w' = if decide (pid = k) then stock p else stock_of k w.
Proof.
  intros Heq. unfold stock_of. rewrite Heq.
  destruct (decide (pid = k)) as [->|Hne].
  - by rewrite lookup_insert_eq.
  - by rewrite lookup_insert_ne.
Qed.

(** ** Low-stock report *)

Global Instance by_stock_total : Total by_stock.
Proof. intros p q. unfold by_stock. lia. Qed.

(** X12. [getLowStockProducts] returns its rows in ascending order of
    stock and leaves the world as it was; for a threshold that is a number
    other than 0 the rows are exactly the products with a stock of at most
    the threshold. *)
Theorem getLowStockProducts_sorted this threshold w :
  ∃ l, getLowStockProducts this threshold w = (w, Return l)
       ∧ Sorted by_stock l
       ∧ ∀ t, threshold = VNumber (Num t) → t ≠ 0 →
              ∀ p, p ∈ l ↔ (∃ k, db_products w !! k = Some p) ∧ stock p ≤ t.
Proof.
  unfold getLowStockProducts. eexists. rewrite try_rethrow.
  split; [reflexivity|]. split.
  - apply Sorted_merge_sort. apply _.
  - intros t -> Ht p. simpl.
    destruct (Z.eqb_spec t 0) as [|_]; [done|].
    rewrite (select_low_stock_elem (VNumber (Num t)) w p). simpl.
    by rewrite Z.leb_le.
Qed.

Lemma default_report this w :
  ∃ l, getLowStockProducts this VUndefined w = (w, Return l)
       ∧ ∀ p, p ∈ l ↔ (∃ k, db_products w !! k = Some p)
                      ∧ stock p ≤ lowStockThreshold this.
Proof.
  rewrite (getLowStockProducts_default this VUndefined w eq_refl).
  eexists. split; [reflexivity|]. intros p.
  rewrite (select_low_stock_elem (VNumber (Num (lowStockThreshold this))) w p).
  simpl. by rewrite Z.leb_le.
Qed.

(** X13. After a call of [updateStock] that returns, the row of the product
    is in the low-stock report of the default threshold exactly when the call
    has emitted [lowStock], and the event carries that very row. *)
Theorem lowStock_alert_matches_report this productId quantity transactionType
  w w' r :
  updateStock this productId quantity transactionType w = (w', Return r) →
  ∃ p' l,
    db_products w' !! str productId = Some p'
    ∧ stock p' = newStock r
    ∧ getLowStockProducts this VUndefined w' = (w', Return l)
    ∧ (p' ∈ l ↔ emitted w' = (emitted w ++ [LowStock p'])%list)
    ∧ (p' ∉ l ↔ emitted w' = emitted w).
Proof.
  intros Hcall.
  destruct (updateStock_cases this productId quantity transactionType w)
    as [[e He] | (pid & q & ty & p & new & -> & _ & _ & _ & Hp & _ & Hw)];
    [congruence|].
  rewrite Hcall in Hw.
  assert (w' = (write_stock this pid p new w).1) as -> by by rewrite <- Hw.
  assert (r = {| success := true; oldStock := stock p; newStock := new |}) as ->.
  { apply (write_stock_returns this pid p new w). by rewrite <- Hw. }
  set (w' := (write_stock this pid p new w).1).
  assert (db_products w' !! pid = Some (with_stock p new)) as Hp'.
  { unfold w'. by rewrite (write_stock_products _ _ _ _ _ Hp), lookup_insert_eq. }
  destruct (default_report this w') as (l & Hl & Hin).
  exists (with_stock p new), l. simpl.
  split; [done|]. split; [done|]. split; [done|].
  assert (with_stock p new ∈ l ↔ new ≤ lowStockThreshold this) as Hmem.
  { rewrite Hin. simpl. split; [tauto|]. eauto. }
  unfold w'. rewrite write_stock_emitted.
  destruct (Z.leb_spec new (lowStockThreshold this)) as [Hle|Hgt].
  - split; [tauto|]. split.
    + intros Hnot. destruct Hnot. by apply Hmem.
    + intros Heq. apply (f_equal length) in Heq.
      rewrite length_app in Heq. simpl in Heq. lia.
  - rewrite app_nil_r. split.
    + split; [intros H; apply Hmem in H; lia|].
      intros Heq. apply (f_equal length) in Heq.
      rewrite length_app in Heq. simpl in Heq. lia.
    + split; [done|]. intros _ H. apply Hmem in H. lia.
Qed.

Lemma lowStock_alert_matches_report_witness :
  updateStock new_InventoryManager (VString "P1") (VNumber (Num 3))
    (VString "sale") scenario
  = ({| db_products := {[ "P1" := with_stock P1 2 ]};
        db_transactions := ∅;
        auto_increment := 2;
        emitted := [LowStock (with_stock P1 2)] |},
     Return {| success := true; oldStock := 5; newStock := 2 |})
  ∧ ∃ p' (l : list product),
      db_products {| db_products := {[ "P1" := with_stock P1 2 ]};
                     db_transactions := ∅;
                     auto_increment := 2;
                     emitted := [LowStock (with_stock P1 2)] |}
      !! str (VString "P1") = Some p'
      ∧ stock p' = 2
      ∧ p' ∈ l.
Proof.
  assert (updateStock new_InventoryManager (VString "P1") (VNumber (Num 3))
            (VString "sale") scenario
          = ({| db_products := {[ "P1" := with_stock P1 2 ]};
                db_transactions := ∅;
                auto_increment := 2;
                emitted := [LowStock (with_stock P1 2)] |},
             Return {| success := true; oldStock := 5; newStock := 2 |})) as H
    by (vm_compute; reflexivity).
  split; [exact H|].
  destruct (lowStock_alert_matches_report new_InventoryManager _ _ _ _ _ _ H)
    as (p' & l & Hp' & Hs & _ & Hin & _).
  exists p', l. split; [exact Hp' | split; [exact Hs |]].
  apply Hin. simpl in Hp'. injection Hp' as <-. reflexivity.
Defined.

(** ** Inventory value *)

Lemma getInventoryValue_totals this w :
  getInventoryValue this w
  = (w,
     Return
       {| totalValue :=
            VNumber (Num (foldr Z.add 0
                            ((λ p, price p * stock p)
                               <$> (snd <$> map_to_list (db_products w)))));
          totalProducts := VNumber (Num (Z.of_nat (size (db_products w))));
          totalStock :=
            VNumber (Num (foldr Z.add 0
                            (stock <$> (snd <$> map_to_list (db_products w))))) |}).
Proof.
  unfold getInventoryValue. rewrite try_rethrow.
  unfold bind, select_inventory, ret. simpl.
  rewrite !length_fmap, length_map_to_list.
  assert (∀ l, or_0 (sql_sum l) = VNumber (Num (foldr Z.add 0 l))) as Hsum.
  { intros [|z l]; [done|]. unfold sql_sum, or_0. simpl.
    by destruct (Z.eqb_spec (z + foldr Z.add 0 l) 0) as [->|]. }
  rewrite !Hsum. do 3 f_equal. unfold or_0. simpl.
  by destruct (Z.eqb_spec (Z.of_nat (size (db_products w))) 0) as [->|].
Qed.

Lemma sum_insert_fresh (f : product → Z) (m : gmap string product) k p :
  m !! k = None →
  foldr Z.add 0 (f <$> (snd <$> map_to_list (<[k := p]> m)))
  = f p + foldr Z.add 0 (f <$> (snd <$> map_to_list m)).
Proof.
  intros Hk.
  by rewrite (sum_permutation _ _
                (fmap_Permutation _ _ _
                   (fmap_Permutation snd _ _ (map_to_list_insert _ _ _ Hk)))).
Qed.

Lemma sum_insert_present (f : product → Z) (m : gmap string product) k p p' :
  m !! k = Some p →
  foldr Z.add 0 (f <$> (snd <$> map_to_list (<[k := p']> m)))
  = foldr Z.add 0 (f <$> (snd <$> map_to_list m)) - f p + f p'.
Proof.
  intros Hk.
  rewrite <- (insert_delete_eq m k p').
  rewrite <- (insert_delete_id m k p Hk) at 2.
  rewrite !sum_insert_fresh by apply lookup_delete_eq. lia.
Qed.

(** X14. After a call of [updateStock] that returns, the inventory report
    has the same number of products, a total stock moved by
    [newStock - oldStock] and a total value moved by the price of the
    product times that difference. *)
Theorem inventory_after_updateStock this productId quantity transactionType
  w w' r v n s :
  updateStock this productId quantity transactionType w = (w', Return r) →
  getInventoryValue this w
  = (w, Return {| totalValue := VNumber (Num v);
                  totalProducts := VNumber (Num n);
                  totalStock := VNumber (Num s) |}) →
  ∃ p, db_products w !! str productId = Some p
       ∧ getInventoryValue this w'
         = (w', Return {| totalValue :=
                            VNumber (Num (v + price p * (newStock r - oldStock r)));
                          totalProducts := VNumber (Num n);
                          totalStock :=
                            VNumber (Num (s + (newStock r - oldStock r))) |}).
Proof.
  intros Hcall Hbefore.
  rewrite getInventoryValue_totals in Hbefore. injection Hbefore as <- <- <-.
  destruct (updateStock_cases this productId quantity transactionType w)
    as [[e He] | (pid & q & ty & p & new & -> & _ & _ & _ & Hp & _ & Hw)];
    [congruence|].
  rewrite Hcall in Hw.
  assert (w' = (write_stock this pid p new w).1) as -> by by rewrite <- Hw.
  assert (r = {| success := true; oldStock := stock p; newStock := new |}) as ->.
  { apply (write_stock_returns this pid p new w). by rewrite <- Hw. }
  exists p. split; [done|].
  rewrite getInventoryValue_totals, (write_stock_products _ _ _ _ _ Hp).
  rewrite !(sum_insert_present _ _ _ _ _ Hp).
  rewrite map_size_insert_Some by by exists p.
  simpl. do 5 f_equal; lia.
Qed.

Lemma inventory_after_updateStock_witness :
  updateStock new_InventoryManager (VString "P1") (VNumber (Num 3))
    (VString "sale") scenario
  = ({| db_products := {[ "P1" := with_stock P1 2 ]};
        db_transactions := ∅;
        auto_increment := 2;
        emitted := [LowStock (with_stock P1 2)] |},
     Return {| success := true; oldStock := 5; newStock := 2 |})
  ∧ getInventoryValue new_InventoryManager scenario
    = (scenario, Return {| totalValue := VNumber (Num 500);
                           totalProducts := VNumber (Num 1);
                           totalStock := VNumber (Num 5) |})
  ∧ ∃ p, db_products scenario !! "P1" = Some p
         ∧ getInventoryValue new_InventoryManager
             {| db_products := {[ "P1" := with_stock P1 2 ]};
                db_transactions := ∅;
                auto_increment := 2;
                emitted := [LowStock (with_stock P1 2)] |}
           = ({| db_products := {[ "P1" := with_stock P1 2 ]};
                 db_transactions := ∅;
                 auto_increment := 2;
                 emitted := [LowStock (with_stock P1 2)] |},
              Return {| totalValue := VNumber (Num (500 + price p * (2 - 5)));
                        totalProducts := VNumber (Num 1);
                        totalStock := VNumber (Num (5 + (2 - 5))) |}).
Proof.
  assert (updateStock new_InventoryManager (VString "P1") (VNumber (Num 3))
            (VString "sale") scenario
          = ({| db_products := {[ "P1" := with_stock P1 2 ]};
                db_transactions := ∅;
                auto_increment := 2;
                emitted := [LowStock (with_stock P1 2)] |},
             Return {| success := true; oldStock := 5; newStock := 2 |})) as H1
    by (vm_compute; reflexivity).
  assert (getInventoryValue new_InventoryManager scenario
          = (scenario, Return {| totalValue := VNumber (Num 500);
                                 totalProducts := VNumber (Num 1);
                                 totalStock := VNumber (Num 5) |})) as H2
    by (vm_compute; reflexivity).
  split; [exact H1 | split; [exact H2 |]].
  exact (inventory_after_updateStock new_InventoryManager _ _ _ _ _ _ _ _ _ H1 H2).
Defined.

(** X15. The inventory report of a store without products is all zeros,
    and after a call of [addProduct] that returns it counts one product more,
    with the stock and the value (price times stock) of the new product
    added to the totals. *)
Theorem inventory_after_addProduct this productId name price stock category
  w w' r v n s :
  addProduct this productId name price stock category w = (w', Return r) →
  getInventoryValue this w
  = (w, Return {| totalValue := VNumber (Num v);
                  totalProducts := VNumber (Num n);
                  totalStock := VNumber (Num s) |}) →
  getInventoryValue this w'
  = (w', Return {| totalValue := VNumber (Num (v + num price * num stock));
                   totalProducts := VNumber (Num (n + 1));
                   totalStock := VNumber (Num (s + num stock)) |})
  ∧ (db_products w = ∅ → v = 0 ∧ n = 0 ∧ s = 0).
Proof.
  intros Hcall Hbefore.
  rewrite getInventoryValue_totals in Hbefore. injection Hbefore as <- <- <-.
  split.
  - destruct (validateInput
                [("productId", productId); ("name", name); ("price", price);
                 ("stock", stock); ("category", category)]
                [("productId", required_string);
                 ("name", required_string);
                 ("price", required_number 0);
                 ("stock", required_number 0);
                 ("category", required_string)]) as [e0|] eqn:Hv.
    { rewrite (addProduct_invalid _ _ _ _ _ _ _ _ Hv) in Hcall. discriminate. }
    rewrite (addProduct_valid _ _ _ _ _ _ _ Hv) in Hcall.
    destruct (db_products w !! str productId) as [p|] eqn:Hp; [discriminate|].
    injection Hcall as <- <-.
    rewrite getInventoryValue_totals. simpl.
    rewrite !(sum_insert_fresh _ _ _ _ Hp), (map_size_insert_None _ _ _ Hp).
    simpl. do 5 f_equal; lia.
  - intros ->. by rewrite map_to_list_empty.
Qed.

Lemma inventory_after_addProduct_witness :
  addProduct new_InventoryManager (VString "P2") (VString "Gadget")
    (VNumber (Num 40)) (VNumber (Num 7)) (VString "Y") scenario
  = ({| db_products :=
          <["P2" := {| row_id := 2; product_id := "P2"; name := "Gadget";
                       price := 40; stock := 7; category := "Y" |}]>
            (db_products scenario);
        db_transactions := ∅;
        auto_increment := 3;
        emitted := [] |},
     Return {| add_success := true; insertId := 2 |})
  ∧ getInventoryValue new_InventoryManager scenario
    = (scenario, Return {| totalValue := VNumber (Num 500);
                           totalProducts := VNumber (Num 1);
                           totalStock := VNumber (Num 5) |})
  ∧ (getInventoryValue new_InventoryManager
       {| db_products :=
            <["P2" := {| row_id := 2; product_id := "P2"; name := "Gadget";
                         price := 40; stock := 7; category := "Y" |}]>
              (db_products scenario);
          db_transactions := ∅;
          auto_increment := 3;
          emitted := [] |}).2
    = Return {| totalValue := VNumber (Num (500 + 40 * 7));
                totalProducts := VNumber (Num (1 + 1));
                totalStock := VNumber (Num (5 + 7)) |}.
Proof.
  assert (addProduct new_InventoryManager (VString "P2") (VString "Gadget")
            (VNumber (Num 40)) (VNumber (Num 7)) (VString "Y") scenario
          = ({| db_products :=
                  <["P2" := {| row_id := 2; product_id := "P2"; name := "Gadget";
                               price := 40; stock := 7; category := "Y" |}]>
                    (db_products scenario);
                db_transactions := ∅;
                auto_increment := 3;
                emitted := [] |},
             Return {| add_success := true; insertId := 2 |})) as H1
    by (vm_compute; reflexivity).
  assert (getInventoryValue new_InventoryManager scenario
          = (scenario, Return {| totalValue := VNumber (Num 500);
                                 totalProducts := VNumber (Num 1);
                                 totalStock := VNumber (Num 5) |})) as H2
    by (vm_compute; reflexivity).
  split; [exact H1 | split; [exact H2 |]].
  pose proof (proj1 (inventory_after_addProduct new_InventoryManager _ _ _ _ _ _
                       _ _ _ _ _ H1 H2)) as H3.
  exact (f_equal snd H3).
Defined.

(** ** Pages of products *)

Lemma getProductsByCategory_page this category page limit w :
  0 ≤ limit → 0 ≤ (page - 1) * limit →
  getProductsByCategory this category page limit w
  = (w,
     Return
       {| products :=
            take (Z.to_nat limit)
              (drop (Z.to_nat ((page - 1) * limit))
                 (merge_sort by_name (rows_where (where_category category) w)));
          pagination :=
            {| currentPage := page;
               totalPages :=
                 ceil_div (length (rows_where (where_category category) w)) limit;
               totalItems := length (rows_where (where_category category) w);
               itemsPerPage := limit |} |}).
Proof.
  intros Hl Ho. unfold getProductsByCategory. rewrite try_rethrow.
  unfold bind, select_page, count_products, ret.
  destruct (Z.ltb_spec limit 0); [lia|].
  by destruct (Z.ltb_spec ((page - 1) * limit) 0); [lia|].
Qed.

Lemma ceil_div_bounds (total : nat) (limit : Z) :
  1 ≤ limit →
  ∃ tp, ceil_div total limit = QNum tp
        ∧ 0 ≤ tp
        ∧ (tp - 1) * limit < Z.of_nat total ≤ tp * limit.
Proof.
  intros Hl. unfold ceil_div. destruct (Z.eqb_spec limit 0); [lia|].
  eexists. split; [reflexivity|].
  pose proof (Z.mul_div_le (- Z.of_nat total) limit ltac:(lia)).
  pose proof (Z.mul_succ_div_gt (- Z.of_nat total) limit ltac:(lia)).
  nia.
Qed.

(** X16. For a page and a limit of at least 1, [getProductsByCategory]
    returns, leaves the world as it was, and reports the page and the limit
    it was given, the number of rows the query ranges over as [totalItems]
    (all the products when the category is undefined or empty), and as
    [totalPages] the least number of pages of [limit] rows that hold them
    all. *)
Theorem getProductsByCategory_pagination this category page limit w :
  1 ≤ page → 1 ≤ limit →
  ∃ r tp,
    getProductsByCategory this category page limit w = (w, Return r)
    ∧ currentPage (pagination r) = page
    ∧ itemsPerPage (pagination r) = limit
    ∧ totalItems (pagination r) = length (rows_where (where_category category) w)
    ∧ (category = None ∨ category = Some "" →
       totalItems (pagination r) = size (db_products w))
    ∧ totalPages (pagination r) = QNum tp
    ∧ 0 ≤ tp
    ∧ (tp - 1) * limit < Z.of_nat (totalItems (pagination r)) ≤ tp * limit.
Proof.
  intros Hp Hl.
  destruct (ceil_div_bounds (length (rows_where (where_category category) w))
              limit Hl) as (tp & Htp & Hnn & Hb).
  eexists _, tp.
  rewrite getProductsByCategory_page by nia.
  split; [reflexivity|]. split; [done|]. split; [done|]. split; [done|].
  split; [|split; [exact Htp | split; [exact Hnn | exact Hb]]].
  intros [-> | ->]; simpl; by rewrite length_fmap, length_map_to_list.
Qed.

Lemma getProductsByCategory_pagination_witness :
  1 ≤ 1 ∧ 1 ≤ 10
  ∧ ∃ r tp,
      getProductsByCategory new_InventoryManager (Some "X") 1 10 scenario
      = (scenario, Return r)
      ∧ totalPages (pagination r) = QNum tp
      ∧ (tp - 1) * 10 < Z.of_nat (totalItems (pagination r)) ≤ tp * 10.
Proof.
  assert (1 ≤ 1) as H1 by lia.
  assert (1 ≤ 10) as H2 by lia.
  split; [exact H1 | split; [exact H2 |]].
  destruct (getProductsByCategory_pagination new_InventoryManager (Some "X") 1 10
              scenario H1 H2) as (r & tp & Hr & _ & _ & _ & _ & Htp & _ & Hb).
  exists r, tp. split; [exact Hr | split; [exact Htp | exact Hb]].
Defined.

(** X17. A page holds at most [limit] products: as many as are left after
    the [(page - 1) * limit] rows of the pages before, none when they are
    all on earlier pages. *)
Theorem getProductsByCategory_page_length this category page limit w :
  1 ≤ page → 1 ≤ limit →
  ∃ r,
    getProductsByCategory this category page limit w = (w, Return r)
    ∧ Z.of_nat (length (products r))
      = Z.min limit
          (Z.max 0 (Z.of_nat (totalItems (pagination r)) - (page - 1) * limit)).
Proof.
  intros Hp Hl. eexists. rewrite getProductsByCategory_page by nia.
  split; [reflexivity|]. simpl.
  rewrite length_take, length_drop, merge_sort_Permutation. nia.
Qed.

Lemma getProductsByCategory_page_length_witness :
  1 ≤ 2 ∧ 1 ≤ 10
  ∧ ∃ r,
      getProductsByCategory new_InventoryManager None 2 10 scenario
      = (scenario, Return r)
      ∧ Z.of_nat (length (products r))
        = Z.min 10 (Z.max 0 (Z.of_nat (totalItems (pagination r)) - (2 - 1) * 10)).
Proof.
  assert (1 ≤ 2) as H1 by lia.
  assert (1 ≤ 10) as H2 by lia.
  split; [exact H1 | split; [exact H2 |]].
  exact (getProductsByCategory_page_length new_InventoryManager None 2 10 scenario
           H1 H2).
Defined.

Lemma leb_le (a b : string) :
  String.leb a b = true ↔ a = b ∨ OrderedTypeEx.String_as_OT.lt a b.
Proof.
  unfold String.leb.
  destruct (String.compare a b) eqn:Hc.
  - apply OrderedTypeEx.String_as_OT.cmp_eq in Hc. tauto.
  - apply OrderedTypeEx.String_as_OT.cmp_lt in Hc. tauto.
  - split; [discriminate|]. intros [-> | Hlt].
    + assert (String.compare b b = Eq) as Hb
        by by apply OrderedTypeEx.String_as_OT.cmp_eq.
      congruence.
    + apply OrderedTypeEx.String_as_OT.cmp_lt in Hlt.
      unfold OrderedTypeEx.String_as_OT.cmp in Hlt. congruence.
Qed.

Global Instance by_name_transitive : Transitive by_name.
Proof.
  intros p q r. unfold by_name. intros H1 H2.
  apply leb_le in H1, H2. apply leb_le.
  destruct H1 as [H1 | H1], H2 as [H2 | H2]; try (left; congruence).
  - right. by rewrite H1.
  - right. by rewrite <- H2.
  - right. by eapply OrderedTypeEx.String_as_OT.lt_trans.
Qed.

Global Instance by_name_total : Total by_name.
Proof. intros p q. apply String.leb_total. Qed.

Lemma same_name_same_row (rows : list product) p q :
  NoDup (name <$> rows) → p ∈ rows → q ∈ rows → name p = name q → p = q.
Proof.
  induction rows as [|r rows IH]; intros Hnd Hp Hq Heq.
  { by apply elem_of_nil in Hp. }
  rewrite fmap_cons in Hnd. apply NoDup_cons in Hnd as [Hr Hnd].
  apply elem_of_cons in Hp as [-> | Hp], Hq as [-> | Hq]; auto.
  - destruct Hr. rewrite Heq. by apply list_elem_of_fmap_2.
  - destruct Hr. rewrite <- Heq. by apply list_elem_of_fmap_2.
Qed.

Lemma sorted_by_name_unique (rows l : list product) :
  NoDup (name <$> rows) → l ≡ₚ rows → Sorted by_name l →
  l = merge_sort by_name rows.
Proof.
  intros Hnd Hperm Hsorted.
  apply (Sorted_unique_strong by_name); [|done|apply Sorted_merge_sort; apply _|].
  - intros p q Hp Hq Hpq Hqp.
    rewrite Hperm in Hp. rewrite merge_sort_Permutation in Hq.
    apply (same_name_same_row rows); auto.
    by apply String.leb_antisym.
  - by rewrite merge_sort_Permutation.
Qed.

Lemma chunks_concat {A} (l : list A) (n k : nat) :
  (0 < n)%nat → (length l ≤ k * n)%nat →
  concat ((λ i, take n (drop (i * n) l)) <$> seq 0 k) = l.
Proof.
  intros Hn. revert l. induction k as [|k IH]; intros l Hlen.
  - simpl in *. by destruct l; [|simpl in Hlen; lia].
  - simpl seq. rewrite fmap_cons. simpl concat.
    rewrite <- fmap_S_seq, <- list_fmap_compose.
    transitivity (take n l ++ drop n l)%list; [|apply take_drop].
    f_equal.
    rewrite <- (IH (drop n l)) by (rewrite length_drop; lia).
    f_equal. apply list_fmap_ext. intros _ i _. simpl.
    by rewrite drop_drop.
Qed.

(** The page the method returns is one of the answers the server may give. *)
Lemma page_of_answer this category limit w i :
  0 ≤ limit → (1 ≤ i)%nat →
  page_answer (where_category category) limit ((Z.of_nat i - 1) * limit) w
    (page_of this category limit w i).
Proof.
  intros Hl Hi. exists (merge_sort by_name (rows_where (where_category category) w)).
  split; [apply merge_sort_Permutation|]. split; [apply Sorted_merge_sort; apply _|].
  unfold page_of. by rewrite getProductsByCategory_page by nia.
Qed.

(** X18. When no two of the rows the query ranges over have the same name,
    the order [ORDER BY name] leaves nothing open: whatever ascending order
    the server takes for the query of each page, its answer is the page the
    method returns here, and for a limit of at least 1 the pages 1 to
    [totalPages] put one after the other are the rows the query ranges over,
    each of them once.  (With rows of the same name the queries of two pages
    may order them differently: X29.) *)
Theorem getProductsByCategory_pages_partition this category limit w tp
  (answers : nat → list product) :
  1 ≤ limit →
  NoDup (name <$> rows_where (where_category category) w) →
  ceil_div (length (rows_where (where_category category) w)) limit = QNum tp →
  (∀ i, (1 ≤ i)%nat →
        page_answer (where_category category) limit ((Z.of_nat i - 1) * limit) w
          (answers i)) →
  (∀ i, (1 ≤ i)%nat → answers i = page_of this category limit w i)
  ∧ concat (answers <$> seq 1 (Z.to_nat tp))
    ≡ₚ rows_where (where_category category) w.
Proof.
  intros Hl Hnd Htp Hans.
  assert (∀ i, (1 ≤ i)%nat → answers i = page_of this category limit w i) as Heq.
  { intros i Hi. destruct (Hans i Hi) as (l & Hperm & Hsorted & ->).
    rewrite (sorted_by_name_unique _ l Hnd Hperm Hsorted).
    unfold page_of. by rewrite getProductsByCategory_page by nia. }
  split; [done|].
  destruct (ceil_div_bounds (length (rows_where (where_category category) w))
              limit Hl) as (tp' & Htp' & Hnn & Hb).
  rewrite Htp in Htp'. injection Htp' as <-.
  transitivity (merge_sort by_name (rows_where (where_category category) w));
    [|apply merge_sort_Permutation].
  apply reflexive_eq.
  etransitivity;
    [|apply (chunks_concat _ (Z.to_nat limit) (Z.to_nat tp));
      rewrite ?merge_sort_Permutation; nia].
  rewrite <- fmap_S_seq, <- list_fmap_compose.
  f_equal. apply list_fmap_ext. intros _ i _. simpl.
  rewrite Heq by lia.
  unfold page_of. rewrite getProductsByCategory_page by nia. simpl.
  do 2 f_equal. nia.
Qed.

Lemma getProductsByCategory_pages_partition_witness :
  1 ≤ 1
  ∧ NoDup (name <$> rows_where (where_category (Some "X")) catalogue)
  ∧ ceil_div (length (rows_where (where_category (Some "X")) catalogue)) 1 = QNum 2
  ∧ (∀ i, (1 ≤ i)%nat →
          page_answer (where_category (Some "X")) 1 ((Z.of_nat i - 1) * 1) catalogue
            (page_of new_InventoryManager (Some "X") 1 catalogue i))
  ∧ page_of new_InventoryManager (Some "X") 1 catalogue 1 = [P2]
  ∧ page_of new_InventoryManager (Some "X") 1 catalogue 2 = [P1]
  ∧ concat (page_of new_InventoryManager (Some "X") 1 catalogue
              <$> seq 1 (Z.to_nat 2))
    ≡ₚ rows_where (where_category (Some "X")) catalogue.
Proof.
  assert (1 ≤ 1) as H1 by lia.
  assert (NoDup (name <$> rows_where (where_category (Some "X")) catalogue)) as H2.
  { vm_compute. apply NoDup_cons. split; [|apply NoDup_singleton].
    intros Hin. apply list_elem_of_singleton in Hin. discriminate. }
  assert (ceil_div (length (rows_where (where_category (Some "X")) catalogue)) 1
          = QNum 2) as H3 by (vm_compute; reflexivity).
  assert (∀ i, (1 ≤ i)%nat →
               page_answer (where_category (Some "X")) 1 ((Z.of_nat i - 1) * 1)
                 catalogue (page_of new_InventoryManager (Some "X") 1 catalogue i))
    as H4.
  { intros i Hi. apply page_of_answer; [lia | exact Hi]. }
  split; [exact H1 | split; [exact H2 | split; [exact H3 | split; [exact H4 |]]]].
  split; [vm_compute; reflexivity | split; [vm_compute; reflexivity |]].
  exact (proj2 (getProductsByCategory_pages_partition new_InventoryManager (Some "X")
                  1 catalogue 2 _ H1 H2 H3 H4)).
Defined.

(** X29. With two products of the same name the pages can repeat a row and
    miss another.  On [namesakes], one row a page, the method announces 2
    pages for 2 items; [ORDER BY name] lets the server put [P1] first for the
    query of page 1 and second for the query of page 2, both pages then hold
    [P1], and [P3] is on no page. *)
Theorem pages_with_equal_names_repeat this :
  (∀ i, (1 ≤ i)%nat →
        ∃ r, getProductsByCategory this (Some "X") (Z.of_nat i) 1 namesakes
             = (namesakes, Return r)
             ∧ totalPages (pagination r) = QNum 2
             ∧ totalItems (pagination r) = 2%nat)
  ∧ (∀ i, (1 ≤ i)%nat →
          page_answer (where_category (Some "X")) 1 ((Z.of_nat i - 1) * 1)
            namesakes (repeated_answers i))
  ∧ concat (repeated_answers <$> seq 1 2) = [P1; P1]
  ∧ P3 ∈ rows_where (where_category (Some "X")) namesakes
  ∧ P3 ∉ concat (repeated_answers <$> seq 1 2).
Proof.
  assert (rows_where (where_category (Some "X")) namesakes ≡ₚ [P1; P3]) as Hrows.
  { vm_compute. first [reflexivity | apply perm_swap]. }
  assert (Sorted by_name [P1; P3]) as H13 by (repeat constructor).
  assert (Sorted by_name [P3; P1]) as H31 by (repeat constructor).
  split; [|split; [|split; [|split]]].
  - intros i Hi. eexists. split.
    + apply getProductsByCategory_page; lia.
    + split; vm_compute; reflexivity.
  - intros i Hi. destruct i as [|[|[|i]]]; [lia| | |].
    + exists [P1; P3]. split; [done|]. split; [done|]. reflexivity.
    + exists [P3; P1]. split; [by rewrite Hrows; apply perm_swap|].
      split; [done|]. reflexivity.
    + exists [P1; P3]. split; [done|]. split; [done|].
      replace (Z.to_nat ((Z.of_nat (S (S (S i))) - 1) * 1)) with (S (S i)) by lia.
      simpl. by rewrite drop_nil.
  - reflexivity.
  - rewrite Hrows. apply list_elem_of_In. simpl. auto.
  - simpl. intros Hin. apply list_elem_of_In in Hin. simpl in Hin.
    destruct Hin as [H | [H | []]]; discriminate.
Qed.

(** ** The server *)

Lemma dispatch_post_products : dispatch "/products" "POST" = AddProductRoute.
Proof. reflexivity. Qed.

Lemma dispatch_post_transactions :
  dispatch "/transactions" "POST" = CreateTransactionRoute.
Proof. reflexivity. Qed.

Lemma dispatch_put_product pid :
  pid ≠ "" → dispatch ("/products/" +:+ pid) "PUT" = UpdateProductRoute pid.
Proof. intros Hpid. by destruct pid. Qed.

Section server_properties.
Context (parseInt : option string → number)
  (date_report : route → list (string * string) → M payload)
  (inventoryManager : InventoryManager).

Local Abbreviation handle := (handleRequest parseInt date_report inventoryManager).

Lemma handleRequest_route req w :
  method req ≠ "OPTIONS" →
  handle req w
  = match serve parseInt date_report inventoryManager req
            (dispatch (path req) (method req)) w with
    | (w', Return res) => (w', res)
    | (w', Throw (InventoryNotificationError message _)) =>
        (w', {| statusCode := 400; body := Failure message |})
    | (w', Throw _) =>
        (w', {| statusCode := 500; body := Failure "Internal Server Error" |})
    end.
Proof.
  intros Hm. unfold handleRequest. apply String.eqb_neq in Hm. by rewrite Hm.
Qed.

(** X22. An [OPTIONS] request is answered 200 with an empty body whatever
    its path, and a request whose method is none of [GET], [POST], [PUT] and
    [OPTIONS] ([DELETE], which the CORS headers allow, among them) is
    answered 404 "Not Found"; neither reads or writes the store. *)
Theorem options_and_other_methods req w :
  (method req = "OPTIONS" →
   handleRequest parseInt date_report inventoryManager req w
   = (w, {| statusCode := 200; body := Nothing |}))
  ∧ (method req ≠ "OPTIONS" → method req ≠ "GET" → method req ≠ "POST" →
     method req ≠ "PUT" →
     handleRequest parseInt date_report inventoryManager req w
     = (w, {| statusCode := 404; body := Failure "Not Found" |})).
Proof.
  split.
  - intros Hm. unfold handleRequest. by rewrite Hm.
  - intros Ho Hg Hpo Hpu. rewrite handleRequest_route by done.
    assert (dispatch (path req) (method req) = NotFoundRoute) as ->; [|done].
    unfold dispatch. apply String.eqb_neq in Hg, Hpo, Hpu.
    by rewrite Hg, Hpo, Hpu, !andb_false_r.
Qed.

(** X23. A body that [JSON.parse] refuses makes [POST /products],
    [POST /transactions] and [PUT /products/<id>] answer 500 "Internal
    Server Error", not 400, with nothing read or written. *)
Theorem unparsable_body req w :
  parsed_body req = None →
  (method req = "POST" ∧ (path req = "/products" ∨ path req = "/transactions")
   ∨ method req = "PUT" ∧ ∃ pid, pid ≠ "" ∧ path req = "/products/" +:+ pid) →
  handleRequest parseInt date_report inventoryManager req w
  = (w, {| statusCode := 500; body := Failure "Internal Server Error" |}).
Proof.
  intros Hbody Hroute.
  assert (method req ≠ "OPTIONS") as Hm.
  { destruct Hroute as [[-> _] | [-> _]]; discriminate. }
  rewrite handleRequest_route by done.
  destruct Hroute as [[-> [-> | ->]] | [-> (pid & Hpid & ->)]].
  - rewrite dispatch_post_products. simpl.
    unfold handleAddProduct, parseBody. by rewrite Hbody.
  - rewrite dispatch_post_transactions. simpl.
    unfold handleCreateTransaction, parseBody. by rewrite Hbody.
  - rewrite (dispatch_put_product pid Hpid). simpl.
    unfold handleUpdateProduct, parseBody. by rewrite Hbody.
Qed.
End server_properties.

Lemma unparsable_body_witness :
  handleRequest (λ _, NaN) (λ _ _, throw (Thrown "dates")) new_InventoryManager
    {| method := "POST"; path := "/transactions"; query := [];
       parsed_body := None |} scenario
  = (scenario, {| statusCode := 500; body := Failure "Internal Server Error" |}).
Proof.
  apply (unparsable_body (λ _, NaN) (λ _ _, throw (Thrown "dates"))
           new_InventoryManager
           {| method := "POST"; path := "/transactions"; query := [];
              parsed_body := None |} scenario eq_refl).
  left. split; [reflexivity | right; reflexivity].
Defined.

(** ** [validateInput] *)

(** X25. The arguments [updateStock] and [createTransaction] let through
    validation are exactly these: strings that are not empty for the ids, the
    type and the customer, and for the quantity a number of at least 1 (so
    not a numeric string, [null], [NaN] or 0); any other call throws a
    [VALIDATION_ERROR] with nothing read or written. *)
Theorem validation_lets_through this :
  (∀ productId quantity transactionType w,
      (∃ pid q ty,
          productId = VString pid ∧ pid ≠ ""
          ∧ quantity = VNumber (Num q) ∧ 1 ≤ q
          ∧ transactionType = VString ty ∧ ty ≠ "")
      ∨ ∃ message,
          updateStock this productId quantity transactionType w
          = (w, Throw (InventoryNotificationError message "VALIDATION_ERROR")))
  ∧ (∀ transactionId productId quantity type customerId w,
        (∃ tid pid q ty cid,
            transactionId = VString tid ∧ tid ≠ ""
            ∧ productId = VString pid ∧ pid ≠ ""
            ∧ quantity = VNumber (Num q) ∧ 1 ≤ q
            ∧ type = VString ty ∧ ty ≠ ""
            ∧ customerId = VString cid ∧ cid ≠ "")
        ∨ ∃ message,
            createTransaction this transactionId productId quantity type
              customerId w
            = (w, Throw (InventoryNotificationError message "VALIDATION_ERROR"))).
Proof.
  split.
  - intros productId quantity transactionType w.
    destruct (validateInput
                [("productId", productId); ("quantity", quantity);
                 ("transactionType", transactionType)]
                [("productId", required_string);
                 ("quantity", required_number 1);
                 ("transactionType", required_string)]) as [e|] eqn:Hv.
    + right. destruct (validateInput_error _ _ _ Hv) as [message ->].
      exists message. by apply updateStock_invalid.
    + left. apply validate_updateStock in Hv
        as ((pid & -> & Hpid) & (q & -> & Hq) & (ty & -> & Hty)).
      by exists pid, q, ty.
  - intros transactionId productId quantity type customerId w.
    destruct (validateInput
                [("transactionId", transactionId); ("productId", productId);
                 ("quantity", quantity); ("type", type);
                 ("customerId", customerId)]
                [("transactionId", required_string);
                 ("productId", required_string);
                 ("quantity", required_number 1);
                 ("type", required_string);
                 ("customerId", required_string)]) as [e|] eqn:Hv.
    + right. destruct (validateInput_error _ _ _ Hv) as [message ->].
      exists message. by apply createTransaction_invalid.
    + left. apply validate_createTransaction in Hv
        as ((tid & -> & Htid) & (pid & -> & Hpid) & (q & -> & Hq)
            & (ty & -> & Hty) & (cid & -> & Hcid)).
      by exists tid, pid, q, ty, cid.
Qed.

(** ** The trigger *)

Lemma alter_stock_to (m : gmap string product) k p (f : product → Z) :
  m !! k = Some p →
  alter (λ p, with_stock p (f p)) k m = <[k := with_stock p (f p)]> m.
Proof.
  intros Hk. apply map_eq. intros j.
  destruct (decide (k = j)) as [<-|Hne].
  - by rewrite lookup_alter_eq, lookup_insert_eq, Hk.
  - by rewrite lookup_alter_ne, lookup_insert_ne.
Qed.

Lemma trigger_change (NEW : transaction) w p :
  db_products w !! txn_product_id NEW = Some p →
  db_products (trg_transaction_after_insert NEW w).1
  = <[txn_product_id NEW := with_stock p (stock p + signed_quantity NEW)]>
      (db_products w).
Proof.
  intros Hp. unfold trg_transaction_after_insert, signed_quantity.
  destruct (String.eqb (txn_type NEW) "sale"); simpl.
  - by rewrite (alter_stock_to _ _ _ _ Hp).
  - destruct (String.eqb (txn_type NEW) "purchase"
              || String.eqb (txn_type NEW) "restock"); simpl.
    + by rewrite (alter_stock_to _ _ _ _ Hp).
    + rewrite Z.add_0_r, with_stock_same. symmetry. by apply insert_id.
Qed.

Lemma trigger_frame (NEW : transaction) w :
  (trg_transaction_after_insert NEW w).2 = Return tt
  ∧ db_transactions (trg_transaction_after_insert NEW w).1 = db_transactions w
  ∧ emitted (trg_transaction_after_insert NEW w).1 = emitted w.
Proof.
  unfold trg_transaction_after_insert.
  destruct (String.eqb (txn_type NEW) "sale"); [done|].
  by destruct (String.eqb (txn_type NEW) "purchase"
               || String.eqb (txn_type NEW) "restock").
Qed.

(** X26. For a product whose stock is not negative and the row of a
    purchase, a restock, or a sale the stock covers, the trigger stores the
    very stock [updateStock] stores for the same product, quantity and type
    (stock + quantity, for the sale stock - quantity, in the row of the
    product, whose other columns stay), but emits no [lowStock].  For a row
    of any other type it leaves the store as it is, where [updateStock]
    throws [INVALID_TRANSACTION_TYPE]. *)
Theorem trigger_and_updateStock this (NEW : transaction) w p :
  txn_product_id NEW ≠ "" → 1 ≤ quantity NEW → txn_type NEW ≠ "" →
  db_products w !! txn_product_id NEW = Some p → 0 ≤ stock p →
  (txn_type NEW = "purchase" ∨ txn_type NEW = "restock"
   ∨ txn_type NEW = "sale" ∧ quantity NEW ≤ stock p →
   db_products (trg_transaction_after_insert NEW w).1
   = db_products
       (updateStock this (VString (txn_product_id NEW))
          (VNumber (Num (quantity NEW))) (VString (txn_type NEW)) w).1
   ∧ emitted (trg_transaction_after_insert NEW w).1 = emitted w
   ∧ ∃ p', db_products (trg_transaction_after_insert NEW w).1
           !! txn_product_id NEW = Some p'
           ∧ same_but_stock p p'
           ∧ 0 ≤ stock p'
           ∧ stock p' = (if String.eqb (txn_type NEW) "sale"
                         then stock p - quantity NEW
                         else stock p + quantity NEW))
  ∧ (txn_type NEW ≠ "purchase" → txn_type NEW ≠ "restock" →
     txn_type NEW ≠ "sale" →
     (trg_transaction_after_insert NEW w).1 = w
     ∧ ∃ message,
         updateStock this (VString (txn_product_id NEW))
           (VNumber (Num (quantity NEW))) (VString (txn_type NEW)) w
         = (w, Throw (InventoryNotificationError message
                        "INVALID_TRANSACTION_TYPE"))).
Proof.
  intros Hpid Hq Hty Hp Hs.
  destruct (trigger_frame NEW w) as (_ & _ & Hem).
  split.
  - intros Hcase. rewrite (trigger_change _ _ _ Hp), lookup_insert_eq.
    split; [|split; [done|]].
    + unfold signed_quantity. destruct Hcase as [Hc | [Hc | [Hc Hle]]].
      * rewrite (updateStock_increase this _ _ _ w Hpid Hq Hty p Hp) by auto.
        by rewrite (write_stock_products _ _ _ _ _ Hp), Hc.
      * rewrite (updateStock_increase this _ _ _ w Hpid Hq Hty p Hp) by auto.
        by rewrite (write_stock_products _ _ _ _ _ Hp), Hc.
      * rewrite (updateStock_sale this _ _ _ w Hpid Hq Hty p Hp) by done.
        by rewrite (write_stock_products _ _ _ _ _ Hp), Hc.
    + eexists. split; [done|]. split; [done|]. simpl. unfold signed_quantity.
      destruct Hcase as [Hc | [Hc | [Hc Hle]]]; rewrite Hc; simpl; lia.
  - intros H1 H2 H3. split.
    + unfold trg_transaction_after_insert.
      apply String.eqb_neq in H1, H2, H3. by rewrite H1, H2, H3.
    + eexists. by eapply updateStock_other_type.
Qed.

Lemma trigger_and_updateStock_witness :
  "P1" ≠ "" ∧ 1 ≤ 3 ∧ "sale" ≠ "" ∧ db_products scenario !! "P1" = Some P1
  ∧ 0 ≤ stock P1
  ∧ ∃ p', db_products
            (trg_transaction_after_insert (row_of "T9" "P1" 3 "sale" "C1" P1)
               scenario).1 !! "P1" = Some p'
          ∧ same_but_stock P1 p'
          ∧ 0 ≤ stock p'
          ∧ stock p' = 2.
Proof.
  assert ("P1" ≠ "") as H1 by discriminate.
  assert (1 ≤ 3) as H2 by lia.
  assert ("sale" ≠ "") as H3 by discriminate.
  assert (db_products scenario !! "P1" = Some P1) as H4 by reflexivity.
  assert (0 ≤ stock P1) as H5 by (simpl; lia).
  split; [exact H1 | split; [exact H2 | split; [exact H3 | split; [exact H4 |]]]].
  split; [exact H5|].
  destruct (trigger_and_updateStock new_InventoryManager
              (row_of "T9" "P1" 3 "sale" "C1" P1) scenario P1 H1 H2 H3 H4 H5)
    as [Hcovered _].
  assert (quantity (row_of "T9" "P1" 3 "sale" "C1" P1) ≤ stock P1) as H6
    by (simpl; lia).
  exact (proj2 (proj2 (Hcovered (or_intror (or_intror (conj eq_refl H6)))))).
Defined.

(** X27. When the trigger has run for the row of a transaction and
    [updateStock] is then called with the product, quantity and type of that
    row, which is what [createTransaction] does on a store that has the
    trigger, the change is applied twice: a purchase or restock of [q] leaves
    stock + 2q, a sale of [q] with [2q <= stock] leaves stock - 2q, and a
    sale with [q <= stock < 2q] leaves stock - q and throws
    [INSUFFICIENT_STOCK] with the stock after the trigger as the available
    quantity. *)
Theorem trigger_then_updateStock this tid pid q ty cid w p :
  pid ≠ "" → 1 ≤ q → db_products w !! pid = Some p →
  let w1 := (trg_transaction_after_insert (row_of tid pid q ty cid p) w).1 in
  let call := updateStock this (VString pid) (VNumber (Num q)) (VString ty) w1 in
  (ty = "purchase" ∨ ty = "restock" →
   db_products call.1 = <[pid := with_stock p (stock p + 2 * q)]> (db_products w)
   ∧ ((∀ p', call_listeners (lowStock this) p' = None) →
      call.2 = Return {| success := true; oldStock := stock p + q;
                         newStock := stock p + 2 * q |}))
  ∧ (ty = "sale" → 2 * q ≤ stock p →
     db_products call.1 = <[pid := with_stock p (stock p - 2 * q)]> (db_products w)
     ∧ ((∀ p', call_listeners (lowStock this) p' = None) →
        call.2 = Return {| success := true; oldStock := stock p - q;
                           newStock := stock p - 2 * q |}))
  ∧ (ty = "sale" → q ≤ stock p < 2 * q →
     db_products call.1 = <[pid := with_stock p (stock p - q)]> (db_products w)
     ∧ call.2 = Throw (InventoryNotificationError
                         ("Insufficient stock. Available: " +:+ pretty (stock p - q)
                          +:+ ", Requested: " +:+ pretty q)
                         "INSUFFICIENT_STOCK")).
Proof.
  intros Hpid Hq Hp w1 call.
  assert (∀ d, signed_quantity (row_of tid pid q ty cid p) = d →
               db_products w1 = <[pid := with_stock p (stock p + d)]> (db_products w)
               ∧ db_products w1 !! pid = Some (with_stock p (stock p + d))) as Hw1.
  { intros d <-. unfold w1.
    rewrite (trigger_change (row_of tid pid q ty cid p) w p Hp). simpl.
    split; [done | by rewrite lookup_insert_eq]. }
  assert (∀ new new', db_products w1
                      = <[pid := with_stock p new]> (db_products w) →
            db_products (write_stock this pid (with_stock p new) new' w1).1
            = <[pid := with_stock p new']> (db_products w)) as Hwrite.
  { intros new new' Heq.
    rewrite write_stock_products by by rewrite Heq, lookup_insert_eq.
    by rewrite Heq, insert_insert_eq. }
  split; [|split].
  - intros Hcase.
    assert (ty ≠ "") as Hty by (destruct Hcase as [-> | ->]; discriminate).
    destruct (Hw1 q) as [Heq Hp1].
    { unfold signed_quantity. simpl. by destruct Hcase as [-> | ->]. }
    unfold call.
    rewrite (updateStock_increase this pid ty q w1 Hpid Hq Hty _ Hp1 Hcase).
    simpl. replace (stock p + q + q) with (stock p + 2 * q) by lia. split.
    + by apply Hwrite.
    + intros Hquiet. by rewrite write_stock_quiet.
  - intros -> Hle.
    destruct (Hw1 (- q)) as [Heq Hp1]; [done|].
    unfold call.
    rewrite (updateStock_sale this pid "sale" q w1 Hpid Hq ltac:(done) _ Hp1)
      by (done || (simpl; lia)).
    simpl. replace (stock p + - q - q) with (stock p - 2 * q) by lia. split.
    + by apply Hwrite.
    + intros Hquiet. rewrite write_stock_quiet by done.
      do 2 f_equal; lia.
  - intros -> [Hle Hlt].
    destruct (Hw1 (- q)) as [Heq Hp1]; [done|].
    unfold call.
    rewrite (updateStock_insufficient this pid "sale" q w1 Hpid Hq ltac:(done)
               _ Hp1) by (done || (simpl; lia)).
    simpl. split; [done|]. by replace (stock p + - q) with (stock p - q) by lia.
Qed.

Lemma trigger_then_updateStock_witness :
  "P1" ≠ "" ∧ 1 ≤ 3 ∧ db_products scenario !! "P1" = Some P1
  ∧ updateStock new_InventoryManager (VString "P1") (VNumber (Num 3))
      (VString "sale")
      (trg_transaction_after_insert (row_of "T1" "P1" 3 "sale" "C1" P1)
         scenario).1
    = ((trg_transaction_after_insert (row_of "T1" "P1" 3 "sale" "C1" P1)
          scenario).1,
       Throw (InventoryNotificationError
                "Insufficient stock. Available: 2, Requested: 3"
                "INSUFFICIENT_STOCK")).
Proof.
  assert ("P1" ≠ "") as H1 by discriminate.
  assert (1 ≤ 3) as H2 by lia.
  assert (db_products scenario !! "P1" = Some P1) as H3 by reflexivity.
  split; [exact H1 | split; [exact H2 | split; [exact H3 |]]].
  destruct (trigger_then_updateStock new_InventoryManager "T1" "P1" 3 "sale" "C1"
              scenario P1 H1 H2 H3) as (_ & _ & Hshort).
  destruct (Hshort eq_refl ltac:(simpl; lia)) as [_ Hthrow].
  vm_compute. vm_compute in Hthrow. exact (f_equal (pair _) Hthrow).
Defined.

(** * The class on the store of [src/database.sql]

    The properties of this part hold for every engine [db]: whatever the
    server refuses, and with the trigger run by every insert into
    [transactions]. *)

Section database.
Context (db : engine) (this : InventoryManager).

Lemma db_updateStock_invalid productId quantity transactionType w e :
  validateInput
    [("productId", productId); ("quantity", quantity);
     ("transactionType", transactionType)]
    [("productId", required_string);
     ("quantity", required_number 1);
     ("transactionType", required_string)] = Some e →
  Database.updateStock db this productId quantity transactionType w = (w, Throw e).
Proof.
  intros Hv. unfold Database.updateStock. rewrite try_rethrow.
  by rewrite (bind_throw _ _ _ _ _ (validate_fails _ _ _ _ Hv)).
Qed.

Lemma db_updateStock_valid pid q ty w :
  pid ≠ "" → 1 ≤ q → ty ≠ "" →
  Database.updateStock db this (VString pid) (VNumber (Num q)) (VString ty) w
  = match db (SELECT_product pid) w with
    | Some c => (w, Throw (DriverError c))
    | None =>
        match db_products w !! pid with
        | None =>
            (w, Throw (InventoryNotificationError
                         ("Product with ID " +:+ pid +:+ " not found")
                         "PRODUCT_NOT_FOUND"))
        | Some p =>
            if String.eqb ty "purchase" || String.eqb ty "restock" then
              db_write_stock db this pid p (stock p + q) w
            else if String.eqb ty "sale" then
              if stock p <? q then
                (w, Throw (InventoryNotificationError
                             ("Insufficient stock. Available: " +:+ pretty (stock p)
                              +:+ ", Requested: " +:+ pretty q)
                             "INSUFFICIENT_STOCK"))
              else db_write_stock db this pid p (stock p - q) w
            else
              (w, Throw (InventoryNotificationError
                           ("Invalid transaction type: " +:+ ty)
                           "INVALID_TRANSACTION_TYPE"))
        end
    end.
Proof.
  intros Hpid Hq Hty. unfold Database.updateStock. rewrite try_rethrow.
  rewrite (bind_return _ _ _ _ _
             (validate_ok _ _ _ (updateStock_valid pid ty q Hpid Hq Hty))).
  unfold bind at 1. unfold Database.select_product, Database.execute, select_product.
  simpl. destruct (db (SELECT_product pid) w) as [c|]; [done|].
  destruct (db_products w !! pid) as [p|]; [|done]. simpl.
  unfold db_write_stock, write_stock, Database.update_stock, Database.execute.
  destruct (String.eqb ty "purchase" || String.eqb ty "restock").
  { unfold bind, ret. simpl. by destruct (db (UPDATE_stock _ _) w). }
  destruct (String.eqb ty "sale"); [|done].
  destruct (stock p <? q); [done|].
  unfold bind, ret. simpl. by destruct (db (UPDATE_stock _ _) w).
Qed.

Lemma trigger_returns (NEW : transaction) w :
  trg_transaction_after_insert NEW w
  = ((trg_transaction_after_insert NEW w).1, Return tt).
Proof.
  destruct (trigger_frame NEW w) as (Hret & _).
  destruct (trg_transaction_after_insert NEW w) as [w1 o]. simpl in *. by subst.
Qed.

Lemma inserted_transactions row w :
  db_transactions (inserted row w) = <[transaction_id row := row]> (db_transactions w).
Proof.
  unfold inserted.
  by destruct (trigger_frame row
                 (set_transactions (insert (transaction_id row) row) w))
    as (_ & -> & _).
Qed.

Lemma inserted_emitted row w : emitted (inserted row w) = emitted w.
Proof.
  unfold inserted.
  by destruct (trigger_frame row
                 (set_transactions (insert (transaction_id row) row) w))
    as (_ & _ & ->).
Qed.

Lemma inserted_products row w p :
  db_products w !! txn_product_id row = Some p →
  db_products (inserted row w)
  = <[txn_product_id row := with_stock p (stock p + signed_quantity row)]>
      (db_products w).
Proof. intros Hp. unfold inserted. by rewrite (trigger_change row _ p). Qed.

Lemma db_createTransaction_invalid transactionId productId quantity type customerId
  w e :
  validateInput
    [("transactionId", transactionId); ("productId", productId);
     ("quantity", quantity); ("type", type); ("customerId", customerId)]
    [("transactionId", required_string);
     ("productId", required_string);
     ("quantity", required_number 1);
     ("type", required_string);
     ("customerId", required_string)] = Some e →
  Database.createTransaction db this transactionId productId quantity type customerId w
  = (w, Throw e).
Proof.
  intros Hv. unfold Database.createTransaction. rewrite try_rethrow.
  by rewrite (bind_throw _ _ _ _ _ (validate_fails _ _ _ _ Hv)).
Qed.

Lemma db_createTransaction_valid tid pid q ty cid w :
  tid ≠ "" → pid ≠ "" → 1 ≤ q → ty ≠ "" → cid ≠ "" →
  Database.createTransaction db this (VString tid) (VString pid) (VNumber (Num q))
    (VString ty) (VString cid) w
  = match db (SELECT_product pid) w with
    | Some c => (w, Throw (DriverError c))
    | None =>
        match db_products w !! pid with
        | None =>
            (w, Throw (InventoryNotificationError
                         ("Product with ID " +:+ pid +:+ " not found")
                         "PRODUCT_NOT_FOUND"))
        | Some p =>
            match db (INSERT_transaction (row_of tid pid q ty cid p)) w with
            | Some c => (w, Throw (DriverError c))
            | None =>
                match db_transactions w !! tid with
                | Some _ => (w, Throw (DriverError "ER_DUP_ENTRY"))
                | None =>
                    db_after_insert db this tid pid q ty cid p
                      (inserted (row_of tid pid q ty cid p) w)
                end
            end
        end
    end.
Proof.
  intros Htid Hpid Hq Hty Hcid. unfold Database.createTransaction.
  rewrite try_rethrow.
  rewrite (bind_return _ _ _ _ _
             (validate_ok _ _ _
                (createTransaction_valid tid pid q ty cid Htid Hpid Hq Hty Hcid))).
  unfold bind at 1. unfold Database.select_product, Database.execute, select_product.
  simpl. destruct (db (SELECT_product pid) w) as [c|]; [done|].
  destruct (db_products w !! pid) as [p|]; [|done]. simpl.
  fold (row_of tid pid q ty cid p).
  unfold bind at 1. unfold Database.insert_transaction, Database.execute.
  destruct (db (INSERT_transaction (row_of tid pid q ty cid p)) w) as [c|]; [done|].
  unfold bind at 1. unfold insert_transaction. simpl.
  destruct (db_transactions w !! tid) as [t|]; [done|].
  rewrite trigger_returns. done.
Qed.

Lemma db_write_stock_throws pid p new w w' e :
  (∀ p', call_listeners (lowStock this) p' = None) →
  db_write_stock db this pid p new w = (w', Throw e) →
  w' = w ∧ ∃ c, e = DriverError c ∧ db (UPDATE_stock new pid) w = Some c.
Proof.
  intros Hquiet. unfold db_write_stock, Database.execute.
  destruct (db (UPDATE_stock new pid) w) as [c|] eqn:Hdb.
  - intros [= <- <-]. eauto.
  - intros Hw. pose proof (write_stock_quiet this pid p new w Hquiet) as Hr.
    rewrite Hw in Hr. discriminate.
Qed.

Lemma db_write_stock_returns pid p new w w' r :
  db_write_stock db this pid p new w = (w', Return r) →
  db (UPDATE_stock new pid) w = None
  ∧ write_stock this pid p new w = (w', Return r).
Proof.
  unfold db_write_stock, Database.execute.
  by destruct (db (UPDATE_stock new pid) w).
Qed.

(** A valid call of [Database.updateStock] on an existing product that
    throws, no [lowStock] listener raising. *)
Lemma db_updateStock_throws pid q ty w w' e p :
  pid ≠ "" → 1 ≤ q → ty ≠ "" →
  (∀ p', call_listeners (lowStock this) p' = None) →
  db_products w !! pid = Some p →
  Database.updateStock db this (VString pid) (VNumber (Num q)) (VString ty) w
  = (w', Throw e) →
  w' = w
  ∧ (e = InventoryNotificationError
           ("Insufficient stock. Available: " +:+ pretty (stock p)
            +:+ ", Requested: " +:+ pretty q) "INSUFFICIENT_STOCK"
     ∧ ty = "sale" ∧ stock p < q
     ∨ e = InventoryNotificationError ("Invalid transaction type: " +:+ ty)
             "INVALID_TRANSACTION_TYPE"
       ∧ ty ≠ "purchase" ∧ ty ≠ "restock" ∧ ty ≠ "sale"
     ∨ ∃ c, e = DriverError c
            ∧ (db (SELECT_product pid) w = Some c
               ∨ ∃ new, db (UPDATE_stock new pid) w = Some c)).
Proof.
  intros Hpid Hq Hty Hquiet Hp. rewrite (db_updateStock_valid pid q ty w Hpid Hq Hty).
  destruct (db (SELECT_product pid) w) as [c|] eqn:Hsel.
  { intros [= <- <-]. split; [done|]. right; right. eauto. }
  rewrite Hp.
  destruct (String.eqb_spec ty "purchase") as [->|H1]; simpl.
  { intros Hw.
    destruct (db_write_stock_throws _ _ _ _ _ _ Hquiet Hw) as (-> & c & -> & Hc).
    split; [done|]. right; right. eauto. }
  destruct (String.eqb_spec ty "restock") as [->|H2]; simpl.
  { intros Hw.
    destruct (db_write_stock_throws _ _ _ _ _ _ Hquiet Hw) as (-> & c & -> & Hc).
    split; [done|]. right; right. eauto. }
  destruct (String.eqb_spec ty "sale") as [->|H3].
  - destruct (Z.ltb_spec (stock p) q).
    + intros [= <- <-]. split; [done|]. by left.
    + intros Hw.
      destruct (db_write_stock_throws _ _ _ _ _ _ Hquiet Hw)
        as (-> & c & -> & Hc).
      split; [done|]. right; right. eauto.
  - intros [= <- <-]. split; [done|]. right; left. done.
Qed.

(** A valid call of [Database.updateStock] on an existing product that
    returns. *)
Lemma db_updateStock_returns pid q ty w w' r p :
  pid ≠ "" → 1 ≤ q → ty ≠ "" →
  db_products w !! pid = Some p →
  Database.updateStock db this (VString pid) (VNumber (Num q)) (VString ty) w
  = (w', Return r) →
  ∃ new,
    ((ty = "purchase" ∨ ty = "restock") ∧ new = stock p + q
     ∨ ty = "sale" ∧ q ≤ stock p ∧ new = stock p - q)
    ∧ db (SELECT_product pid) w = None
    ∧ db (UPDATE_stock new pid) w = None
    ∧ write_stock this pid p new w = (w', Return r).
Proof.
  intros Hpid Hq Hty Hp. rewrite (db_updateStock_valid pid q ty w Hpid Hq Hty).
  destruct (db (SELECT_product pid) w) as [c|] eqn:Hsel; [done|].
  rewrite Hp.
  destruct (String.eqb_spec ty "purchase") as [->|H1]; simpl.
  { intros Hw. apply db_write_stock_returns in Hw as [Hdb Hw]. eauto 10. }
  destruct (String.eqb_spec ty "restock") as [->|H2]; simpl.
  { intros Hw. apply db_write_stock_returns in Hw as [Hdb Hw]. eauto 10. }
  destruct (String.eqb_spec ty "sale") as [->|H3]; [|done].
  destruct (Z.ltb_spec (stock p) q); [done|].
  intros Hw. apply db_write_stock_returns in Hw as [Hdb Hw].
  exists (stock p - q). eauto 10.
Qed.

Lemma db_after_insert_throw tid pid q ty cid p w w' e :
  Database.updateStock db this (VString pid) (VNumber (Num q)) (VString ty) w
  = (w', Throw e) →
  db_after_insert db this tid pid q ty cid p w = (w', Throw e).
Proof. intros H. unfold db_after_insert. by rewrite (bind_throw _ _ _ _ _ H). Qed.

Lemma db_after_insert_return tid pid q ty cid p w w' r :
  Database.updateStock db this (VString pid) (VNumber (Num q)) (VString ty) w
  = (w', Return r) →
  db_after_insert db this tid pid q ty cid p w
  = (record_emit (TransactionComplete (event_of tid pid q ty cid p)) w',
     match call_listeners (transactionComplete this) (event_of tid pid q ty cid p) with
     | Some e => Throw e
     | None => Return {| txn_success := true; totalAmount := price p * q |}
     end).
Proof.
  intros H. unfold db_after_insert. rewrite (bind_return _ _ _ _ _ H).
  unfold bind, emit, ret. by destruct (call_listeners _ _).
Qed.

(** A call of [Database.createTransaction] that throws, no listener raising:
    what it throws and what it leaves. *)
Lemma db_createTransaction_throws transactionId productId quantity type
  customerId w w' e :
  quiet this →
  Database.createTransaction db this transactionId productId quantity type
    customerId w = (w', Throw e) →
  (w' = w
   ∧ (has_type e "VALIDATION_ERROR" ∨ has_type e "PRODUCT_NOT_FOUND"
      ∨ ∃ c, e = DriverError c))
  ∨ (∃ p p',
        db_products w !! str productId = Some p
        ∧ db_transactions w !! str transactionId = None
        ∧ db_transactions w'
          = <[str transactionId :=
                row_of (str transactionId) (str productId) (num quantity) (str type)
                  (str customerId) p]> (db_transactions w)
        ∧ db_products w' = <[str productId := p']> (db_products w)
        ∧ same_but_stock p p'
        ∧ emitted w' = emitted w
        ∧ (has_type e "INSUFFICIENT_STOCK" ∧ type = VString "sale"
           ∧ stock p' = stock p - num quantity ∧ stock p' < num quantity
           ∨ has_type e "INVALID_TRANSACTION_TYPE" ∧ stock p' = stock p
           ∨ (∃ c, e = DriverError c)
             ∧ stock p'
               = stock p
                 + signed_quantity
                     (row_of (str transactionId) (str productId) (num quantity)
                        (str type) (str customerId) p))).
Proof.
  intros [Hlow Hdone] Hcall.
  destruct (validateInput
              [("transactionId", transactionId); ("productId", productId);
               ("quantity", quantity); ("type", type); ("customerId", customerId)]
              [("transactionId", required_string);
               ("productId", required_string);
               ("quantity", required_number 1);
               ("type", required_string);
               ("customerId", required_string)]) as [e0|] eqn:Hv.
  { rewrite (db_createTransaction_invalid _ _ _ _ _ _ _ Hv) in Hcall.
    injection Hcall as <- <-. left. split; [done|]. left.
    by eapply validateInput_error. }
  apply validate_createTransaction in Hv
    as ((tid & -> & Htid) & (pid & -> & Hpid) & (q & -> & Hq)
        & (ty & -> & Hty) & (cid & -> & Hcid)).
  rewrite (db_createTransaction_valid tid pid q ty cid w Htid Hpid Hq Hty Hcid)
    in Hcall. simpl.
  destruct (db (SELECT_product pid) w) as [c|].
  { injection Hcall as <- <-. left. eauto. }
  destruct (db_products w !! pid) as [p|] eqn:Hp.
  2: { injection Hcall as <- <-. left. split; [done|]. right; left. by eexists. }
  destruct (db (INSERT_transaction (row_of tid pid q ty cid p)) w) as [c|].
  { injection Hcall as <- <-. left. eauto. }
  destruct (db_transactions w !! tid) as [t|] eqn:Ht.
  { injection Hcall as <- <-. left. eauto. }
  set (row := row_of tid pid q ty cid p) in *.
  set (w1 := inserted row w) in *.
  assert (db_products w1 = <[pid := with_stock p (stock p + signed_quantity row)]>
                             (db_products w)) as Hprod.
  { by apply (inserted_products row w p). }
  assert (db_products w1 !! pid = Some (with_stock p (stock p + signed_quantity row)))
    as Hp1 by by rewrite Hprod, lookup_insert_eq.
  destruct (Database.updateStock db this (VString pid) (VNumber (Num q)) (VString ty)
              w1) as [w2 [r|e2]] eqn:Hupd.
  { rewrite (db_after_insert_return _ _ _ _ _ _ _ _ _ Hupd), Hdone in Hcall.
    discriminate. }
  rewrite (db_after_insert_throw _ _ _ _ _ _ _ _ _ Hupd) in Hcall.
  injection Hcall as <- <-.
  destruct (db_updateStock_throws pid q ty w1 w2 e2 _ Hpid Hq Hty Hlow Hp1 Hupd)
    as [-> Hkind].
  right. exists p, (with_stock p (stock p + signed_quantity row)).
  split; [done|]. split; [done|].
  split; [apply (inserted_transactions row w)|].
  split; [done|]. split; [done|].
  split; [apply inserted_emitted|]. simpl.
  destruct Hkind as [(-> & -> & Hlt) | [(-> & H1 & H2 & H3) | (c & -> & _)]].
  - left. split; [by eexists|]. split; [done|]. simpl in Hlt.
    unfold signed_quantity in *. simpl in *. lia.
  - right; left. split; [by eexists|].
    unfold signed_quantity. simpl.
    apply String.eqb_neq in H1, H2, H3. rewrite H1, H2, H3. simpl. lia.
  - right; right. eauto.
Qed.


(** A call of [Database.createTransaction] that returns: what it was given,
    what it found and what it has written. *)
Lemma db_createTransaction_returns transactionId productId quantity type
  customerId w w' r :
  Database.createTransaction db this transactionId productId quantity type
    customerId w = (w', Return r) →
  ∃ tid pid q ty cid p new,
    transactionId = VString tid ∧ productId = VString pid
    ∧ quantity = VNumber (Num q) ∧ type = VString ty ∧ customerId = VString cid
    ∧ 1 ≤ q
    ∧ db_products w !! pid = Some p
    ∧ db_transactions w !! tid = None
    ∧ ((ty = "purchase" ∨ ty = "restock") ∧ new = stock p + 2 * q
       ∨ ty = "sale" ∧ 2 * q ≤ stock p ∧ new = stock p - 2 * q)
    ∧ db_products w' = <[pid := with_stock p new]> (db_products w)
    ∧ db_transactions w' = <[tid := row_of tid pid q ty cid p]> (db_transactions w)
    ∧ r = {| txn_success := true; totalAmount := price p * q |}.
Proof.
  intros Hcall.
  destruct (validateInput
              [("transactionId", transactionId); ("productId", productId);
               ("quantity", quantity); ("type", type); ("customerId", customerId)]
              [("transactionId", required_string);
               ("productId", required_string);
               ("quantity", required_number 1);
               ("type", required_string);
               ("customerId", required_string)]) as [e0|] eqn:Hv.
  { rewrite (db_createTransaction_invalid _ _ _ _ _ _ _ Hv) in Hcall. discriminate. }
  apply validate_createTransaction in Hv
    as ((tid & -> & Htid) & (pid & -> & Hpid) & (q & -> & Hq)
        & (ty & -> & Hty) & (cid & -> & Hcid)).
  rewrite (db_createTransaction_valid tid pid q ty cid w Htid Hpid Hq Hty Hcid)
    in Hcall.
  destruct (db (SELECT_product pid) w) as [c|]; [discriminate|].
  destruct (db_products w !! pid) as [p|] eqn:Hp; [|discriminate].
  destruct (db (INSERT_transaction (row_of tid pid q ty cid p)) w) as [c|];
    [discriminate|].
  destruct (db_transactions w !! tid) as [t|] eqn:Ht; [discriminate|].
  set (row := row_of tid pid q ty cid p) in *.
  set (w1 := inserted row w) in *.
  assert (db_products w1 = <[pid := with_stock p (stock p + signed_quantity row)]>
                             (db_products w)) as Hprod.
  { by apply (inserted_products row w p). }
  assert (db_products w1 !! pid = Some (with_stock p (stock p + signed_quantity row)))
    as Hp1 by by rewrite Hprod, lookup_insert_eq.
  destruct (Database.updateStock db this (VString pid) (VNumber (Num q)) (VString ty)
              w1) as [w2 [r2|e2]] eqn:Hupd.
  2: { rewrite (db_after_insert_throw _ _ _ _ _ _ _ _ _ Hupd) in Hcall.
       discriminate. }
  rewrite (db_after_insert_return _ _ _ _ _ _ _ _ _ Hupd) in Hcall.
  destruct (call_listeners _ _); [discriminate|]. injection Hcall as <- <-.
  destruct (db_updateStock_returns pid q ty w1 w2 r2 _ Hpid Hq Hty Hp1 Hupd)
    as (new & Hnew & _ & _ & Hw).
  pose proof (write_stock_products this pid _ new w1 Hp1) as Hprod2.
  pose proof (write_stock_transactions this pid
                (with_stock p (stock p + signed_quantity row)) new w1) as Htx.
  rewrite Hw in Hprod2, Htx. simpl in Hprod2, Htx.
  exists tid, pid, q, ty, cid, p, new. simpl.
  rewrite Hprod2, Htx, Hprod, insert_insert_eq. unfold w1.
  rewrite (inserted_transactions row w).
  repeat split; try done.
  unfold signed_quantity in Hnew. simpl in Hnew.
  destruct Hnew as [[[-> | ->] ->] | (-> & Hle & ->)]; simpl in *.
  - left. split; [auto | lia].
  - left. split; [auto | lia].
  - right. split; [done|]. lia.
Qed.

(** C9.  A call of [createTransaction] that returns, returns
    [{success: true, totalAmount}] with [totalAmount] the stored price of
    the product times the quantity, the amounts also written in the inserted
    row.  But the sale of 3 of a product priced 100 with stock 5 does not
    return on the store of the script, whenever the engine carries out the
    statements of the call: the trigger of the [INSERT] has left stock 2,
    [updateStock] finds 2 < 3 and throws [INSUFFICIENT_STOCK], and the row of
    the transaction stays. *)
Theorem createTransaction_totalAmount :
  (∀ transactionId productId quantity type customerId w w' r,
      Database.createTransaction db this transactionId productId quantity type
        customerId w = (w', Return r) →
      ∃ p, db_products w !! str productId = Some p
           ∧ r = {| txn_success := true;
                    totalAmount := price p * num quantity |}
           ∧ db_transactions w' !! str transactionId
             = Some (row_of (str transactionId) (str productId) (num quantity)
                       (str type) (str customerId) p))
  ∧ (∀ tid pid cid w p,
        tid ≠ "" → pid ≠ "" → cid ≠ "" →
        db_products w !! pid = Some p → db_transactions w !! tid = None →
        price p = 100 → stock p = 5 →
        db (SELECT_product pid) w = None →
        db (INSERT_transaction (row_of tid pid 3 "sale" cid p)) w = None →
        db (SELECT_product pid) (inserted (row_of tid pid 3 "sale" cid p) w) = None →
        let call := Database.createTransaction db this (VString tid) (VString pid)
                      (VNumber (Num 3)) (VString "sale") (VString cid) w in
        call.2 = Throw (InventoryNotificationError
                          "Insufficient stock. Available: 2, Requested: 3"
                          "INSUFFICIENT_STOCK")
        ∧ (∃ p', db_products call.1 !! pid = Some p' ∧ stock p' = 2)
        ∧ db_transactions call.1 !! tid = Some (row_of tid pid 3 "sale" cid p)).
Proof.
  split.
  - intros transactionId productId quantity type customerId w w' r Hcall.
    destruct (db_createTransaction_returns _ _ _ _ _ _ _ _ Hcall)
      as (tid & pid & q & ty & cid & p & new & -> & -> & -> & -> & -> & _ & Hp & _
          & _ & _ & Htx & ->).
    exists p. simpl. by rewrite Htx, lookup_insert_eq.
  - intros tid pid cid w p Htid Hpid Hcid Hp Ht Hprice Hs Hsel Hins Hsel1 call.
    unfold call.
    rewrite (db_createTransaction_valid tid pid 3 "sale" cid w Htid Hpid
               ltac:(lia) ltac:(done) Hcid), Hsel, Hp, Hins, Ht.
    set (row := row_of tid pid 3 "sale" cid p) in *.
    assert (db_products (inserted row w)
            = <[pid := with_stock p (stock p + signed_quantity row)]> (db_products w))
      as Hprod by by apply (inserted_products row w p).
    assert (db_products (inserted row w) !! pid
            = Some (with_stock p (stock p + signed_quantity row))) as Hp1
      by by rewrite Hprod, lookup_insert_eq.
    assert (Database.updateStock db this (VString pid) (VNumber (Num 3))
              (VString "sale") (inserted row w)
            = (inserted row w,
               Throw (InventoryNotificationError
                        "Insufficient stock. Available: 2, Requested: 3"
                        "INSUFFICIENT_STOCK"))) as Hupd.
    { rewrite (db_updateStock_valid pid 3 "sale" _ Hpid ltac:(lia) ltac:(done)).
      rewrite Hsel1, Hp1. simpl. rewrite Hs. done. }
    rewrite (db_after_insert_throw _ _ _ _ _ _ _ _ _ Hupd). cbn [fst snd].
    split; [done|]. split.
    + eexists. split; [exact Hp1|]. simpl. rewrite Hs. done.
    + by rewrite (inserted_transactions row w), lookup_insert_eq.
Qed.

Lemma db_addProduct_invalid productId name price stock category w e :
  validateInput
    [("productId", productId); ("name", name); ("price", price);
     ("stock", stock); ("category", category)]
    [("productId", required_string);
     ("name", required_string);
     ("price", required_number 0);
     ("stock", required_number 0);
     ("category", required_string)] = Some e →
  Database.addProduct db this productId name price stock category w = (w, Throw e).
Proof.
  intros Hv. destruct (validateInput_error _ _ _ Hv) as [message ->].
  unfold Database.addProduct, try_catch.
  by rewrite (bind_throw _ _ _ _ _ (validate_fails _ _ _ _ Hv)).
Qed.

Lemma db_addProduct_valid productId name price stock category w :
  validateInput
    [("productId", productId); ("name", name); ("price", price);
     ("stock", stock); ("category", category)]
    [("productId", required_string);
     ("name", required_string);
     ("price", required_number 0);
     ("stock", required_number 0);
     ("category", required_string)] = None →
  Database.addProduct db this productId name price stock category w
  = match db (INSERT_product (str productId) (str name) (num price) (num stock)
                (str category)) w with
    | Some c =>
        (w, Throw (if bool_decide (c = "ER_DUP_ENTRY") then
                     InventoryNotificationError
                       ("Product with ID " +:+ show productId +:+ " already exists")
                       "DUPLICATE_PRODUCT"
                   else DriverError c))
    | None => addProduct this productId name price stock category w
    end.
Proof.
  intros Hv. unfold Database.addProduct, addProduct, try_catch.
  rewrite !(bind_return _ _ _ _ _ (validate_ok _ _ _ Hv)).
  unfold bind, Database.insert_product, Database.execute.
  destruct (db (INSERT_product _ _ _ _ _) w) as [c|]; [|done].
  simpl. destruct (decide (c = "ER_DUP_ENTRY")) as [->|Hne].
  - done.
  - rewrite !bool_decide_eq_false_2; [done | done | congruence].
Qed.

(** A call of [Database.addProduct] that throws. *)
Lemma db_addProduct_throws productId name price stock category w w' e :
  Database.addProduct db this productId name price stock category w = (w', Throw e) →
  (db_products w' = db_products w ∧ db_transactions w' = db_transactions w
   ∧ emitted w' = emitted w)
  ∧ (has_type e "VALIDATION_ERROR"
     ∨ e = InventoryNotificationError
             ("Product with ID " +:+ str productId +:+ " already exists")
             "DUPLICATE_PRODUCT"
       ∧ valid_string productId
       ∧ (is_Some (db_products w !! str productId)
          ∨ db (INSERT_product (str productId) (str name) (num price) (num stock)
                  (str category)) w = Some "ER_DUP_ENTRY")
     ∨ ∃ c, e = DriverError c ∧ c ≠ "ER_DUP_ENTRY"
            ∧ db (INSERT_product (str productId) (str name) (num price) (num stock)
                    (str category)) w = Some c).
Proof.
  intros Hcall.
  destruct (validateInput
              [("productId", productId); ("name", name); ("price", price);
               ("stock", stock); ("category", category)]
              [("productId", required_string);
               ("name", required_string);
               ("price", required_number 0);
               ("stock", required_number 0);
               ("category", required_string)]) as [e0|] eqn:Hv.
  { rewrite (db_addProduct_invalid _ _ _ _ _ _ _ Hv) in Hcall.
    injection Hcall as <- <-. split; [done|]. left. by eapply validateInput_error. }
  rewrite (db_addProduct_valid _ _ _ _ _ _ Hv) in Hcall.
  pose proof Hv as Hv'.
  apply validate_addProduct in Hv' as ((pid & -> & Hpid) & _).
  destruct (db (INSERT_product _ _ _ _ _) w) as [c|] eqn:Hdb.
  - injection Hcall as <- <-. split; [done|]. right.
    destruct (decide (c = "ER_DUP_ENTRY")) as [->|Hne].
    + left. simpl. split; [done|]. split; [by exists pid | by right].
    + right. exists c. by rewrite bool_decide_eq_false_2.
  - destruct (addProduct_throw_unchanged _ _ _ _ _ _ _ _ _ Hcall)
      as [-> [Hval | (-> & Hvs & Hex)]]; auto 10.
Qed.

(** X1. A call of [addProduct] that throws has left the rows of both tables
    as they were and emitted nothing, and what it throws is a
    [VALIDATION_ERROR], or [DUPLICATE_PRODUCT] with the product id in the
    message (for an id that is already a product, or when the engine reports
    [ER_DUP_ENTRY]), or, when the engine refuses the [INSERT] with any other
    code, the driver's error as it came, which is no
    [InventoryNotificationError]. *)
Theorem addProduct_all_or_nothing productId name price stock category w w' e :
  Database.addProduct db this productId name price stock category w = (w', Throw e) →
  (db_products w' = db_products w ∧ db_transactions w' = db_transactions w
   ∧ emitted w' = emitted w)
  ∧ (has_type e "VALIDATION_ERROR"
     ∨ e = InventoryNotificationError
             ("Product with ID " +:+ str productId +:+ " already exists")
             "DUPLICATE_PRODUCT"
       ∧ valid_string productId
       ∧ (is_Some (db_products w !! str productId)
          ∨ db (INSERT_product (str productId) (str name) (num price) (num stock)
                  (str category)) w = Some "ER_DUP_ENTRY")
     ∨ ∃ c, e = DriverError c ∧ c ≠ "ER_DUP_ENTRY"
            ∧ db (INSERT_product (str productId) (str name) (num price) (num stock)
                    (str category)) w = Some c).
Proof. apply db_addProduct_throws. Qed.

(** A call of [Database.updateStock] that throws, no [lowStock] listener
    raising. *)
Lemma db_updateStock_throw_kinds productId quantity transactionType w w' e :
  (∀ p, call_listeners (lowStock this) p = None) →
  Database.updateStock db this productId quantity transactionType w = (w', Throw e) →
  w' = w
  ∧ (has_type e "VALIDATION_ERROR" ∨ has_type e "PRODUCT_NOT_FOUND"
     ∨ has_type e "INSUFFICIENT_STOCK" ∨ has_type e "INVALID_TRANSACTION_TYPE"
     ∨ ∃ c, e = DriverError c
            ∧ (db (SELECT_product (str productId)) w = Some c
               ∨ ∃ new, db (UPDATE_stock new (str productId)) w = Some c)).
Proof.
  intros Hquiet Hcall.
  destruct (validateInput
              [("productId", productId); ("quantity", quantity);
               ("transactionType", transactionType)]
              [("productId", required_string);
               ("quantity", required_number 1);
               ("transactionType", required_string)]) as [e0|] eqn:Hv.
  { rewrite (db_updateStock_invalid _ _ _ _ _ Hv) in Hcall.
    injection Hcall as <- <-. split; [done|]. left. by eapply validateInput_error. }
  apply validate_updateStock in Hv
    as ((pid & -> & Hpid) & (q & -> & Hq) & (ty & -> & Hty)).
  destruct (db_products w !! pid) as [p|] eqn:Hp.
  - destruct (db_updateStock_throws pid q ty w w' e p Hpid Hq Hty Hquiet Hp Hcall)
      as [-> [(-> & _) | [(-> & _) | (c & -> & Hc)]]].
    + split; [done|]. right; right; left. by eexists.
    + split; [done|]. right; right; right; left. by eexists.
    + split; [done|]. right; right; right; right. eauto.
  - rewrite (db_updateStock_valid pid q ty w Hpid Hq Hty), Hp in Hcall.
    destruct (db (SELECT_product pid) w) as [c|] eqn:Hsel;
      injection Hcall as <- <-; (split; [done|]).
    + right; right; right; right. eauto.
    + right; left. by eexists.
Qed.

(** X5. When no [lowStock] listener raises, a call of [updateStock] that
    throws has written nothing and emitted nothing, and what it throws is a
    [VALIDATION_ERROR], [PRODUCT_NOT_FOUND], [INSUFFICIENT_STOCK] or
    [INVALID_TRANSACTION_TYPE], or the driver's error of a [SELECT] or an
    [UPDATE] the engine refuses. *)
Theorem updateStock_all_or_nothing productId quantity transactionType w w' e :
  (∀ p, call_listeners (lowStock this) p = None) →
  Database.updateStock db this productId quantity transactionType w = (w', Throw e) →
  w' = w
  ∧ (has_type e "VALIDATION_ERROR" ∨ has_type e "PRODUCT_NOT_FOUND"
     ∨ has_type e "INSUFFICIENT_STOCK" ∨ has_type e "INVALID_TRANSACTION_TYPE"
     ∨ ∃ c, e = DriverError c
            ∧ (db (SELECT_product (str productId)) w = Some c
               ∨ ∃ new, db (UPDATE_stock new (str productId)) w = Some c)).
Proof. apply db_updateStock_throw_kinds. Qed.

(** X11. On the store of the script a call of [createTransaction] that
    returns has moved the stock of its product by twice what the row it
    inserted stands for, once by the trigger and once by [updateStock]: the
    stock minus twice the net of the rows of a product is the same before
    and after, for every product. *)
Theorem ledger_counted_twice transactionId productId quantity type customerId
  k w w' r :
  Database.createTransaction db this transactionId productId quantity type
    customerId w = (w', Return r) →
  stock_of k w' - 2 * net_of k w' = stock_of k w - 2 * net_of k w
  ∧ ∃ t, db_transactions w' !! str transactionId = Some t
         ∧ stock_of (str productId) w'
           = stock_of (str productId) w + 2 * signed_quantity t.
Proof.
  intros Hcall.
  destruct (db_createTransaction_returns _ _ _ _ _ _ _ _ Hcall)
    as (tid & pid & q & ty & cid & p & new & -> & -> & -> & -> & -> & Hq & Hp & Ht
        & Hnew & Hprod & Htx & _).
  assert (new = stock p + 2 * signed_quantity (row_of tid pid q ty cid p)) as Hnew'.
  { unfold signed_quantity. simpl.
    destruct Hnew as [[[-> | ->] ->] | (-> & _ & ->)]; simpl; lia. }
  assert (stock_of pid w = stock p) as Hs by (unfold stock_of; by rewrite Hp).
  split.
  - rewrite (net_of_insert k w w' tid _ Ht Htx), (stock_of_insert k w w' pid _ Hprod).
    simpl. destruct (decide (pid = k)) as [<-|Hne].
    + rewrite String.eqb_refl, Hs. lia.
    + apply String.eqb_neq in Hne. rewrite Hne. lia.
  - exists (row_of tid pid q ty cid p). simpl.
    split; [by rewrite Htx, lookup_insert_eq|].
    rewrite (stock_of_insert pid w w' pid _ Hprod), decide_True by done.
    simpl. lia.
Qed.

Lemma db_updateStock_nonneg k productId quantity transactionType w w' r :
  Database.updateStock db this productId quantity transactionType w = (w', Return r) →
  stock_nonneg k w → stock_nonneg k w'.
Proof.
  intros Hcall Hw.
  destruct (validateInput
              [("productId", productId); ("quantity", quantity);
               ("transactionType", transactionType)]
              [("productId", required_string);
               ("quantity", required_number 1);
               ("transactionType", required_string)]) as [e0|] eqn:Hv.
  { rewrite (db_updateStock_invalid _ _ _ _ _ Hv) in Hcall. discriminate. }
  apply validate_updateStock in Hv
    as ((pid & -> & Hpid) & (q & -> & Hq) & (ty & -> & Hty)).
  destruct (db_products w !! pid) as [p|] eqn:Hp.
  2: { rewrite (db_updateStock_valid pid q ty w Hpid Hq Hty), Hp in Hcall.
       by destruct (db (SELECT_product pid) w). }
  destruct (db_updateStock_returns pid q ty w w' r p Hpid Hq Hty Hp Hcall)
    as (new & Hnew & _ & _ & Hwrite).
  pose proof (write_stock_nonneg this k pid p new w Hp) as Hnn.
  rewrite Hwrite in Hnn. apply Hnn; [|done].
  destruct Hnew as [[_ ->] | (_ & Hle & ->)]; lia.
Qed.

Lemma db_createTransaction_nonneg k transactionId productId quantity type
  customerId w w' r :
  Database.createTransaction db this transactionId productId quantity type
    customerId w = (w', Return r) →
  stock_nonneg k w → stock_nonneg k w'.
Proof.
  intros Hcall Hw.
  destruct (db_createTransaction_returns _ _ _ _ _ _ _ _ Hcall)
    as (tid & pid & q & ty & cid & p & new & _ & _ & _ & _ & _ & Hq & Hp & _
        & Hnew & Hprod & _).
  unfold stock_nonneg in *. rewrite Hprod.
  destruct (decide (pid = k)) as [<-|Hne].
  - rewrite lookup_insert_eq. rewrite Hp in Hw. simpl.
    destruct Hnew as [[_ ->] | (_ & Hle & ->)]; lia.
  - by rewrite lookup_insert_ne.
Qed.

(** X28. On the store of the script too, whatever the engine refuses and
    with the trigger run by every insert: a product whose stock is not
    negative still has a stock that is not negative after any sequence of
    [updateStock] and [createTransaction] calls that each return. *)
Theorem database_stock_never_negative ops k w w' :
  stock_nonneg k w → db_all_succeed db this ops w = Some w' → stock_nonneg k w'.
Proof.
  revert w. induction ops as [|o ops IH]; simpl; intros w Hw Hrun.
  - by injection Hrun as <-.
  - destruct o as [a b c | a b c d e]; simpl in Hrun.
    + destruct (Database.updateStock db this a b c w) as [w1 [r|e0]] eqn:Hcall;
        simpl in Hrun; [|discriminate].
      apply (IH w1); [|done]. by eapply db_updateStock_nonneg.
    + destruct (Database.createTransaction db this a b c d e w)
        as [w1 [r|e0]] eqn:Hcall; simpl in Hrun; [|discriminate].
      apply (IH w1); [|done]. by eapply db_createTransaction_nonneg.
Qed.
End database.

(** ** The server on the store of [src/database.sql] *)

Section database_server.
Context (db : engine) (parseInt : option string → number)
  (date_report : route → list (string * string) → M payload)
  (inventoryManager : InventoryManager).

Lemma db_handleRequest_route req w :
  method req ≠ "OPTIONS" →
  Database.handleRequest db parseInt date_report inventoryManager req w
  = match Database.serve db parseInt date_report inventoryManager req
            (dispatch (path req) (method req)) w with
    | (w', Return res) => (w', res)
    | (w', Throw (InventoryNotificationError message _)) =>
        (w', {| statusCode := 400; body := Failure message |})
    | (w', Throw _) =>
        (w', {| statusCode := 500; body := Failure "Internal Server Error" |})
    end.
Proof.
  intros Hm. unfold Database.handleRequest. apply String.eqb_neq in Hm.
  by rewrite Hm.
Qed.

(** X19. [POST /products] with a body that parses leaves the store as the
    call of [addProduct] leaves it and answers 201 with its result, or 400
    with the message of a [VALIDATION_ERROR] or a [DUPLICATE_PRODUCT], or,
    when the engine refuses the [INSERT] with a code other than
    [ER_DUP_ENTRY], 500 "Internal Server Error"; when it answers 400 or 500
    the rows of both tables are as they were and nothing was emitted. *)
Theorem post_products_response req w fields :
  method req = "POST" → path req = "/products" → parsed_body req = Some fields →
  let call := Database.addProduct db inventoryManager (get fields "productId")
                (get fields "name") (get fields "price") (get fields "stock")
                (get fields "category") w in
  let answer := Database.handleRequest db parseInt date_report inventoryManager
                  req w in
  answer.1 = call.1
  ∧ ((∃ r, call.2 = Return r
           ∧ answer.2 = {| statusCode := 201;
                           body := Success (Some "Product added successfully")
                                     (AddData r) |})
     ∨ (db_products answer.1 = db_products w
        ∧ db_transactions answer.1 = db_transactions w
        ∧ emitted answer.1 = emitted w)
       ∧ ((∃ message type,
              call.2 = Throw (InventoryNotificationError message type)
              ∧ (type = "VALIDATION_ERROR" ∨ type = "DUPLICATE_PRODUCT")
              ∧ answer.2 = {| statusCode := 400; body := Failure message |})
          ∨ (∃ c, call.2 = Throw (DriverError c) ∧ c ≠ "ER_DUP_ENTRY"
                  ∧ db (INSERT_product (str (get fields "productId"))
                          (str (get fields "name")) (num (get fields "price"))
                          (num (get fields "stock")) (str (get fields "category")))
                      w = Some c
                  ∧ answer.2 = {| statusCode := 500;
                                  body := Failure "Internal Server Error" |}))).
Proof.
  intros Hm Hpath Hbody call answer. unfold answer.
  rewrite db_handleRequest_route by (rewrite Hm; discriminate).
  rewrite Hm, Hpath, dispatch_post_products. simpl.
  unfold Database.handleAddProduct, parseBody. rewrite Hbody.
  rewrite (bind_return _ _ w w fields eq_refl). fold call.
  destruct call as [w' [r|e]] eqn:Hcall.
  - rewrite (bind_return _ _ _ _ _ Hcall). simpl. split; [done|]. left. eauto.
  - rewrite (bind_throw _ _ _ _ _ Hcall).
    destruct (db_addProduct_throws db inventoryManager _ _ _ _ _ _ _ _ Hcall)
      as [Hkept [[m ->] | [[-> _] | (c & -> & Hc & Hdb)]]]; simpl.
    + split; [done|]. right. split; [done|]. left. eauto 10.
    + split; [done|]. right. split; [done|]. left. eauto 10.
    + split; [done|]. right. split; [done|]. right. eauto 10.
Qed.

(** X20. [PUT /products/<id>] with a body that parses, no [lowStock]
    listener raising, leaves the store as the call of [updateStock] on that
    id leaves it and answers 200 with its result, or, with nothing written,
    400 with the message of a [VALIDATION_ERROR], [PRODUCT_NOT_FOUND],
    [INSUFFICIENT_STOCK] or [INVALID_TRANSACTION_TYPE], or 500 "Internal
    Server Error" when the engine refuses the [SELECT] or the [UPDATE]. *)
Theorem put_product_response req w fields pid :
  method req = "PUT" → path req = "/products/" +:+ pid → pid ≠ "" →
  parsed_body req = Some fields →
  (∀ p, call_listeners (lowStock inventoryManager) p = None) →
  let call := Database.updateStock db inventoryManager (VString pid)
                (get fields "quantity") (get fields "transactionType") w in
  let answer := Database.handleRequest db parseInt date_report inventoryManager
                  req w in
  answer.1 = call.1
  ∧ ((∃ r, call.2 = Return r
           ∧ answer.2 = {| statusCode := 200;
                           body := Success (Some "Stock updated successfully")
                                     (StockData r) |})
     ∨ answer.1 = w
       ∧ ((∃ message type,
              call.2 = Throw (InventoryNotificationError message type)
              ∧ (type = "VALIDATION_ERROR" ∨ type = "PRODUCT_NOT_FOUND"
                 ∨ type = "INSUFFICIENT_STOCK" ∨ type = "INVALID_TRANSACTION_TYPE")
              ∧ answer.2 = {| statusCode := 400; body := Failure message |})
          ∨ (∃ c, call.2 = Throw (DriverError c)
                  ∧ (db (SELECT_product pid) w = Some c
                     ∨ ∃ new, db (UPDATE_stock new pid) w = Some c)
                  ∧ answer.2 = {| statusCode := 500;
                                  body := Failure "Internal Server Error" |}))).
Proof.
  intros Hm Hpath Hpid Hbody Hquiet call answer. unfold answer.
  rewrite db_handleRequest_route by (rewrite Hm; discriminate).
  rewrite Hm, Hpath, (dispatch_put_product pid Hpid). simpl.
  unfold Database.handleUpdateProduct, parseBody. rewrite Hbody.
  rewrite (bind_return _ _ w w fields eq_refl). fold call.
  destruct call as [w' [r|e]] eqn:Hcall.
  - rewrite (bind_return _ _ _ _ _ Hcall). simpl. split; [done|]. left. eauto.
  - rewrite (bind_throw _ _ _ _ _ Hcall).
    destruct (db_updateStock_throw_kinds db inventoryManager _ _ _ _ _ _ Hquiet Hcall)
      as [-> [[m ->] | [[m ->] | [[m ->] | [[m ->] | (c & -> & Hc)]]]]]; simpl;
      (split; [done|]); right; (split; [done|]); [left; eauto 10 ..|].
    right. eauto 10.
Qed.

(** X21. [POST /transactions] with a body that parses, no listener
    raising, leaves the store as the call of [createTransaction] leaves it
    and answers 201 with its result, or 400 with the message of the error,
    or 500 "Internal Server Error" for an error of the driver.  A 400 for a
    [VALIDATION_ERROR] or [PRODUCT_NOT_FOUND] has written nothing; a 400 for
    [INSUFFICIENT_STOCK] or [INVALID_TRANSACTION_TYPE] has left the row of
    the transaction, absent before, in the table.  A transaction id that is
    already a row, the fields being valid, the product existing and the
    engine carrying out the statements, is answered 500 with nothing
    written. *)
Theorem post_transactions_response req w fields :
  method req = "POST" → path req = "/transactions" →
  parsed_body req = Some fields → quiet inventoryManager →
  let call := Database.createTransaction db inventoryManager
                (get fields "transactionId") (get fields "productId")
                (get fields "quantity") (get fields "type")
                (get fields "customerId") w in
  let answer := Database.handleRequest db parseInt date_report inventoryManager
                  req w in
  (answer.1 = call.1
   ∧ ((∃ r, call.2 = Return r
            ∧ answer.2 = {| statusCode := 201;
                            body := Success (Some "Transaction created successfully")
                                      (TransactionData r) |})
      ∨ (∃ message type,
            call.2 = Throw (InventoryNotificationError message type)
            ∧ answer.2 = {| statusCode := 400; body := Failure message |}
            ∧ ((type = "VALIDATION_ERROR" ∨ type = "PRODUCT_NOT_FOUND")
               ∧ answer.1 = w
               ∨ (type = "INSUFFICIENT_STOCK" ∨ type = "INVALID_TRANSACTION_TYPE")
                 ∧ db_transactions w !! str (get fields "transactionId") = None
                 ∧ is_Some (db_transactions answer.1
                              !! str (get fields "transactionId"))))
      ∨ (∃ c, call.2 = Throw (DriverError c)
              ∧ answer.2 = {| statusCode := 500;
                              body := Failure "Internal Server Error" |})))
  ∧ (∀ p,
       valid_string (get fields "transactionId")
       → valid_string (get fields "productId")
       → valid_quantity (get fields "quantity")
       → valid_string (get fields "type")
       → valid_string (get fields "customerId")
       → db_products w !! str (get fields "productId") = Some p
       → is_Some (db_transactions w !! str (get fields "transactionId"))
       → db (SELECT_product (str (get fields "productId"))) w = None
       → db (INSERT_transaction
               (row_of (str (get fields "transactionId"))
                  (str (get fields "productId")) (num (get fields "quantity"))
                  (str (get fields "type")) (str (get fields "customerId")) p)) w
         = None
       → answer
         = (w, {| statusCode := 500; body := Failure "Internal Server Error" |})).
Proof.
  intros Hm Hpath Hbody Hquiet call answer. unfold answer.
  rewrite db_handleRequest_route by (rewrite Hm; discriminate).
  rewrite Hm, Hpath, dispatch_post_transactions. simpl.
  unfold Database.handleCreateTransaction, parseBody. rewrite Hbody.
  rewrite (bind_return _ _ w w fields eq_refl). fold call.
  split.
  - destruct call as [w' [r|e]] eqn:Hcall.
    + rewrite (bind_return _ _ _ _ _ Hcall). simpl. split; [done|]. left. eauto.
    + rewrite (bind_throw _ _ _ _ _ Hcall).
      destruct (db_createTransaction_throws db inventoryManager _ _ _ _ _ _ _ _
                  Hquiet Hcall)
        as [[-> [[m ->] | [[m ->] | [c ->]]]]
           | (p & p' & Hp & Ht & Htx & _ & _ & _
              & [([m ->] & _) | [([m ->] & _) | ([c ->] & _)]])]; simpl;
        (split; [done|]).
      * right; left. eauto 10.
      * right; left. eauto 10.
      * right; right. eauto.
      * right; left. do 2 eexists. split; [done|]. split; [done|]. right.
        split; [auto|]. split; [done|]. rewrite Htx, lookup_insert_eq. by eexists.
      * right; left. do 2 eexists. split; [done|]. split; [done|]. right.
        split; [auto|]. split; [done|]. rewrite Htx, lookup_insert_eq. by eexists.
      * right; right. eauto.
  - intros p (tid & Etid & Htid) (pid & Epid & Hpid) (q & Eq & Hq) (ty & Ety & Hty)
      (cid & Ecid & Hcid). unfold call.
    rewrite Etid, Epid, Eq, Ety, Ecid. simpl. intros Hp [t Ht] Hsel Hins.
    assert (Database.createTransaction db inventoryManager (VString tid)
              (VString pid) (VNumber (Num q)) (VString ty) (VString cid) w
            = (w, Throw (DriverError "ER_DUP_ENTRY"))) as Hcall.
    { by rewrite (db_createTransaction_valid db inventoryManager tid pid q ty cid w
                    Htid Hpid Hq Hty Hcid), Hsel, Hp, Hins, Ht. }
    by rewrite (bind_throw _ _ _ _ _ Hcall).
Qed.
End database_server.



Lemma createTransaction_totalAmount_witness :
  (db_T1_call permissive).2
  = Throw (InventoryNotificationError
             "Insufficient stock. Available: 2, Requested: 3"
             "INSUFFICIENT_STOCK")
  ∧ (∃ p', db_products (db_T1_call permissive).1 !! "P1" = Some p' ∧ stock p' = 2)
  ∧ db_transactions (db_T1_call permissive).1 !! "T1"
    = Some (row_of "T1" "P1" 3 "sale" "C1" P1).
Proof.
  assert ("T1" ≠ "") as H1 by discriminate.
  assert ("P1" ≠ "") as H2 by discriminate.
  assert ("C1" ≠ "") as H3 by discriminate.
  assert (db_products scenario !! "P1" = Some P1) as H4 by reflexivity.
  assert (db_transactions scenario !! "T1" = None) as H5 by reflexivity.
  exact (proj2 (createTransaction_totalAmount permissive new_InventoryManager)
           "T1" "P1" "C1" scenario P1 H1 H2 H3 H4 H5 eq_refl eq_refl
           eq_refl eq_refl eq_refl).
Defined.

Lemma addProduct_all_or_nothing_witness :
  Database.addProduct checking new_InventoryManager (VString "P2")
    (VString "Gadget") (VNumber (Num (-5))) (VNumber (Num 3)) (VString "X") scenario
  = (scenario, Throw (DriverError "ER_CHECK_CONSTRAINT_VIOLATED"))
  ∧ Database.addProduct permissive new_InventoryManager (VString "P1")
      (VString "Widget") (VNumber (Num 100)) (VNumber (Num 5)) (VString "X") scenario
    = (scenario,
       Throw (InventoryNotificationError "Product with ID P1 already exists"
                "DUPLICATE_PRODUCT"))
  ∧ ∃ c, c ≠ "ER_DUP_ENTRY"
         ∧ checking (INSERT_product "P2" "Gadget" (-5) 3 "X") scenario = Some c.
Proof.
  assert (Database.addProduct checking new_InventoryManager (VString "P2")
            (VString "Gadget") (VNumber (Num (-5))) (VNumber (Num 3)) (VString "X")
            scenario
          = (scenario, Throw (DriverError "ER_CHECK_CONSTRAINT_VIOLATED"))) as H1
    by (vm_compute; reflexivity).
  assert (Database.addProduct permissive new_InventoryManager (VString "P1")
            (VString "Widget") (VNumber (Num 100)) (VNumber (Num 5)) (VString "X")
            scenario
          = (scenario,
             Throw (InventoryNotificationError "Product with ID P1 already exists"
                      "DUPLICATE_PRODUCT"))) as H2 by (vm_compute; reflexivity).
  split; [exact H1 | split; [exact H2 |]].
  destruct (addProduct_all_or_nothing checking new_InventoryManager
              _ _ _ _ _ _ _ _ H1)
    as [_ [[m Hm] | [[Hdup _] | (c & _ & Hc & Hdb)]]].
  - discriminate.
  - discriminate.
  - exists c. split; [exact Hc | exact Hdb].
Defined.

Lemma updateStock_all_or_nothing_witness :
  (∀ p, call_listeners (lowStock new_InventoryManager) p = None)
  ∧ Database.updateStock checking new_InventoryManager (VString "P1")
      (VNumber (Num 6)) (VString "sale") scenario
    = (scenario,
       Throw (InventoryNotificationError
                "Insufficient stock. Available: 5, Requested: 6"
                "INSUFFICIENT_STOCK"))
  ∧ (has_type (InventoryNotificationError
                 "Insufficient stock. Available: 5, Requested: 6"
                 "INSUFFICIENT_STOCK") "VALIDATION_ERROR"
     ∨ has_type (InventoryNotificationError
                   "Insufficient stock. Available: 5, Requested: 6"
                   "INSUFFICIENT_STOCK") "PRODUCT_NOT_FOUND"
     ∨ has_type (InventoryNotificationError
                   "Insufficient stock. Available: 5, Requested: 6"
                   "INSUFFICIENT_STOCK") "INSUFFICIENT_STOCK"
     ∨ has_type (InventoryNotificationError
                   "Insufficient stock. Available: 5, Requested: 6"
                   "INSUFFICIENT_STOCK") "INVALID_TRANSACTION_TYPE"
     ∨ ∃ c, InventoryNotificationError
              "Insufficient stock. Available: 5, Requested: 6"
              "INSUFFICIENT_STOCK" = DriverError c
            ∧ (checking (SELECT_product (str (VString "P1"))) scenario = Some c
               ∨ ∃ new, checking (UPDATE_stock new (str (VString "P1"))) scenario
                        = Some c)).
Proof.
  assert (∀ p, call_listeners (lowStock new_InventoryManager) p = None) as H1
    by (intros; reflexivity).
  assert (Database.updateStock checking new_InventoryManager (VString "P1")
            (VNumber (Num 6)) (VString "sale") scenario
          = (scenario,
             Throw (InventoryNotificationError
                      "Insufficient stock. Available: 5, Requested: 6"
                      "INSUFFICIENT_STOCK"))) as H2 by (vm_compute; reflexivity).
  split; [exact H1 | split; [exact H2 |]].
  exact (proj2 (updateStock_all_or_nothing checking new_InventoryManager
                  _ _ _ _ _ _ H1 H2)).
Defined.

Lemma ledger_counted_twice_witness :
  (Database.createTransaction checking new_InventoryManager (VString "T1")
     (VString "P1") (VNumber (Num 2)) (VString "sale") (VString "C1") scenario).2
  = Return {| txn_success := true; totalAmount := 200 |}
  ∧ stock_of "P1" scenario = 5
  ∧ stock_of "P1"
      (Database.createTransaction checking new_InventoryManager (VString "T1")
         (VString "P1") (VNumber (Num 2)) (VString "sale") (VString "C1")
         scenario).1 = 1
  ∧ stock_of "P1"
      (Database.createTransaction checking new_InventoryManager (VString "T1")
         (VString "P1") (VNumber (Num 2)) (VString "sale") (VString "C1")
         scenario).1
    - 2 * net_of "P1"
          (Database.createTransaction checking new_InventoryManager (VString "T1")
             (VString "P1") (VNumber (Num 2)) (VString "sale") (VString "C1")
             scenario).1
    = stock_of "P1" scenario - 2 * net_of "P1" scenario.
Proof.
  assert (Database.createTransaction checking new_InventoryManager (VString "T1")
            (VString "P1") (VNumber (Num 2)) (VString "sale") (VString "C1") scenario
          = ((Database.createTransaction checking new_InventoryManager
                (VString "T1") (VString "P1") (VNumber (Num 2)) (VString "sale")
                (VString "C1") scenario).1,
             Return {| txn_success := true; totalAmount := 200 |})) as H
    by (vm_compute; reflexivity).
  split; [exact (f_equal snd H)|].
  split; [reflexivity|]. split; [vm_compute; reflexivity|].
  exact (proj1 (ledger_counted_twice checking new_InventoryManager
                  _ _ _ _ _ "P1" _ _ _ H)).
Defined.

Lemma database_stock_never_negative_witness :
  stock_nonneg "P1" scenario
  ∧ (∃ w', db_all_succeed checking new_InventoryManager
             [CreateTransaction (VString "T1") (VString "P1") (VNumber (Num 2))
                (VString "sale") (VString "C1");
              UpdateStock (VString "P1") (VNumber (Num 1)) (VString "sale")]
             scenario = Some w'
           ∧ stock_of "P1" w' = 0
           ∧ stock_nonneg "P1" w').
Proof.
  assert (stock_nonneg "P1" scenario) as H1 by (vm_compute; discriminate).
  split; [exact H1|].
  destruct (db_all_succeed checking new_InventoryManager
              [CreateTransaction (VString "T1") (VString "P1") (VNumber (Num 2))
                 (VString "sale") (VString "C1");
               UpdateStock (VString "P1") (VNumber (Num 1)) (VString "sale")]
              scenario) as [w'|] eqn:H2; [|vm_compute in H2; discriminate].
  exists w'. split; [reflexivity|]. split.
  - vm_compute in H2. injection H2 as <-. vm_compute. reflexivity.
  - exact (database_stock_never_negative checking new_InventoryManager _ "P1"
             scenario w' H1 H2).
Defined.

Lemma post_products_response_witness :
  "POST" = "POST" ∧ "/products" = "/products"
  ∧ (Database.handleRequest checking (λ _, NaN) (λ _ _, throw (Thrown "dates"))
       new_InventoryManager
       {| method := "POST"; path := "/products"; query := [];
          parsed_body := Some [("productId", VString "P2");
                               ("name", VString "Gadget");
                               ("price", VNumber (Num (-5)));
                               ("stock", VNumber (Num 3));
                               ("category", VString "X")] |} scenario).2
    = {| statusCode := 500; body := Failure "Internal Server Error" |}.
Proof.
  split; [reflexivity | split; [reflexivity |]].
  destruct (post_products_response checking (λ _, NaN)
              (λ _ _, throw (Thrown "dates")) new_InventoryManager
              {| method := "POST"; path := "/products"; query := [];
                 parsed_body := Some [("productId", VString "P2");
                                      ("name", VString "Gadget");
                                      ("price", VNumber (Num (-5)));
                                      ("stock", VNumber (Num 3));
                                      ("category", VString "X")] |}
              scenario _ eq_refl eq_refl eq_refl)
    as [_ [(r & Hr & _)
          | [_ [(message & type & Hthrow & _) | (c & _ & _ & _ & Hanswer)]]]].
  - vm_compute in Hr. discriminate.
  - vm_compute in Hthrow. discriminate.
  - exact Hanswer.
Defined.

Lemma put_product_response_witness :
  "PUT" = "PUT" ∧ "P1" ≠ ""
  ∧ (∀ p, call_listeners (lowStock new_InventoryManager) p = None)
  ∧ (Database.handleRequest checking (λ _, NaN) (λ _ _, throw (Thrown "dates"))
       new_InventoryManager
       {| method := "PUT"; path := "/products/P1"; query := [];
          parsed_body := Some [("quantity", VNumber (Num 6));
                               ("transactionType", VString "sale")] |} scenario).1
    = scenario
  ∧ (Database.handleRequest checking (λ _, NaN) (λ _ _, throw (Thrown "dates"))
       new_InventoryManager
       {| method := "PUT"; path := "/products/P1"; query := [];
          parsed_body := Some [("quantity", VNumber (Num 6));
                               ("transactionType", VString "sale")] |} scenario).2
    = {| statusCode := 400;
         body := Failure "Insufficient stock. Available: 5, Requested: 6" |}.
Proof.
  assert ("P1" ≠ "") as H1 by discriminate.
  assert (∀ p, call_listeners (lowStock new_InventoryManager) p = None) as H2
    by (intros; reflexivity).
  split; [reflexivity | split; [exact H1 | split; [exact H2 |]]].
  destruct (put_product_response checking (λ _, NaN)
              (λ _ _, throw (Thrown "dates")) new_InventoryManager
              {| method := "PUT"; path := "/products/P1"; query := [];
                 parsed_body := Some [("quantity", VNumber (Num 6));
                                      ("transactionType", VString "sale")] |}
              scenario _ "P1" eq_refl eq_refl H1 eq_refl H2)
    as [_ [(r & Hr & _)
          | [Hsame [(message & type & Hthrow & _ & Hanswer) | (c & Hthrow & _)]]]].
  - vm_compute in Hr. discriminate.
  - split; [exact Hsame|]. rewrite Hanswer.
    vm_compute in Hthrow. injection Hthrow as <- _. reflexivity.
  - vm_compute in Hthrow. discriminate.
Defined.

Lemma post_transactions_response_witness :
  "POST" = "POST" ∧ "/transactions" = "/transactions"
  ∧ quiet new_InventoryManager
  ∧ (Database.handleRequest checking (λ _, NaN) (λ _ _, throw (Thrown "dates"))
       new_InventoryManager
       {| method := "POST"; path := "/transactions"; query := [];
          parsed_body := Some [("transactionId", VString "T1");
                               ("productId", VString "P1");
                               ("quantity", VNumber (Num 3));
                               ("type", VString "sale");
                               ("customerId", VString "C1")] |} scenario).2
    = {| statusCode := 400;
         body := Failure "Insufficient stock. Available: 2, Requested: 3" |}
  ∧ db_transactions scenario !! "T1" = None
  ∧ is_Some
      (db_transactions
         (Database.handleRequest checking (λ _, NaN)
            (λ _ _, throw (Thrown "dates")) new_InventoryManager
            {| method := "POST"; path := "/transactions"; query := [];
               parsed_body := Some [("transactionId", VString "T1");
                                    ("productId", VString "P1");
                                    ("quantity", VNumber (Num 3));
                                    ("type", VString "sale");
                                    ("customerId", VString "C1")] |} scenario).1
         !! "T1").
Proof.
  assert (quiet new_InventoryManager) as H1 by (split; intros; reflexivity).
  split; [reflexivity | split; [reflexivity | split; [exact H1 |]]].
  destruct (proj1 (post_transactions_response checking (λ _, NaN)
                     (λ _ _, throw (Thrown "dates")) new_InventoryManager
                     {| method := "POST"; path := "/transactions"; query := [];
                        parsed_body := Some [("transactionId", VString "T1");
                                             ("productId", VString "P1");
                                             ("quantity", VNumber (Num 3));
                                             ("type", VString "sale");
                                             ("customerId", VString "C1")] |}
                     scenario _ eq_refl eq_refl eq_refl H1))
    as [_ [(r & Hr & _)
          | [(message & type & Hthrow & Hanswer
              & [[_ Hsame] | (_ & Hnone & Hsome)])
            | (c & Hthrow & _)]]].
  - vm_compute in Hr. discriminate.
  - apply (f_equal (λ w, db_transactions w !! "T1")) in Hsame. discriminate.
  - split; [|split; [exact Hnone | exact Hsome]]. rewrite Hanswer.
    vm_compute in Hthrow. injection Hthrow as <- _. reflexivity.
  - vm_compute in Hthrow. discriminate.
Defined.
